(** * Lyra Registry: trust score, registry handlers and trending ranker

    A shallow embedding of the decision logic of the registry:

    - [CalculateScore], [ScoreDisplay]: [src/lib/calculateScore.ts], the
      trust score (flags, weights, percentage, grade) and its display;
    - [Schema]: the rows of the [tools] and [tool_usage_logs] tables of
      [src/db/schema.ts];
    - [ToolsRoute]: [POST /api/tools] and [PATCH /api/tools/:id] on the
      tools table;
    - [TrendingRoute]: [GET /api/trending];
    - [Registry]: the handlers of tools and categories as transitions
      on the tables they touch;
    - [Listing], [Health], [Discovery]: the pages of the listings, the
      statistics of the health check and the discovery queue.

    Numbers.  The scores of the source are JavaScript numbers that only
    ever hold integers (the weight table holds integer literals, the
    default weight is 5, the columns they are stored in are [integer]);
    they are embedded as [Z].  The two percentages are quotients; they
    are embedded as exact rationals [Q], and [Math.round] as
    [floor (x + 1/2)].  [ScoreDoubles] repeats the percentages and the
    grade in binary64 arithmetic, the arithmetic JavaScript performs, and
    [ScoreFacts.doubles_agree] shows that on the nine flags and the
    fixed weights it decides and rounds as the exact arithmetic does.
    The statements about the score are therefore made on the nine flags
    and the fixed weights, except where the percentages play no part.

    Tables.  A table is the list of its rows in one order.  Postgres
    promises no order where the query asks for none and leaves ties of
    an [ORDER BY] open; the statements speak of membership, of
    permutations and of sortedness, which hold for every such order.

    Counts.  A [count] of Postgres is a [bigint], which the driver
    hands over as its decimal text.  Where a handler converts it with
    [Number(..)] the count is embedded as the number; the trending
    ranker does not convert it and computes with the text, which
    [JsValue] makes explicit. *)

From Stdlib Require Import ZArith QArith Qround Lia Ascii.
From Stdlib Require Import Floats.PrimFloat Numbers.Cyclic.Int63.Uint63.
From Stdlib Require Import Sorting.Sorted Sorting.Permutation.
From stdpp Require Import base option list gmap strings pretty sorting.

(** ** JavaScript idioms shared by the modules *)

(** [x || d] on a number that may be [undefined]: [undefined] and [0]
    are falsy. *)
Definition num_or (x : option Z) (d : Z) : Z :=
  match x with
  | Some v => if Z.eqb v 0 then d else v
  | None => d
  end.

(** [Boolean(x)] on an optional boolean. *)
Definition Boolean (x : option bool) : bool :=
  match x with
  | Some v => v
  | None => false
  end.

(** [x ?? y]. *)
Definition nullish {A : Type} (x : option A) (y : A) : A :=
  match x with
  | Some v => v
  | None => y
  end.

(** Truthiness of an optional string: [undefined] and the empty string
    are falsy. *)
Definition truthy_string (x : option string) : option string :=
  match x with
  | Some EmptyString => None
  | other => other
  end.

(** A JavaScript value of the two kinds the trending ranker computes
    with: a number that holds an integer, and a string. *)
Inductive JsValue : Type :=
  | JsNumber (n : Z)
  | JsString (s : string).

#[global] Instance JsValue_eq_dec : EqDecision JsValue.
Proof. solve_decision. Defined.

(** [x || d] on a value that may be [undefined]: [undefined], [0] and
    the empty string are falsy. *)
Definition js_or (x : option JsValue) (d : JsValue) : JsValue :=
  match x with
  | None => d
  | Some (JsNumber n) => if Z.eqb n 0 then d else JsNumber n
  | Some (JsString EmptyString) => d
  | Some (JsString s) => JsString s
  end.

(** [ToString]: a number that holds an integer is written in decimal
    digits, with a minus sign when it is negative (the integers here
    stay far below 10^21, where the exponent notation starts). *)
Definition ToString (v : JsValue) : string :=
  match v with
  | JsNumber n => pretty n
  | JsString s => s
  end.

(** [x + y]: the sum of two numbers; as soon as one operand is a
    string, the concatenation of both operands as strings. *)
Definition js_add (x y : JsValue) : JsValue :=
  match x, y with
  | JsNumber a, JsNumber b => JsNumber (a + b)
  | _, _ => JsString (ToString x +:+ ToString y)
  end.

Definition digitValue (c : ascii) : option Z :=
  let n := Z.of_N (N_of_ascii c) in
  if (48 <=? n)%Z && (n <=? 57)%Z then Some (n - 48)%Z else None.

(** The value of a run of decimal digits read after [acc]; [None] when
    another character occurs. *)
Fixpoint digitsValue (acc : Z) (s : string) : option Z :=
  match s with
  | EmptyString => Some acc
  | String c rest =>
      match digitValue c with
      | Some d => digitsValue (10 * acc + d) rest
      | None => None
      end
  end.

(** [ToNumber], with [None] for [NaN].  Of a string it is given for
    the strings made of decimal digits and signs, which are the only
    ones the ranker builds: the empty string is 0, a run of digits with
    an optional sign in front is its value, and a sign anywhere else
    makes it [NaN].  (A number of JavaScript holds an integer exactly
    up to 2^53; a usage count followed by a score stays below that.) *)
Definition ToNumber (v : JsValue) : option Z :=
  match v with
  | JsNumber n => Some n
  | JsString s =>
      match s with
      | EmptyString => Some 0%Z
      | String "-" (String c rest) => Z.opp <$> digitsValue 0 (String c rest)
      | String "+" (String c rest) => digitsValue 0 (String c rest)
      | _ => digitsValue 0 s
      end
  end.

(** [x - y] as the result of a comparator of [Array.prototype.sort]:
    the operands are converted with [ToNumber], and a result of [NaN]
    counts as 0. *)
Definition js_compare_minus (x y : JsValue) : Z :=
  match ToNumber x, ToNumber y with
  | Some a, Some b => (a - b)%Z
  | _, _ => 0%Z
  end.

(** [Math.round]: the nearest integer, halves going up. *)
Definition Math_round (x : Q) : Z := Qfloor (x + (1 # 2)).

Definition Qltb (x y : Q) : bool := negb (Qle_bool y x).

(** ** src/lib/calculateScore.ts *)

Module CalculateScore.

Inductive Grade : Type := grade_a | grade_b | grade_f.

#[global] Instance Grade_eq_dec : EqDecision Grade.
Proof. solve_decision. Defined.

Record ScoreItem : Type := mkScoreItem {
  check : bool;
  required : option bool;
  weight : option Z;
}.

Record ScoreResult : Type := mkScoreResult {
  grade : Grade;
  maxRequiredScore : Z;
  maxScore : Z;
  percentage : Z;
  requiredPercentage : Z;
  requiredScore : Z;
  totalScore : Z;
}.

Record ScoreFlags : Type := mkScoreFlags {
  hasClaimed : bool;
  hasDeployMoreThanManual : bool;
  hasDeployment : bool;
  hasLicense : bool;
  hasPrompts : bool;
  hasReadme : bool;
  hasResources : bool;
  hasTools : bool;
  hasValidated : bool;
}.

(** The argument of [calculateScoreFlags] and [calculateToolScore]:
    every field is optional. *)
Record ToolData : Type := mkToolData {
  isValidated : option bool;
  data_hasTools : option bool;
  data_hasDeployment : option bool;
  data_hasDeployMoreThanManual : option bool;
  data_hasReadme : option bool;
  data_hasLicense : option bool;
  data_hasPrompts : option bool;
  data_hasResources : option bool;
  isClaimed : option bool;
}.

Definition DEFAULT_WEIGHTS : gmap string Z :=
  list_to_map
    [ ("validated", 20); ("tools", 15); ("deployment", 15);
      ("deployMoreThanManual", 12); ("readme", 10); ("license", 8);
      ("prompts", 8); ("resources", 8); ("claimed", 4) ]%Z.

Definition calculateScoreFlags (data : ToolData) : ScoreFlags :=
  {| hasValidated := Boolean (isValidated data);
     hasTools := Boolean (data_hasTools data);
     hasDeployment := Boolean (data_hasDeployment data);
     hasDeployMoreThanManual := Boolean (data_hasDeployMoreThanManual data);
     hasReadme := Boolean (data_hasReadme data);
     hasLicense := Boolean (data_hasLicense data);
     hasPrompts := Boolean (data_hasPrompts data);
     hasResources := Boolean (data_hasResources data);
     hasClaimed := Boolean (isClaimed data) |}.

Definition item (c : bool) (r : option bool) : ScoreItem :=
  {| check := c; required := r; weight := None |}.

(** The object literal of [createScoreItems], as the list of its
    entries in insertion order (the order of [Object.entries]). *)
Definition createScoreItems (flags : ScoreFlags) : list (string * ScoreItem) :=
  [ ("validated", item (hasValidated flags) (Some true));
    ("tools", item (hasTools flags) (Some true));
    ("deployment", item (hasDeployment flags) (Some true));
    ("readme", item (hasReadme flags) (Some true));
    ("deployMoreThanManual", item (hasDeployMoreThanManual flags) None);
    ("license", item (hasLicense flags) None);
    ("prompts", item (hasPrompts flags) None);
    ("resources", item (hasResources flags) None);
    ("claimed", item (hasClaimed flags) None) ].

(** The four counters the loop of [calculateScore] mutates. *)
Record Tally : Type := mkTally {
  t_totalScore : Z;
  t_maxScore : Z;
  t_requiredScore : Z;
  t_maxRequiredScore : Z;
}.

Definition tally0 : Tally := mkTally 0 0 0 0.

(** [weights[key] || 5], for a key that is a property of the weight
    table itself or of no object at all.  (A key such as [constructor],
    which every object inherits, would yield a function there and turn
    the sums into strings; the nine keys of [createScoreItems] are not
    of that kind.) *)
Definition weightOf (weights : gmap string Z) (key : string) : Z :=
  num_or (weights !! key) 5.

(** One turn of the [forEach] callback. *)
Definition step (weights : gmap string Z) (acc : Tally)
    (entry : string * ScoreItem) : Tally :=
  let '(key, it) := entry in
  let w := weightOf weights key in
  let maxScore := (t_maxScore acc + w)%Z in
  let isReq := Boolean (required it) in
  let maxRequiredScore :=
    if isReq then (t_maxRequiredScore acc + w)%Z else t_maxRequiredScore acc in
  let requiredScore :=
    if isReq && check it then (t_requiredScore acc + w)%Z else t_requiredScore acc in
  let totalScore :=
    if check it then (t_totalScore acc + w)%Z else t_totalScore acc in
  mkTally totalScore maxScore requiredScore maxRequiredScore.

Definition tally (items : list (string * ScoreItem))
    (weights : gmap string Z) : Tally :=
  fold_left (step weights) items tally0.

(** [max > 0 ? (score / max) * 100 : 0] *)
Definition percent (score max : Z) : Q :=
  if (0 <? max)%Z then (inject_Z score / inject_Z max) * 100 else 0.

(** The local constant [percentage], before rounding. *)
Definition rawPercentage (t : Tally) : Q :=
  percent (t_totalScore t) (t_maxScore t).

(** The local constant [requiredPercentage], before rounding. *)
Definition rawRequiredPercentage (t : Tally) : Q :=
  percent (t_requiredScore t) (t_maxRequiredScore t).

(** The grade calculation on the two unrounded percentages. *)
Definition gradeOf (percentage requiredPercentage : Q) : Grade :=
  if Qltb requiredPercentage 100 then grade_f
  else if Qle_bool 80 percentage then grade_a
  else if Qle_bool 60 percentage then grade_b
  else grade_f.

Definition calculateScore (items : list (string * ScoreItem))
    (weights : gmap string Z) : ScoreResult :=
  let t := tally items weights in
  let percentage := rawPercentage t in
  let requiredPercentage := rawRequiredPercentage t in
  {| grade := gradeOf percentage requiredPercentage;
     maxRequiredScore := t_maxRequiredScore t;
     maxScore := t_maxScore t;
     percentage := Math_round percentage;
     requiredPercentage := Math_round requiredPercentage;
     requiredScore := t_requiredScore t;
     totalScore := t_totalScore t |}.

Definition calculateToolScore (tool : ToolData) : ScoreResult :=
  let flags := calculateScoreFlags tool in
  let scoreItems := createScoreItems flags in
  calculateScore scoreItems DEFAULT_WEIGHTS.

End CalculateScore.

(** ** The percentages in binary64 *)

Module ScoreDoubles.
Import CalculateScore.

(** A small non-negative integer as a double. *)
Definition ofZ (z : Z) : float := PrimFloat.of_uint63 (Uint63.of_Z z).

(** [max > 0 ? (score / max) * 100 : 0] *)
Definition percent (score max : Z) : float :=
  if (0 <? max)%Z then (ofZ score / ofZ max * 100)%float else 0%float.

(** The grade calculation on doubles. *)
Definition gradeOf (percentage requiredPercentage : float) : Grade :=
  if (requiredPercentage <? 100)%float then grade_f
  else if (80 <=? percentage)%float then grade_a
  else if (60 <=? percentage)%float then grade_b
  else grade_f.

(** [Math.round(x)] is [n]: [n] is the integer nearest to [x], halves
    going up. *)
Definition roundsTo (x : float) (n : Z) : bool :=
  (ofZ n - 0.5 <=? x)%float && (x <? ofZ n + 0.5)%float.

(** The grade and the two roundings [calculateScore] computes in
    doubles from the counters of its loop, checked against a result. *)
Definition agreesWith (t : Tally) (r : ScoreResult) : bool :=
  let percentage := percent (t_totalScore t) (t_maxScore t) in
  let requiredPercentage := percent (t_requiredScore t) (t_maxRequiredScore t) in
  bool_decide (gradeOf percentage requiredPercentage = grade r)
  && roundsTo percentage (CalculateScore.percentage r)
  && roundsTo requiredPercentage (CalculateScore.requiredPercentage r).

End ScoreDoubles.

(** ** src/lib/calculateScore.ts: display *)

Module ScoreDisplay.
Import CalculateScore.

(** [s || d] on strings: the empty string is falsy. *)
Definition str_or (s d : string) : string :=
  match s with
  | EmptyString => d
  | _ => s
  end.

(** The literal a grade is in the source. *)
Definition gradeName (g : Grade) : string :=
  match g with
  | grade_a => "a"
  | grade_b => "b"
  | grade_f => "f"
  end.

Definition getGradeColor (grade : string) : string :=
  if decide (grade = "a") then "#52c41a"
  else if decide (grade = "b") then "#faad14"
  else if decide (grade = "f") then "#ff4d4f"
  else "#8c8c8c".

Definition getGradeLabel (grade : string) : string :=
  if decide (grade = "a") then "Excellent"
  else if decide (grade = "b") then "Good"
  else if decide (grade = "f") then "Needs Improvement"
  else "Unknown".

(** [ScoreListItem extends ScoreItem] *)
Record ScoreListItem : Type := mkScoreListItem {
  key : string;
  item_check : bool;
  item_required : option bool;
  item_weight : Z;
  title : string;
  desc : string;
}.

(** The [descriptions] table of [createScoreBreakdown]: title and
    description by key. *)
Definition descriptions : gmap string (string * string) :=
  list_to_map
    [ ("validated", ("Validated", "Tool has been verified by the Lyra team"));
      ("tools", ("Has Tools", "Tool definitions are properly specified"));
      ("deployment", ("Has Deployment", "Deployment options are available"));
      ("deployMoreThanManual",
       ("Automated Deployment",
        "Has automated deployment options beyond manual"));
      ("readme", ("Documentation", "README or documentation is provided"));
      ("license", ("License", "Open source license is specified"));
      ("prompts", ("Prompts", "Prompt templates are included"));
      ("resources", ("Resources", "Additional resources are provided"));
      ("claimed", ("Claimed", "Tool is claimed by its developer")) ].

(** One turn of the [map] callback of [createScoreBreakdown]. *)
Definition breakdownEntry (entry : string * ScoreItem) : ScoreListItem :=
  let '(k, it) := entry in
  {| key := k;
     item_check := check it;
     item_required := required it;
     item_weight := num_or (DEFAULT_WEIGHTS !! k) 5;
     title :=
       match descriptions !! k with
       | Some d => str_or (fst d) k
       | None => k
       end;
     desc :=
       match descriptions !! k with
       | Some d => str_or (snd d) ""
       | None => ""
       end |}.

Definition createScoreBreakdown (flags : ScoreFlags) : list ScoreListItem :=
  breakdownEntry <$> createScoreItems flags.

End ScoreDisplay.

(** ** src/db/schema.ts *)

Module Schema.

(** A row of [tools].  The columns the score and the ranking never
    read (source URLs, the input and output schema, tags, chains,
    protocols, the API-key columns, [lastVerifiedAt]) are left out.
    [ScoreData] has the shape of [ScoreFlags] and is embedded as it.
    The column [grade] is a [text]; every write of the handlers stores
    a grade of [calculateScore] there, and the row holds it at that
    type. *)
Record Tool : Type := mkTool {
  id : string;
  name : string;
  description : string;
  category : string;
  version : string;
  scoreData : option CalculateScore.ScoreFlags;
  totalScore : Z;
  maxScore : Z;
  percentage : Z;
  grade : CalculateScore.Grade;
  isValidated : bool;
  isClaimed : bool;
  hasTools : bool;
  hasReadme : bool;
  hasLicense : bool;
  hasDeployment : bool;
  hasDeployMoreThanManual : bool;
  hasPrompts : bool;
  hasResources : bool;
  downloadCount : Z;
  usageCount : Z;
  createdAt : Z;
  updatedAt : Z;
}.

(** A row of [tool_usage_logs]; times are milliseconds since the
    epoch. *)
Record ToolUsageLog : Type := mkToolUsageLog {
  log_toolId : string;
  log_action : string;
  log_createdAt : Z;
}.

Record Db : Type := mkDb {
  tools : list Tool;
  toolUsageLogs : list ToolUsageLog;
}.

End Schema.

(** The JSON answer of a route handler. *)
Inductive ApiResponse (A : Type) : Type :=
  | Success (status : nat) (data : A)
  | Failure (status : nat) (error : string).
Arguments Success {A} status data.
Arguments Failure {A} status error.

(** ** Queries and arrays *)

(** [ORDER BY] and [Array.prototype.sort] are both embedded as a stable
    insertion sort: [before x y] says that [x] may stay in front of [y].
    JavaScript's sort is stable; SQL leaves the order of ties open, and
    the stable order is the choice made here. *)
Fixpoint insertBy {A : Type} (before : A -> A -> bool) (x : A) (l : list A)
    : list A :=
  match l with
  | [] => [x]
  | y :: rest => if before x y then x :: y :: rest
                 else y :: insertBy before x rest
  end.

Fixpoint sortBy {A : Type} (before : A -> A -> bool) (l : list A) : list A :=
  match l with
  | [] => []
  | x :: rest => insertBy before x (sortBy before rest)
  end.

(** The order a comparator [cmp] of [Array.prototype.sort] induces:
    [a] stays in front of [b] when [cmp a b <= 0]. *)
Definition byComparator {A : Type} (cmp : A -> A -> Z) (a b : A) : bool :=
  (cmp a b <=? 0)%Z.

(** ** src/app/api/tools/route.ts and src/app/api/tools/[id]/route.ts *)

Module ToolsRoute.
Import CalculateScore.

(** [createToolSchema], after validation: the defaults are filled in,
    every flag is a boolean. *)
Record CreateToolInput : Type := mkCreateToolInput {
  c_name : string;
  c_description : string;
  c_category : string;
  c_version : string;
  c_isValidated : bool;
  c_isClaimed : bool;
  c_hasTools : bool;
  c_hasReadme : bool;
  c_hasLicense : bool;
  c_hasDeployment : bool;
  c_hasDeployMoreThanManual : bool;
  c_hasPrompts : bool;
  c_hasResources : bool;
}.

(** [updateToolSchema = createToolSchema.partial()], after
    validation: a field is [None] when the key is absent. *)
Record UpdateToolInput : Type := mkUpdateToolInput {
  u_name : option string;
  u_description : option string;
  u_category : option string;
  u_version : option string;
  u_isValidated : option bool;
  u_isClaimed : option bool;
  u_hasTools : option bool;
  u_hasReadme : option bool;
  u_hasLicense : option bool;
  u_hasDeployment : option bool;
  u_hasDeployMoreThanManual : option bool;
  u_hasPrompts : option bool;
  u_hasResources : option bool;
}.

(** [key in updateData] *)
Definition present {A : Type} (x : option A) : bool :=
  match x with Some _ => true | None => false end.

(** [scoringFields.some(field => field in updateData)], in the order
    of [scoringFields]. *)
Definition needsScoreRecalc (updateData : UpdateToolInput) : bool :=
  existsb (fun b : bool => b)
    [ present (u_isValidated updateData); present (u_hasTools updateData);
      present (u_hasDeployment updateData);
      present (u_hasDeployMoreThanManual updateData);
      present (u_hasReadme updateData); present (u_hasLicense updateData);
      present (u_hasPrompts updateData); present (u_hasResources updateData);
      present (u_isClaimed updateData) ].

Record Merged : Type := mkMerged {
  m_isValidated : bool;
  m_hasTools : bool;
  m_hasDeployment : bool;
  m_hasDeployMoreThanManual : bool;
  m_hasReadme : bool;
  m_hasLicense : bool;
  m_hasPrompts : bool;
  m_hasResources : bool;
  m_isClaimed : bool;
}.

Definition merge (updateData : UpdateToolInput) (existing : Schema.Tool)
    : Merged :=
  {| m_isValidated :=
       nullish (u_isValidated updateData) (Schema.isValidated existing);
     m_hasTools := nullish (u_hasTools updateData) (Schema.hasTools existing);
     m_hasDeployment :=
       nullish (u_hasDeployment updateData) (Schema.hasDeployment existing);
     m_hasDeployMoreThanManual :=
       nullish (u_hasDeployMoreThanManual updateData)
               (Schema.hasDeployMoreThanManual existing);
     m_hasReadme := nullish (u_hasReadme updateData) (Schema.hasReadme existing);
     m_hasLicense :=
       nullish (u_hasLicense updateData) (Schema.hasLicense existing);
     m_hasPrompts :=
       nullish (u_hasPrompts updateData) (Schema.hasPrompts existing);
     m_hasResources :=
       nullish (u_hasResources updateData) (Schema.hasResources existing);
     m_isClaimed := nullish (u_isClaimed updateData) (Schema.isClaimed existing) |}.

(** [merged] as the argument of [calculateToolScore]. *)
Definition mergedData (m : Merged) : ToolData :=
  {| CalculateScore.isValidated := Some (m_isValidated m);
     data_hasTools := Some (m_hasTools m);
     data_hasDeployment := Some (m_hasDeployment m);
     data_hasDeployMoreThanManual := Some (m_hasDeployMoreThanManual m);
     data_hasReadme := Some (m_hasReadme m);
     data_hasLicense := Some (m_hasLicense m);
     data_hasPrompts := Some (m_hasPrompts m);
     data_hasResources := Some (m_hasResources m);
     CalculateScore.isClaimed := Some (m_isClaimed m) |}.

Record ScoreUpdate : Type := mkScoreUpdate {
  su_totalScore : Z;
  su_maxScore : Z;
  su_percentage : Z;
  su_grade : Grade;
  su_scoreData : ScoreFlags;
}.

(** The [scoreUpdate] object of PATCH: empty ([None]) unless a scoring
    field is in the payload. *)
Definition scoreUpdateOf (updateData : UpdateToolInput)
    (existing : Schema.Tool) : option ScoreUpdate :=
  if needsScoreRecalc updateData then
    let merged := merge updateData existing in
    let scoreResult := calculateToolScore (mergedData merged) in
    Some {| su_totalScore := CalculateScore.totalScore scoreResult;
            su_maxScore := CalculateScore.maxScore scoreResult;
            su_percentage := CalculateScore.percentage scoreResult;
            su_grade := CalculateScore.grade scoreResult;
            su_scoreData :=
              {| hasValidated := m_isValidated merged;
                 hasTools := m_hasTools merged;
                 hasDeployment := m_hasDeployment merged;
                 hasDeployMoreThanManual := m_hasDeployMoreThanManual merged;
                 hasReadme := m_hasReadme merged;
                 hasLicense := m_hasLicense merged;
                 hasPrompts := m_hasPrompts merged;
                 hasResources := m_hasResources merged;
                 hasClaimed := m_isClaimed merged |} |}
  else None.

(** [.set({ ...updateData, ...scoreUpdate, updatedAt: new Date() })]
    on one row: a column keeps its value unless the object has the
    key. *)
Definition setRow (updateData : UpdateToolInput)
    (scoreUpdate : option ScoreUpdate) (now : Z) (row : Schema.Tool)
    : Schema.Tool :=
  {| Schema.id := Schema.id row;
     Schema.name := nullish (u_name updateData) (Schema.name row);
     Schema.description :=
       nullish (u_description updateData) (Schema.description row);
     Schema.category := nullish (u_category updateData) (Schema.category row);
     Schema.version := nullish (u_version updateData) (Schema.version row);
     Schema.scoreData :=
       match scoreUpdate with
       | Some su => Some (su_scoreData su)
       | None => Schema.scoreData row
       end;
     Schema.totalScore :=
       nullish (su_totalScore <$> scoreUpdate) (Schema.totalScore row);
     Schema.maxScore :=
       nullish (su_maxScore <$> scoreUpdate) (Schema.maxScore row);
     Schema.percentage :=
       nullish (su_percentage <$> scoreUpdate) (Schema.percentage row);
     Schema.grade := nullish (su_grade <$> scoreUpdate) (Schema.grade row);
     Schema.isValidated :=
       nullish (u_isValidated updateData) (Schema.isValidated row);
     Schema.isClaimed := nullish (u_isClaimed updateData) (Schema.isClaimed row);
     Schema.hasTools := nullish (u_hasTools updateData) (Schema.hasTools row);
     Schema.hasReadme := nullish (u_hasReadme updateData) (Schema.hasReadme row);
     Schema.hasLicense :=
       nullish (u_hasLicense updateData) (Schema.hasLicense row);
     Schema.hasDeployment :=
       nullish (u_hasDeployment updateData) (Schema.hasDeployment row);
     Schema.hasDeployMoreThanManual :=
       nullish (u_hasDeployMoreThanManual updateData)
               (Schema.hasDeployMoreThanManual row);
     Schema.hasPrompts :=
       nullish (u_hasPrompts updateData) (Schema.hasPrompts row);
     Schema.hasResources :=
       nullish (u_hasResources updateData) (Schema.hasResources row);
     Schema.downloadCount := Schema.downloadCount row;
     Schema.usageCount := Schema.usageCount row;
     Schema.createdAt := Schema.createdAt row;
     Schema.updatedAt := now |}.

(** [select().from(tools).where(eq(tools.id, id)).limit(1)].  The
    column is a [uuid]: the rows and the parameter hold keys in their
    canonical text, on which the comparison of Postgres is the equality
    of strings.  A parameter that is no uuid at all makes the query
    raise, which the handlers answer with 500; the embedding starts
    behind that check. *)
Definition selectById (rows : list Schema.Tool) (id : string)
    : option Schema.Tool :=
  head (filter (fun t => Schema.id t = id) rows).

(** [update(tools).set(..).where(eq(tools.id, id))]: the table after
    the update.  The updated row is left at its place in the list;
    where Postgres puts it is not part of the embedding. *)
Definition updateById (rows : list Schema.Tool) (id : string)
    (set : Schema.Tool -> Schema.Tool) : list Schema.Tool :=
  (fun t => if decide (Schema.id t = id) then set t else t) <$> rows.

(** Another row holds the name [n]: the update of the row [id] to this
    name violates the unique constraint of [tools.name]. *)
Definition nameTakenByOther (rows : list Schema.Tool) (id n : string) : bool :=
  bool_decide (Exists (fun t => Schema.id t <> id /\ Schema.name t = n) rows).

(** PATCH /api/tools/:id on a validated payload: the answer and the
    table it leaves.  An update that gives the row the name of another
    row raises in the database and is answered by the [catch] branch;
    nothing is written then.  [returning()] gives the updated rows, of
    which the handler takes the first. *)
Definition PATCH (rows : list Schema.Tool) (id : string)
    (updateData : UpdateToolInput) (now : Z)
    : ApiResponse (option Schema.Tool) * list Schema.Tool :=
  match selectById rows id with
  | None => (Failure 404 "Tool not found", rows)
  | Some existing =>
      let scoreUpdate := scoreUpdateOf updateData existing in
      if match u_name updateData with
         | Some n => nameTakenByOther rows id n
         | None => false
         end
      then (Failure 500 "Internal server error", rows)
      else
        let rows' := updateById rows id (setRow updateData scoreUpdate now) in
        let updatedTool := selectById rows' id in
        (Success 200 updatedTool, rows')
  end.

(** The object POST hands to [insert(tools).values(..)], completed
    with the columns the database fills in: [newId] is the key it
    draws for the row and [now] its clock. *)
Definition insertValues (toolData : CreateToolInput) (newId : string)
    (now : Z) : Schema.Tool :=
  let scoreResult :=
    calculateToolScore
      {| CalculateScore.isValidated := Some (c_isValidated toolData);
         data_hasTools := Some (c_hasTools toolData);
         data_hasDeployment := Some (c_hasDeployment toolData);
         data_hasDeployMoreThanManual :=
           Some (c_hasDeployMoreThanManual toolData);
         data_hasReadme := Some (c_hasReadme toolData);
         data_hasLicense := Some (c_hasLicense toolData);
         data_hasPrompts := Some (c_hasPrompts toolData);
         data_hasResources := Some (c_hasResources toolData);
         CalculateScore.isClaimed := Some (c_isClaimed toolData) |} in
  {| Schema.id := newId;
     Schema.name := c_name toolData;
     Schema.description := c_description toolData;
     Schema.category := c_category toolData;
     Schema.version := c_version toolData;
     Schema.scoreData :=
       Some {| hasValidated := c_isValidated toolData || false;
               hasTools := c_hasTools toolData || true;
               hasDeployment := c_hasDeployment toolData || false;
               hasDeployMoreThanManual :=
                 c_hasDeployMoreThanManual toolData || false;
               hasReadme := c_hasReadme toolData || false;
               hasLicense := c_hasLicense toolData || false;
               hasPrompts := c_hasPrompts toolData || false;
               hasResources := c_hasResources toolData || false;
               hasClaimed := c_isClaimed toolData || false |};
     Schema.totalScore := CalculateScore.totalScore scoreResult;
     Schema.maxScore := CalculateScore.maxScore scoreResult;
     Schema.percentage := CalculateScore.percentage scoreResult;
     Schema.grade := CalculateScore.grade scoreResult;
     Schema.isValidated := c_isValidated toolData;
     Schema.isClaimed := c_isClaimed toolData;
     Schema.hasTools := c_hasTools toolData;
     Schema.hasReadme := c_hasReadme toolData;
     Schema.hasLicense := c_hasLicense toolData;
     Schema.hasDeployment := c_hasDeployment toolData;
     Schema.hasDeployMoreThanManual := c_hasDeployMoreThanManual toolData;
     Schema.hasPrompts := c_hasPrompts toolData;
     Schema.hasResources := c_hasResources toolData;
     Schema.downloadCount := 0;
     Schema.usageCount := 0;
     Schema.createdAt := now;
     Schema.updatedAt := now |}.

(** POST /api/tools on a validated payload: the answer and the table
    it leaves.  The counter of the category table, which the handler
    bumps afterwards, is not part of the embedding. *)
Definition POST (rows : list Schema.Tool) (toolData : CreateToolInput)
    (newId : string) (now : Z)
    : ApiResponse Schema.Tool * list Schema.Tool :=
  match head (filter (fun t => Schema.name t = c_name toolData) rows) with
  | Some _ => (Failure 409 "Tool already exists", rows)
  | None =>
      let newTool := insertValues toolData newId now in
      (Success 201 newTool, rows ++ [newTool])
  end.

End ToolsRoute.

(** ** src/app/api/trending/route.ts *)

Module TrendingRoute.

Inductive Period : Type := day | week | month.

(** [trendingQuerySchema], after validation: [limit] is an integer
    from 1 to 50. *)
Record TrendingQuery : Type := mkTrendingQuery {
  period : Period;
  limit : nat;
  category : option string;
}.

(** [TrendingTool extends Tool].  The two added fields are declared
    [number]; what the handler puts there is a number on the fallback
    path and a string on the usage path. *)
Record TrendingTool : Type := mkTrendingTool {
  tool : Schema.Tool;
  trendingScore : JsValue;
  recentUsage : JsValue;
}.

(** A group of the usage query as the database computes and orders
    it: [count] is a [bigint]. *)
Record UsageGroup : Type := mkUsageGroup {
  group_toolId : string;
  group_count : Z;
}.

(** A row of the grouped usage query as the handler receives it.  The
    source declares [usageCount] with [sql<number>], which is an
    annotation for the type checker and converts nothing: the driver
    hands a [bigint] over as its decimal text.  (The other handlers
    wrap each count in [Number(..)]; this one does not.) *)
Record UsageRow : Type := mkUsageRow {
  toolId : string;
  usageCount : string;
}.

Definition periodDays (p : Period) : Z :=
  match p with day => 1 | week => 7 | month => 30 end.

Definition threshold (now : Z) (p : Period) : Z :=
  (now - periodDays p * 24 * 60 * 60 * 1000)%Z.

(** [where(gte(toolUsageLogs.createdAt, threshold))] *)
Definition inWindow (logs : list Schema.ToolUsageLog) (th : Z)
    : list Schema.ToolUsageLog :=
  filter (fun e => (th <= Schema.log_createdAt e)%Z) logs.

(** The row count of the group of [k]. *)
Definition countFor (logs : list Schema.ToolUsageLog) (k : string) : Z :=
  Z.of_nat (length (filter (fun e => Schema.log_toolId e = k) logs)).

(** [groupBy(toolUsageLogs.toolId)]: one row for each key that
    occurs. *)
Definition groupByToolId (logs : list Schema.ToolUsageLog) : list UsageGroup :=
  (fun k => {| group_toolId := k; group_count := countFor logs k |})
    <$> remove_dups (Schema.log_toolId <$> logs).

(** [orderBy(desc(usage_count))] *)
Definition byUsageDesc (x y : UsageGroup) : bool :=
  (group_count y <=? group_count x)%Z.

(** A group as the driver delivers it. *)
Definition delivered (g : UsageGroup) : UsageRow :=
  {| toolId := group_toolId g; usageCount := pretty (group_count g) |}.

Definition trendingData (db : Schema.Db) (now : Z) (q : TrendingQuery)
    : list UsageRow :=
  delivered
    <$> take (limit q * 2)
          (sortBy byUsageDesc
             (groupByToolId
                (inWindow (Schema.toolUsageLogs db) (threshold now (period q))))).

(** [orderBy(desc(tools.totalScore), desc(tools.downloadCount))] *)
Definition byScoreThenDownloadsDesc (x y : Schema.Tool) : bool :=
  (Schema.totalScore y <? Schema.totalScore x)%Z
  || ((Schema.totalScore y =? Schema.totalScore x)%Z
      && (Schema.downloadCount y <=? Schema.downloadCount x)%Z).

(** A category condition that is only applied when [category] is
    truthy. *)
Definition whereCategory (cat : option string) (rows : list Schema.Tool)
    : list Schema.Tool :=
  match truthy_string cat with
  | Some c => filter (fun t => Schema.category t = c) rows
  | None => rows
  end.

Definition fallbackTools (db : Schema.Db) (q : TrendingQuery)
    : list Schema.Tool :=
  take (limit q)
    (sortBy byScoreThenDownloadsDesc
       (whereCategory (category q) (Schema.tools db))).

(** [new Map(trendingData.map(t => [t.toolId, t.usageCount]))]: the
    entries are set from left to right. *)
Definition usageMapOf (rows : list UsageRow) : gmap string string :=
  foldl (fun m r => <[toolId r := usageCount r]> m) ∅ rows.

(** The comparator [(a, b) => b.trendingScore - a.trendingScore]. *)
Definition cmpTrending (a b : TrendingTool) : Z :=
  js_compare_minus (trendingScore b) (trendingScore a).

(** The [map] callback of the usage path:
    [(usageMap.get(tool.id) || 0) + (tool.totalScore || 0)] and
    [usageMap.get(tool.id) || 0]. *)
Definition withUsage (usageMap : gmap string string) (t : Schema.Tool)
    : TrendingTool :=
  {| tool := t;
     trendingScore :=
       js_add (js_or (JsString <$> usageMap !! Schema.id t) (JsNumber 0))
              (js_or (Some (JsNumber (Schema.totalScore t))) (JsNumber 0));
     recentUsage := js_or (JsString <$> usageMap !! Schema.id t) (JsNumber 0) |}.

Definition trendingTools (db : Schema.Db) (q : TrendingQuery)
    (data : list UsageRow) : list TrendingTool :=
  let toolIds := toolId <$> data in
  let tools := filter (fun t => Schema.id t ∈ toolIds) (Schema.tools db) in
  let tools := whereCategory (category q) tools in
  let usageMap := usageMapOf data in
  take (limit q)
    (sortBy (byComparator cmpTrending) (withUsage usageMap <$> tools)).

(** GET /api/trending on a validated query, with [now] the clock. *)
Definition GET (db : Schema.Db) (now : Z) (q : TrendingQuery)
    : ApiResponse (list TrendingTool) :=
  let data := trendingData db now q in
  match data with
  | [] =>
      Success 200
        ((fun t => {| tool := t;
                      trendingScore :=
                        js_or (Some (JsNumber (Schema.totalScore t))) (JsNumber 0);
                      recentUsage := JsNumber 0 |})
           <$> fallbackTools db q)
  | _ :: _ => Success 200 (trendingTools db q data)
  end.

End TrendingRoute.

(** ** The handlers on the whole database *)

(** The tables of [src/db/schema.ts] the handlers of
    [src/app/api/tools], [src/app/api/tools/:id] and
    [src/app/api/categories] touch, and the handlers as transitions on
    them.  The constraints of the schema are part of the picture: the
    names of tools and the names and slugs of categories are unique, so
    a write that would repeat one raises in the database and is answered
    by the [catch] branch of the handler; the usage log refers to the
    tools with [onDelete: cascade]. *)

Module Registry.

(** A row of [categories]; [toolCount] may be null. *)
Record Category : Type := mkCategory {
  cat_id : string;
  cat_name : string;
  cat_slug : string;
  cat_description : option string;
  cat_icon : option string;
  toolCount : option Z;
  cat_createdAt : Z;
}.

(** [createCategorySchema], after validation. *)
Record CreateCategoryInput : Type := mkCreateCategoryInput {
  cc_name : string;
  cc_slug : string;
  cc_description : option string;
  cc_icon : option string;
}.

Record State : Type := mkState {
  db : Schema.Db;
  categories : list Category;
}.

Definition tools (st : State) : list Schema.Tool := Schema.tools (db st).
Definition logs (st : State) : list Schema.ToolUsageLog :=
  Schema.toolUsageLogs (db st).

(** [toolCount + 1]: null stays null. *)
Definition increment (c : option Z) : option Z := (fun n => (n + 1)%Z) <$> c.

(** [GREATEST(toolCount - 1, 0)]: [GREATEST] skips a null argument. *)
Definition decrementNotBelowZero (c : option Z) : option Z :=
  match c with
  | Some n => Some (Z.max (n - 1) 0)
  | None => Some 0%Z
  end.

(** [update(categories).set({ toolCount: f }).where(eq(slug, s))] *)
Definition updateToolCount (cats : list Category) (s : string)
    (f : option Z -> option Z) : list Category :=
  (fun c => if decide (cat_slug c = s)
            then {| cat_id := cat_id c;
                    cat_name := cat_name c;
                    cat_slug := cat_slug c;
                    cat_description := cat_description c;
                    cat_icon := cat_icon c;
                    toolCount := f (toolCount c);
                    cat_createdAt := cat_createdAt c |}
            else c) <$> cats.

(** POST /api/tools: the insert of [ToolsRoute.POST], then the counter
    of the category of the request. *)
Definition createTool (st : State) (toolData : ToolsRoute.CreateToolInput)
    (newId : string) (now : Z) : ApiResponse Schema.Tool * State :=
  match ToolsRoute.POST (tools st) toolData newId now with
  | (Success status newTool, rows') =>
      (Success status newTool,
       {| db := {| Schema.tools := rows'; Schema.toolUsageLogs := logs st |};
          categories :=
            updateToolCount (categories st) (ToolsRoute.c_category toolData)
                            increment |})
  | (Failure status error, _) => (Failure status error, st)
  end.

(** GET /api/tools/:id: the tool, and a [view] event in the usage
    log. *)
Definition viewTool (st : State) (id : string) (now : Z)
    : ApiResponse Schema.Tool * State :=
  match ToolsRoute.selectById (tools st) id with
  | None => (Failure 404 "Tool not found", st)
  | Some tool =>
      (Success 200 tool,
       {| db := {| Schema.tools := tools st;
                   Schema.toolUsageLogs :=
                     logs st ++ [ {| Schema.log_toolId := id;
                                     Schema.log_action := "view";
                                     Schema.log_createdAt := now |} ] |};
          categories := categories st |})
  end.

(** PATCH /api/tools/:id: the update of [ToolsRoute.PATCH]; the usage
    log and the categories are not touched. *)
Definition patchTool (st : State) (id : string)
    (updateData : ToolsRoute.UpdateToolInput) (now : Z)
    : ApiResponse (option Schema.Tool) * State :=
  match ToolsRoute.PATCH (tools st) id updateData now with
  | (Success status updatedTool, rows') =>
      (Success status updatedTool,
       {| db := {| Schema.tools := rows'; Schema.toolUsageLogs := logs st |};
          categories := categories st |})
  | (Failure status error, _) => (Failure status error, st)
  end.

(** DELETE /api/tools/:id: the row goes, its usage events go with it,
    and the counter of its category goes down, not below zero. *)
Definition deleteTool (st : State) (id : string)
    : ApiResponse string * State :=
  match ToolsRoute.selectById (tools st) id with
  | None => (Failure 404 "Tool not found", st)
  | Some existing =>
      (Success 200 id,
       {| db := {| Schema.tools :=
                     filter (fun t => Schema.id t <> id) (tools st);
                   Schema.toolUsageLogs :=
                     filter (fun e => Schema.log_toolId e <> id) (logs st) |};
          categories :=
            updateToolCount (categories st) (Schema.category existing)
                            decrementNotBelowZero |})
  end.

(** [orderBy(desc(categories.toolCount))]: descending, nulls first. *)
Definition byToolCountDesc (x y : Category) : bool :=
  match toolCount x, toolCount y with
  | None, _ => true
  | Some _, None => false
  | Some a, Some b => (b <=? a)%Z
  end.

(** GET /api/categories *)
Definition listCategories (st : State) : ApiResponse (list Category) :=
  Success 200 (sortBy byToolCountDesc (categories st)).

(** POST /api/categories: the slug is checked by the handler, the name
    by the unique constraint of the table. *)
Definition createCategory (st : State) (categoryData : CreateCategoryInput)
    (newId : string) (now : Z) : ApiResponse Category * State :=
  match head (filter (fun c => cat_slug c = cc_slug categoryData)
                     (categories st)) with
  | Some _ => (Failure 409 "Category already exists", st)
  | None =>
      if bool_decide (cc_name categoryData ∈ (cat_name <$> categories st))
      then (Failure 500 "Internal server error", st)
      else
        let newCategory :=
          {| cat_id := newId;
             cat_name := cc_name categoryData;
             cat_slug := cc_slug categoryData;
             cat_description := cc_description categoryData;
             cat_icon := cc_icon categoryData;
             toolCount := Some 0%Z;
             cat_createdAt := now |} in
        (Success 201 newCategory,
         {| db := db st; categories := categories st ++ [newCategory] |})
  end.

(** The requests that write, and what is left of an answer when the
    data is dropped. *)
Inductive Request : Type :=
  | CreateTool (toolData : ToolsRoute.CreateToolInput) (newId : string)
  | ViewTool (id : string)
  | PatchTool (id : string) (updateData : ToolsRoute.UpdateToolInput)
  | DeleteTool (id : string)
  | CreateCategory (categoryData : CreateCategoryInput) (newId : string).

Inductive Answer : Type :=
  | Done (status : nat)
  | Refused (status : nat) (error : string).

Definition answerOf {A : Type} (r : ApiResponse A) : Answer :=
  match r with
  | Success status _ => Done status
  | Failure status error => Refused status error
  end.

Definition handle (st : State) (now : Z) (req : Request) : Answer * State :=
  match req with
  | CreateTool toolData newId =>
      let '(r, st') := createTool st toolData newId now in (answerOf r, st')
  | ViewTool id =>
      let '(r, st') := viewTool st id now in (answerOf r, st')
  | PatchTool id updateData =>
      let '(r, st') := patchTool st id updateData now in (answerOf r, st')
  | DeleteTool id =>
      let '(r, st') := deleteTool st id in (answerOf r, st')
  | CreateCategory categoryData newId =>
      let '(r, st') := createCategory st categoryData newId now in
      (answerOf r, st')
  end.

(** A sequence of requests, each with the time it is served at. *)
Fixpoint run (st : State) (reqs : list (Z * Request)) : State :=
  match reqs with
  | [] => st
  | (now, req) :: rest => run (snd (handle st now req)) rest
  end.

Definition empty : State :=
  {| db := {| Schema.tools := []; Schema.toolUsageLogs := [] |};
     categories := [] |}.

End Registry.

(** ** Pages of a listing *)

(** GET /api/tools and GET /api/search count the rows that satisfy the
    conditions of the query and fetch one page of them, in the order of
    the query.  [matching] stands for these rows in that order; [page]
    and [limit] are validated integers from 1 on. *)

Module Listing.

(** [Math.ceil] *)
Definition Math_ceil (x : Q) : Z := Qceiling x.

Record PaginatedResponse (A : Type) : Type := mkPaginatedResponse {
  items : list A;
  total : Z;
  page : nat;
  limit : nat;
  totalPages : Z;
}.
Arguments mkPaginatedResponse {A} items total page limit totalPages.
Arguments items {A} p.
Arguments total {A} p.
Arguments page {A} p.
Arguments limit {A} p.
Arguments totalPages {A} p.

Definition paginate {A : Type} (matching : list A) (page limit : nat)
    : PaginatedResponse A :=
  let offset := (page - 1) * limit in
  let total := num_or (Some (Z.of_nat (length matching))) 0 in
  {| items := take limit (drop offset matching);
     total := total;
     page := page;
     limit := limit;
     totalPages := Math_ceil (inject_Z total / inject_Z (Z.of_nat limit)) |}.

End Listing.

(** ** src/app/api/health/route.ts *)

Module Health.

(** The [stats] of a healthy answer. *)
Record Stats : Type := mkStats {
  totalTools : Z;
  totalCategories : Z;
  gradeA : Z;
  gradeB : Z;
  gradeF : Z;
  recentActivity : Z;
}.

(** A row count with a [FILTER (WHERE ..)] or [where(..)]. *)
Definition countWhere {A : Type} (P : A -> Prop) {Pdec : forall x, Decision (P x)}
    (rows : list A) : Z :=
  Z.of_nat (length (filter P rows)).

Definition stats (st : Registry.State) (now : Z) : Stats :=
  let yesterday := (now - 24 * 60 * 60 * 1000)%Z in
  {| totalTools := num_or (Some (Z.of_nat (length (Registry.tools st)))) 0;
     totalCategories :=
       num_or (Some (Z.of_nat (length (Registry.categories st)))) 0;
     gradeA :=
       num_or (Some (countWhere (fun t => Schema.grade t = CalculateScore.grade_a)
                                (Registry.tools st))) 0;
     gradeB :=
       num_or (Some (countWhere (fun t => Schema.grade t = CalculateScore.grade_b)
                                (Registry.tools st))) 0;
     gradeF :=
       num_or (Some (countWhere (fun t => Schema.grade t = CalculateScore.grade_f)
                                (Registry.tools st))) 0;
     recentActivity :=
       num_or (Some (countWhere (fun e => (yesterday < Schema.log_createdAt e)%Z)
                                (Registry.logs st))) 0 |}.

End Health.

(** ** The discovery queue *)

(** GET and POST /api/discovery, on the [discovery_queue] table of
    [src/db/schema.ts] without its [rawData], [reviewNotes] and
    [reviewedAt] columns. *)

Module Discovery.

Record DiscoveryQueueItem : Type := mkDiscoveryQueueItem {
  id : string;
  name : string;
  description : option string;
  sourceUrl : string;
  sourceType : string;
  securityScore : option Z;
  qualityScore : option Z;
  status : option string;
  createdAt : Z;
}.

(** [submitDiscoverySchema], after validation. *)
Record SubmitDiscoveryInput : Type := mkSubmitDiscoveryInput {
  s_name : string;
  s_description : option string;
  s_sourceUrl : string;
  s_sourceType : string;
  s_securityScore : option Z;
  s_qualityScore : option Z;
}.

(** [orderBy(desc(discoveryQueue.createdAt))] *)
Definition newestFirst (x y : DiscoveryQueueItem) : bool :=
  (createdAt y <=? createdAt x)%Z.

(** GET /api/discovery; [statusParam] is [searchParams.get('status')]. *)
Definition GET (queue : list DiscoveryQueueItem) (statusParam : option string)
    : ApiResponse (list DiscoveryQueueItem) :=
  let wanted :=
    match truthy_string statusParam with
    | Some s => s
    | None => "pending"
    end in
  Success 200
    (take 50 (sortBy newestFirst (filter (fun d => status d = Some wanted) queue))).

(** POST /api/discovery *)
Definition POST (queue : list DiscoveryQueueItem)
    (submissionData : SubmitDiscoveryInput) (newId : string) (now : Z)
    : ApiResponse DiscoveryQueueItem * list DiscoveryQueueItem :=
  match head (filter (fun d => sourceUrl d = s_sourceUrl submissionData) queue) with
  | Some _ => (Failure 409 "Already in queue", queue)
  | None =>
      let newItem :=
        {| id := newId;
           name := s_name submissionData;
           description := s_description submissionData;
           sourceUrl := s_sourceUrl submissionData;
           sourceType := s_sourceType submissionData;
           securityScore := s_securityScore submissionData;
           qualityScore := s_qualityScore submissionData;
           status := Some "pending";
           createdAt := now |} in
      (Success 201 newItem, queue ++ [newItem])
  end.

End Discovery.

(** ** Vocabulary of the statements *)

Module ScoreSpec.
Import CalculateScore.

(** What the loop of [calculateScore] adds up: the weights of the
    entries selected by [sel]. *)
Fixpoint sumWeights (sel : ScoreItem -> bool) (weights : gmap string Z)
    (items : list (string * ScoreItem)) : Z :=
  match items with
  | [] => 0
  | (key, it) :: rest =>
      ((if sel it then weightOf weights key else 0)
       + sumWeights sel weights rest)%Z
  end.

Definition isRequired (it : ScoreItem) : bool := Boolean (required it).
Definition isRequiredAndChecked (it : ScoreItem) : bool :=
  Boolean (required it) && check it.

(** The weight a flag contributes: its weight when set, nothing
    otherwise. *)
Definition w (flag : bool) (weight : Z) : Z := if flag then weight else 0.

(** The sum of the fixed weights of the flags that are true. *)
Definition weightSum (fl : ScoreFlags) : Z :=
  (w (hasValidated fl) 20 + w (hasTools fl) 15 + w (hasDeployment fl) 15
   + w (hasDeployMoreThanManual fl) 12 + w (hasReadme fl) 10
   + w (hasLicense fl) 8 + w (hasPrompts fl) 8 + w (hasResources fl) 8
   + w (hasClaimed fl) 4)%Z.

Definition requiredWeightSum (fl : ScoreFlags) : Z :=
  (w (hasValidated fl) 20 + w (hasTools fl) 15 + w (hasDeployment fl) 15
   + w (hasReadme fl) 10)%Z.

(** All four required flags are set. *)
Definition allRequired (fl : ScoreFlags) : bool :=
  hasValidated fl && hasTools fl && hasDeployment fl && hasReadme fl.

(** A field of the argument is given as [true]: it is present and it
    is [true]. *)
Definition given (x : option bool) : bool := bool_decide (x = Some true).

(** The argument holds [true] for each of the four required flags. *)
Definition allRequiredGiven (tool : ToolData) : Prop :=
  isValidated tool = Some true /\ data_hasTools tool = Some true
  /\ data_hasDeployment tool = Some true /\ data_hasReadme tool = Some true.


(** The nine quality flags, to speak of one flag at a time. *)
Inductive Flag : Type :=
  | Validated | HasTools | HasDeployment | HasDeployMoreThanManual
  | HasReadme | HasLicense | HasPrompts | HasResources | Claimed.

(** [tool] with the field of [flag] replaced and the other eight
    fields as they are. *)
Definition setFlag (flag : Flag) (v : option bool) (tool : ToolData)
    : ToolData :=
  let '(mkToolData va to de dm re li pr rs cl) := tool in
  match flag with
  | Validated => mkToolData v to de dm re li pr rs cl
  | HasTools => mkToolData va v de dm re li pr rs cl
  | HasDeployment => mkToolData va to v dm re li pr rs cl
  | HasDeployMoreThanManual => mkToolData va to de v re li pr rs cl
  | HasReadme => mkToolData va to de dm v li pr rs cl
  | HasLicense => mkToolData va to de dm re v pr rs cl
  | HasPrompts => mkToolData va to de dm re li v rs cl
  | HasResources => mkToolData va to de dm re li pr v cl
  | Claimed => mkToolData va to de dm re li pr rs v
  end.

(** A missing field made an explicit [false]. *)
Definition orFalse (x : option bool) : option bool :=
  match x with
  | Some v => Some v
  | None => Some false
  end.

Definition withMissingAsFalse (tool : ToolData) : ToolData :=
  let '(mkToolData va to de dm re li pr rs cl) := tool in
  mkToolData (orFalse va) (orFalse to) (orFalse de) (orFalse dm) (orFalse re)
             (orFalse li) (orFalse pr) (orFalse rs) (orFalse cl).

(** The quality flags a stored row holds. *)
Definition flagsOfRow (row : Schema.Tool) : ToolData :=
  {| isValidated := Some (Schema.isValidated row);
     data_hasTools := Some (Schema.hasTools row);
     data_hasDeployment := Some (Schema.hasDeployment row);
     data_hasDeployMoreThanManual := Some (Schema.hasDeployMoreThanManual row);
     data_hasReadme := Some (Schema.hasReadme row);
     data_hasLicense := Some (Schema.hasLicense row);
     data_hasPrompts := Some (Schema.hasPrompts row);
     data_hasResources := Some (Schema.hasResources row);
     isClaimed := Some (Schema.isClaimed row) |}.

(** The derived score columns of a row are the score of its flags. *)
Definition scoreConsistent (row : Schema.Tool) : Prop :=
  let r := calculateToolScore (flagsOfRow row) in
  Schema.totalScore row = totalScore r
  /\ Schema.percentage row = percentage r
  /\ Schema.grade row = grade r.

(** The field of [flag] in a PATCH payload and its column in a
    row. *)
Definition payloadFlag (flag : Flag) (u : ToolsRoute.UpdateToolInput)
    : option bool :=
  match flag with
  | Validated => ToolsRoute.u_isValidated u
  | HasTools => ToolsRoute.u_hasTools u
  | HasDeployment => ToolsRoute.u_hasDeployment u
  | HasDeployMoreThanManual => ToolsRoute.u_hasDeployMoreThanManual u
  | HasReadme => ToolsRoute.u_hasReadme u
  | HasLicense => ToolsRoute.u_hasLicense u
  | HasPrompts => ToolsRoute.u_hasPrompts u
  | HasResources => ToolsRoute.u_hasResources u
  | Claimed => ToolsRoute.u_isClaimed u
  end.

(** The payload takes no name from another row: it has no name, or no
    row with another key holds that name. *)
Definition nameNotTaken (rows : list Schema.Tool) (id : string)
    (updateData : ToolsRoute.UpdateToolInput) : Prop :=
  forall n t, ToolsRoute.u_name updateData = Some n -> t ∈ rows ->
              Schema.name t = n -> Schema.id t = id.




End ScoreSpec.

Module ScoreMoreSpec.
Import CalculateScore.

(** No entry is marked required. *)
Definition noneRequired (items : list (string * ScoreItem)) : Prop :=
  Forall (fun entry => Boolean (required (snd entry)) = false) items.

(** The sum of the [item_weight] of the entries selected by [sel]. *)
Definition breakdownWeight (sel : ScoreDisplay.ScoreListItem -> bool)
    (l : list ScoreDisplay.ScoreListItem) : Z :=
  foldr (fun e acc => ((if sel e then ScoreDisplay.item_weight e else 0) + acc)%Z)
        0%Z l.

End ScoreMoreSpec.

Module TrendingSpec.
Import TrendingRoute.

(** The number of usage events of the tool with key [k] inside the
    lookback window of the query. *)
Definition windowUsage (db : Schema.Db) (now : Z) (q : TrendingQuery)
    (k : string) : Z :=
  countFor (inWindow (Schema.toolUsageLogs db) (threshold now (period q))) k.

(** The start of the lookback window of the specification: one, seven
    or thirty days before [now], in milliseconds. *)
Definition lookbackStart (now : Z) (p : Period) : Z :=
  match p with
  | day => now - 86400000
  | week => now - 604800000
  | month => now - 2592000000
  end%Z.

(** A usage event lies inside the lookback window: it is not older
    than its start. *)
Definition inLookback (now : Z) (p : Period) (e : Schema.ToolUsageLog) : Prop :=
  (lookbackStart now p <= Schema.log_createdAt e)%Z.

#[global] Instance inLookback_dec now p e : Decision (inLookback now p e).
Proof. unfold inLookback. apply _. Defined.

(** The number of usage events of the tool with key [k] inside the
    lookback window. *)
Definition usageOf (db : Schema.Db) (now : Z) (p : Period) (k : string) : Z :=
  Z.of_nat
    (length (filter (fun e => Schema.log_toolId e = k /\ inLookback now p e)
                    (Schema.toolUsageLogs db))).

(** A category is given when the parameter is a non-empty string;
    then a tool matches when its category is that string.  Without a
    category every tool matches. *)
Definition categoryMatches (cat : option string) (t : Schema.Tool) : Prop :=
  match cat with
  | None => True
  | Some c => c = "" \/ Schema.category t = c
  end.

#[global] Instance categoryMatches_dec cat t : Decision (categoryMatches cat t).
Proof. unfold categoryMatches. destruct cat; apply _. Defined.

(** [x] ranks at least as high as [y] by stored total score, then by
    download count. *)
Definition rankedByScore (x y : Schema.Tool) : Prop :=
  (Schema.totalScore y < Schema.totalScore x)%Z
  \/ (Schema.totalScore y = Schema.totalScore x
      /\ (Schema.downloadCount y <= Schema.downloadCount x)%Z).

Definition toolKey (r : TrendingTool) : string := Schema.id (tool r).

(** The trending score of the specification: the usage of the tool in
    the window plus its stored total score. *)
Definition blend (db : Schema.Db) (now : Z) (q : TrendingQuery)
    (t : Schema.Tool) : Z :=
  (usageOf db now (period q) (Schema.id t) + Schema.totalScore t)%Z.

(** The groups the usage query returns, before the driver delivers
    them. *)
Definition fetchedGroups (db : Schema.Db) (now : Z) (q : TrendingQuery)
    : list UsageGroup :=
  take (limit q * 2)
    (sortBy byUsageDesc
       (groupByToolId
          (inWindow (Schema.toolUsageLogs db) (threshold now (period q))))).

(** The tools the usage path ranks: those of the category asked for
    whose key is among the usage-ranked keys that were fetched. *)
Definition candidates (db : Schema.Db) (now : Z) (q : TrendingQuery)
    : list Schema.Tool :=
  filter (fun t => categoryMatches (category q) t
                   /\ Schema.id t ∈ (toolId <$> trendingData db now q))
         (Schema.tools db).

(** The keys, trending scores and recent usages of an answer. *)
Definition summary (answer : ApiResponse (list TrendingTool))
    : list (string * JsValue * JsValue) :=
  match answer with
  | Success _ rows => (fun r => (toolKey r, trendingScore r, recentUsage r)) <$> rows
  | Failure _ _ => []
  end.

(** The statement of the specification on a category filter with
    [limit = 1]: of the tools of the category that were used in the
    window, the one with the highest trending score is returned. *)
Definition limitOneReturnsBestOfCategory : Prop :=
  forall (db : Schema.Db) (now : Z) (q : TrendingQuery) (t : Schema.Tool),
    NoDup (Schema.id <$> Schema.tools db) ->
    limit q = 1 ->
    category q = Some (Schema.category t) ->
    Schema.category t <> "" ->
    t ∈ Schema.tools db ->
    (0 < usageOf db now (period q) (Schema.id t))%Z ->
    (forall t', t' ∈ Schema.tools db ->
                Schema.category t' = Schema.category t ->
                (0 < usageOf db now (period q) (Schema.id t'))%Z ->
                (blend db now q t' < blend db now q t)%Z \/ t' = t) ->
    exists r, GET db now q = Success 200 [r] /\ tool r = t.

End TrendingSpec.

Module RegistrySpec.
Import Registry.

(** The keys the schema declares unique are unique. *)
Definition keysUnique (st : State) : Prop :=
  NoDup (Schema.id <$> tools st)
  /\ NoDup (Schema.name <$> tools st)
  /\ NoDup (cat_id <$> categories st)
  /\ NoDup (cat_slug <$> categories st)
  /\ NoDup (cat_name <$> categories st).

(** Every usage event refers to a tool of the table. *)
Definition logsReferToTools (st : State) : Prop :=
  Forall (fun e => Schema.log_toolId e ∈ (Schema.id <$> tools st)) (logs st).

(** Every tool holds the score of its flags. *)
Definition scoresConsistent (st : State) : Prop :=
  Forall ScoreSpec.scoreConsistent (tools st).

(** Every counter is a number, and not a negative one. *)
Definition countsNonNegative (st : State) : Prop :=
  Forall (fun c => exists n, toolCount c = Some n /\ (0 <= n)%Z) (categories st).

(** The key the database draws for a new row is not in use. *)
Definition fresh (st : State) (req : Request) : Prop :=
  match req with
  | CreateTool _ newId => newId ∉ (Schema.id <$> tools st)
  | CreateCategory _ newId => newId ∉ (cat_id <$> categories st)
  | _ => True
  end.

Fixpoint freshRun (st : State) (reqs : list (Z * Request)) : Prop :=
  match reqs with
  | [] => True
  | (now, req) :: rest =>
      fresh st req /\ freshRun (snd (handle st now req)) rest
  end.

Definition invariant (st : State) : Prop :=
  keysUnique st /\ logsReferToTools st /\ scoresConsistent st
  /\ countsNonNegative st.

(** The canonical text of a uuid: 8, 4, 4, 4 and 12 hexadecimal digits
    in lower case, with hyphens between the groups.  This is how
    Postgres prints a uuid, and how the keys of the tables read. *)
Definition isHexDigit (c : ascii) : bool :=
  let n := N_of_ascii c in
  ((48 <=? n) && (n <=? 57) || (97 <=? n) && (n <=? 102))%N.

Fixpoint hexDigits (n : nat) (s : string) : option string :=
  match n, s with
  | O, _ => Some s
  | S n', String c rest => if isHexDigit c then hexDigits n' rest else None
  | S _, EmptyString => None
  end.

Definition hyphen (s : string) : option string :=
  match s with
  | String "-" rest => Some rest
  | _ => None
  end.

Definition canonicalUuid (s : string) : bool :=
  match foldl (fun (rest : option string) step => rest ≫= step) (Some s)
              [ hexDigits 8; hyphen; hexDigits 4; hyphen; hexDigits 4; hyphen;
                hexDigits 4; hyphen; hexDigits 12 ] with
  | Some EmptyString => true
  | _ => false
  end.

(** The keys of the tools table are uuids. *)
Definition keysWellFormed (st : State) : Prop :=
  Forall (fun t => canonicalUuid (Schema.id t) = true) (tools st).

(** No request of the sequence creates a tool under the key [id]. *)
Definition neverCreates (id : string) (reqs : list (Z * Request)) : Prop :=
  Forall (fun r => match snd r with
                   | CreateTool _ newId => newId <> id
                   | _ => True
                   end) reqs.

(** The counter of the category with slug [s], when there is one. *)
Definition countOf (st : State) (s : string) : option (option Z) :=
  toolCount <$> head (filter (fun c => cat_slug c = s) (categories st)).

End RegistrySpec.

(** ** Sample data *)

Module Samples.

(** A stored tool with the given key, category, score and download
    count; its other columns are the defaults of the schema. *)
Definition sampleTool (key cat : string) (score downloads : Z) : Schema.Tool :=
  {| Schema.id := key;
     Schema.name := key;
     Schema.description := "sample";
     Schema.category := cat;
     Schema.version := "1.0.0";
     Schema.scoreData := None;
     Schema.totalScore := score;
     Schema.maxScore := 100;
     Schema.percentage := score;
     Schema.grade := CalculateScore.grade_f;
     Schema.isValidated := false;
     Schema.isClaimed := false;
     Schema.hasTools := true;
     Schema.hasReadme := false;
     Schema.hasLicense := false;
     Schema.hasDeployment := false;
     Schema.hasDeployMoreThanManual := false;
     Schema.hasPrompts := false;
     Schema.hasResources := false;
     Schema.downloadCount := downloads;
     Schema.usageCount := 0;
     Schema.createdAt := 0;
     Schema.updatedAt := 0 |}.

(** The argument of [calculateToolScore] with every field present, in
    the order validated, hasTools, hasDeployment, hasDeployMoreThanManual,
    hasReadme, hasLicense, hasPrompts, hasResources, claimed. *)
Definition flags (va to de dm re li pr rs cl : bool) : CalculateScore.ToolData :=
  CalculateScore.mkToolData (Some va) (Some to) (Some de) (Some dm) (Some re)
    (Some li) (Some pr) (Some rs) (Some cl).

(** Two items and a weight table of its own: a required item that is
    checked, worth 796 points, and an unchecked one worth 204. *)
Definition twoItems : list (string * CalculateScore.ScoreItem) :=
  [ ("big", CalculateScore.item true (Some true));
    ("small", CalculateScore.item false None) ].

Definition twoWeights : gmap string Z :=
  <["big" := 796%Z]> (<["small" := 204%Z]> ∅).


Definition view (key : string) (time : Z) : Schema.ToolUsageLog :=
  {| Schema.log_toolId := key;
     Schema.log_action := "view";
     Schema.log_createdAt := time |}.

(** A payload that only sets [hasReadme]. *)
Definition readmeUpdate : ToolsRoute.UpdateToolInput :=
  {| ToolsRoute.u_name := None;
     ToolsRoute.u_description := None;
     ToolsRoute.u_category := None;
     ToolsRoute.u_version := None;
     ToolsRoute.u_isValidated := None;
     ToolsRoute.u_isClaimed := None;
     ToolsRoute.u_hasTools := None;
     ToolsRoute.u_hasReadme := Some true;
     ToolsRoute.u_hasLicense := None;
     ToolsRoute.u_hasDeployment := None;
     ToolsRoute.u_hasDeployMoreThanManual := None;
     ToolsRoute.u_hasPrompts := None;
     ToolsRoute.u_hasResources := None |}.



(** Two tools of category nft with five and four views, one of
    category defi with one view; all views at time 1000. *)
Definition crowdedDb : Schema.Db :=
  {| Schema.tools :=
       [ sampleTool "A" "nft" 10 0; sampleTool "B" "nft" 20 0;
         sampleTool "C" "defi" 90 0 ];
     Schema.toolUsageLogs :=
       [ view "A" 1000; view "A" 1000; view "A" 1000; view "A" 1000;
         view "A" 1000; view "B" 1000; view "B" 1000; view "B" 1000;
         view "B" 1000; view "C" 1000 ] |}.

(** The same tools; their only view is older than time 0. *)
Definition quietDb : Schema.Db :=
  {| Schema.tools := Schema.tools crowdedDb;
     Schema.toolUsageLogs := [ view "A" (-1) ] |}.

Definition dayMs : Z := 24 * 60 * 60 * 1000.

Definition topTwoOfDay : TrendingRoute.TrendingQuery :=
  {| TrendingRoute.period := TrendingRoute.day;
     TrendingRoute.limit := 2;
     TrendingRoute.category := None |}.

Definition bestOf (cat : string) : TrendingRoute.TrendingQuery :=
  {| TrendingRoute.period := TrendingRoute.day;
     TrendingRoute.limit := 1;
     TrendingRoute.category := Some cat |}.

(** Usage counts A: 5, B: 1 and stored scores A: 10, B: 50. *)
Definition blendDb : Schema.Db :=
  {| Schema.tools := [ sampleTool "A" "defi" 10 0; sampleTool "B" "defi" 50 0 ];
     Schema.toolUsageLogs :=
       [ view "A" 1000; view "A" 1000; view "B" 1000; view "A" 1000;
         view "A" 1000; view "A" 1000 ] |}.

(** A creation request for a validated tool of category defi. *)
Definition swapRequest : ToolsRoute.CreateToolInput :=
  {| ToolsRoute.c_name := "swap-quote";
     ToolsRoute.c_description := "quotes a swap";
     ToolsRoute.c_category := "defi";
     ToolsRoute.c_version := "1.0.0";
     ToolsRoute.c_isValidated := true;
     ToolsRoute.c_isClaimed := false;
     ToolsRoute.c_hasTools := true;
     ToolsRoute.c_hasReadme := true;
     ToolsRoute.c_hasLicense := true;
     ToolsRoute.c_hasDeployment := true;
     ToolsRoute.c_hasDeployMoreThanManual := true;
     ToolsRoute.c_hasPrompts := false;
     ToolsRoute.c_hasResources := false |}.

Definition category (name slug : string) : Registry.CreateCategoryInput :=
  {| Registry.cc_name := name;
     Registry.cc_slug := slug;
     Registry.cc_description := None;
     Registry.cc_icon := None |}.

(** A payload that only moves the tool to another category. *)
Definition moveTo (cat : string) : ToolsRoute.UpdateToolInput :=
  {| ToolsRoute.u_name := None;
     ToolsRoute.u_description := None;
     ToolsRoute.u_category := Some cat;
     ToolsRoute.u_version := None;
     ToolsRoute.u_isValidated := None;
     ToolsRoute.u_isClaimed := None;
     ToolsRoute.u_hasTools := None;
     ToolsRoute.u_hasReadme := None;
     ToolsRoute.u_hasLicense := None;
     ToolsRoute.u_hasDeployment := None;
     ToolsRoute.u_hasDeployMoreThanManual := None;
     ToolsRoute.u_hasPrompts := None;
     ToolsRoute.u_hasResources := None |}.

(** A submission of the given source URL, and the item of an earlier
    one. *)
Definition submission (url : string) : Discovery.SubmitDiscoveryInput :=
  Discovery.mkSubmitDiscoveryInput "tool" None url "discovered" None None.

Definition queued : Discovery.DiscoveryQueueItem :=
  Discovery.mkDiscoveryQueueItem "d1" "tool" None "https://example.org/tool"
    "discovered" None None (Some "pending") 5.

Definition keyA : string := "123e4567-e89b-12d3-a456-426614174000".
Definition keyB : string := "9f8b1c2d-3e4f-4a5b-8c6d-7e8f9a0b1c2d".

(** A registry with one tool of category nft that was viewed once, and
    two categories whose counters say 3 and 2. *)
Definition shop : Registry.State :=
  {| Registry.db :=
       {| Schema.tools := [ sampleTool keyA "nft" 15 0 ];
          Schema.toolUsageLogs := [ view keyA 1 ] |};
     Registry.categories :=
       [ Registry.mkCategory "c1" "DeFi" "defi" None None (Some 3%Z) 0;
         Registry.mkCategory "c2" "NFT" "nft" None None (Some 2%Z) 0 ] |}.

(** Two categories are created, a tool is created in the first, viewed,
    moved to the second and deleted. *)
Definition session : list (Z * Registry.Request) :=
  [ (1, Registry.CreateCategory (category "DeFi" "defi") "c1");
    (2, Registry.CreateCategory (category "NFT" "nft") "c2");
    (3, Registry.CreateTool swapRequest "t1");
    (4, Registry.ViewTool "t1");
    (5, Registry.PatchTool "t1" (moveTo "nft"));
    (6, Registry.DeleteTool "t1") ]%Z.

End Samples.

(** * Facts *)

(** ** Numbers *)

Lemma Qltb_lt (x y : Q) : Qltb x y = true <-> (x < y)%Q.
Proof.
  unfold Qltb. rewrite negb_true_iff. split.
  - intros H. apply Qnot_le_lt. intros Hle.
    apply Qle_bool_iff in Hle. congruence.
  - intros H. destruct (Qle_bool y x) eqn:E; [|reflexivity].
    apply Qle_bool_iff in E. exfalso. exact (Qlt_not_le _ _ H E).
Qed.

(** ** The trust score *)

Module ScoreFacts.
Import CalculateScore ScoreSpec.

Lemma fold_step weights items acc :
  fold_left (step weights) items acc
  = mkTally
      (t_totalScore acc + sumWeights check weights items)
      (t_maxScore acc + sumWeights (fun _ => true) weights items)
      (t_requiredScore acc + sumWeights isRequiredAndChecked weights items)
      (t_maxRequiredScore acc + sumWeights isRequired weights items).
Proof.
  revert acc. induction items as [|[key it] rest IH]; intros acc.
  - destruct acc; cbn. f_equal; lia.
  - cbn [fold_left]. rewrite IH. clear IH.
    unfold step, isRequiredAndChecked, isRequired.
    cbn [sumWeights t_totalScore t_maxScore t_requiredScore t_maxRequiredScore].
    destruct (Boolean (required it)), (check it); cbn [andb]; f_equal; lia.
Qed.

Lemma tally_sums items weights :
  tally items weights
  = mkTally (sumWeights check weights items)
            (sumWeights (fun _ => true) weights items)
            (sumWeights isRequiredAndChecked weights items)
            (sumWeights isRequired weights items).
Proof. unfold tally. rewrite fold_step. reflexivity. Qed.

Lemma default_weights :
  weightOf DEFAULT_WEIGHTS "validated" = 20%Z
  /\ weightOf DEFAULT_WEIGHTS "tools" = 15%Z
  /\ weightOf DEFAULT_WEIGHTS "deployment" = 15%Z
  /\ weightOf DEFAULT_WEIGHTS "deployMoreThanManual" = 12%Z
  /\ weightOf DEFAULT_WEIGHTS "readme" = 10%Z
  /\ weightOf DEFAULT_WEIGHTS "license" = 8%Z
  /\ weightOf DEFAULT_WEIGHTS "prompts" = 8%Z
  /\ weightOf DEFAULT_WEIGHTS "resources" = 8%Z
  /\ weightOf DEFAULT_WEIGHTS "claimed" = 4%Z.
Proof. repeat split; vm_compute; reflexivity. Qed.

Lemma tally_flags (fl : ScoreFlags) :
  tally (createScoreItems fl) DEFAULT_WEIGHTS
  = mkTally (weightSum fl) 100 (requiredWeightSum fl) 60.
Proof.
  rewrite tally_sums.
  destruct default_weights as (Hv & Ht & Hd & Hm & Hr & Hl & Hp & Hs & Hc).
  unfold createScoreItems, item, isRequiredAndChecked, isRequired.
  cbn [sumWeights check required Boolean andb].
  rewrite Hv, Ht, Hd, Hm, Hr, Hl, Hp, Hs, Hc.
  unfold weightSum, requiredWeightSum, w.
  destruct fl as [c m d l p r s t v]; cbn.
  f_equal; destruct c, m, d, l, p, r, s, t, v; reflexivity.
Qed.

(** With the maximum at 100 the percentage is the score itself. *)
Lemma round_percent_100 (s : Z) : Math_round (percent s 100) = s.
Proof.
  unfold Math_round, percent. cbn [Z.ltb Z.compare].
  assert (E : (inject_Z s / inject_Z 100 * 100 + (1 # 2) == inject_Z s + (1 # 2))%Q).
  { apply Qplus_comp; [|reflexivity]. field. }
  rewrite (Qfloor_comp _ _ E).
  unfold Qfloor, Qplus, inject_Z. cbn [Qnum Qden].
  rewrite Z.mul_1_r. cbn [Pos.mul].
  replace (s * 2 + 1)%Z with (1 + s * 2)%Z by lia.
  rewrite Z.div_add by lia. reflexivity.
Qed.

Lemma percent_lt_100 (s m : Z) :
  (0 < m)%Z -> (percent s m < 100)%Q <-> (s < m)%Z.
Proof.
  intros Hm. destruct m as [|p|p]; try lia.
  unfold percent. cbn [Z.ltb Z.compare].
  unfold Qlt, Qmult, Qdiv, Qinv, inject_Z.
  repeat (unfold Qmult; cbn [Qnum Qden]).
  cbn [Pos.mul]. rewrite ?Z.mul_1_r, ?Pos.mul_1_r. lia.
Qed.

Lemma percent_ge (s m k : Z) :
  (0 < m)%Z -> (inject_Z k <= percent s m)%Q <-> (k * m <= 100 * s)%Z.
Proof.
  intros Hm. destruct m as [|p|p]; try lia.
  unfold percent. cbn [Z.ltb Z.compare].
  unfold Qle, Qmult, Qdiv, Qinv, inject_Z.
  repeat (unfold Qmult; cbn [Qnum Qden]).
  cbn [Pos.mul]. rewrite ?Z.mul_1_r, ?Pos.mul_1_r. lia.
Qed.

Lemma percent_nonpos_max (s m : Z) : (m <= 0)%Z -> percent s m = 0%Q.
Proof.
  intros Hm. unfold percent.
  destruct (Z.ltb_spec 0 m); [lia|reflexivity].
Qed.

(** The grade calculation, read on the order of the rationals. *)
Lemma gradeOf_cases (p rp : Q) :
  ((rp < 100)%Q -> gradeOf p rp = grade_f)
  /\ (~ (rp < 100)%Q -> (80 <= p)%Q -> gradeOf p rp = grade_a)
  /\ (~ (rp < 100)%Q -> (60 <= p)%Q -> (p < 80)%Q -> gradeOf p rp = grade_b)
  /\ (~ (rp < 100)%Q -> (p < 60)%Q -> gradeOf p rp = grade_f).
Proof.
  unfold gradeOf.
  destruct (Qltb rp 100) eqn:Hrp.
  - apply Qltb_lt in Hrp. repeat split; intros; try reflexivity; contradiction.
  - split; [intros H; apply Qltb_lt in H; congruence|].
    destruct (Qle_bool 80 p) eqn:H80.
    + apply Qle_bool_iff in H80. repeat split; intros _; try reflexivity.
      * intros _ Hlt. exfalso. exact (Qlt_not_le _ _ Hlt H80).
      * intros Hlt. exfalso. apply (Qlt_not_le _ _ Hlt).
        apply Qle_trans with (y := 80%Q); [discriminate|exact H80].
    + assert (Hn80 : ~ (80 <= p)%Q).
      { intros H. apply Qle_bool_iff in H. congruence. }
      destruct (Qle_bool 60 p) eqn:H60.
      * apply Qle_bool_iff in H60. repeat split; intros _; try reflexivity.
        -- intros H. contradiction.
        -- intros Hlt. exfalso. exact (Qlt_not_le _ _ Hlt H60).
      * assert (Hn60 : ~ (60 <= p)%Q).
        { intros H. apply Qle_bool_iff in H. congruence. }
        repeat split; intros _; try reflexivity; intros H; contradiction.
Qed.

(** [calculateToolScore] in closed form. *)
Lemma calculateToolScore_closed (tool : ToolData) :
  let fl := calculateScoreFlags tool in
  calculateToolScore tool
  = {| grade := gradeOf (percent (weightSum fl) 100)
                        (percent (requiredWeightSum fl) 60);
       maxRequiredScore := 60;
       maxScore := 100;
       percentage := weightSum fl;
       requiredPercentage := Math_round (percent (requiredWeightSum fl) 60);
       requiredScore := requiredWeightSum fl;
       totalScore := weightSum fl |}.
Proof.
  intros fl. unfold calculateToolScore, calculateScore. fold fl.
  rewrite tally_flags. unfold rawPercentage, rawRequiredPercentage.
  cbn [t_totalScore t_maxScore t_requiredScore t_maxRequiredScore].
  rewrite round_percent_100. reflexivity.
Qed.

Lemma requiredWeightSum_range (fl : ScoreFlags) :
  (0 <= requiredWeightSum fl <= 60)%Z
  /\ (requiredWeightSum fl = 60%Z <-> allRequired fl = true).
Proof.
  unfold requiredWeightSum, allRequired, w.
  destruct (hasValidated fl), (hasTools fl), (hasDeployment fl),
    (hasReadme fl); cbn; repeat split; intros; try lia; congruence.
Qed.

(** With the fixed weights the grade follows from the flags
    [calculateScoreFlags] reads: the four required weights alone reach
    60 percent. *)
Lemma grade_by_flags (tool : ToolData) :
  let fl := calculateScoreFlags tool in
  let r := calculateToolScore tool in
  (grade r = grade_f <-> allRequired fl = false)
  /\ (grade r = grade_a <-> allRequired fl = true /\ (80 <= totalScore r)%Z)
  /\ (grade r = grade_b <-> allRequired fl = true /\ (totalScore r < 80)%Z).
Proof.
  intros fl r. unfold r. rewrite calculateToolScore_closed. fold fl.
  cbn [grade totalScore].
  destruct fl as [c m d l p re s t v].
  destruct c, m, d, l, p, re, s, t, v; vm_compute;
    repeat split; intros; try congruence; try tauto;
    try match goal with H : _ /\ _ |- _ => destruct H end;
    try congruence; try discriminate; try (exfalso; auto; fail).
Qed.

(** *** The flags as the argument gives them *)

Lemma Boolean_given (x : option bool) : Boolean x = given x.
Proof. destruct x as [[|]|]; reflexivity. Qed.

Lemma given_true (x : option bool) : given x = true <-> x = Some true.
Proof. unfold given. apply bool_decide_eq_true. Qed.

(** What [calculateScoreFlags] reads is what the argument gives. *)
Lemma flags_given (tool : ToolData) :
  calculateScoreFlags tool
  = {| hasValidated := given (isValidated tool);
       hasTools := given (data_hasTools tool);
       hasDeployment := given (data_hasDeployment tool);
       hasDeployMoreThanManual := given (data_hasDeployMoreThanManual tool);
       hasReadme := given (data_hasReadme tool);
       hasLicense := given (data_hasLicense tool);
       hasPrompts := given (data_hasPrompts tool);
       hasResources := given (data_hasResources tool);
       hasClaimed := given (isClaimed tool) |}.
Proof. unfold calculateScoreFlags. rewrite !Boolean_given. reflexivity. Qed.

Lemma allRequired_given (tool : ToolData) :
  allRequired (calculateScoreFlags tool) = true <-> allRequiredGiven tool.
Proof.
  rewrite flags_given. unfold allRequired, allRequiredGiven.
  cbn [hasValidated hasTools hasDeployment hasReadme].
  rewrite !andb_true_iff, !given_true. tauto.
Qed.

Lemma not_allRequired_given (tool : ToolData) :
  allRequired (calculateScoreFlags tool) = false <-> ~ allRequiredGiven tool.
Proof.
  rewrite <- allRequired_given.
  destruct (allRequired (calculateScoreFlags tool)); split; congruence.
Qed.

(** C1: for every combination of the nine flags (a flag that is
    missing is not true), [calculateToolScore] grades [f] whenever one
    of the four required flags validated, hasTools, hasDeployment,
    hasReadme is not given as true, and grades [a] or [b] only when all
    four are true; with all four true the grade is [a] or [b]. *)
Theorem grade_required_gate (tool : ToolData) :
  let r := calculateToolScore tool in
  ((isValidated tool <> Some true \/ data_hasTools tool <> Some true
    \/ data_hasDeployment tool <> Some true
    \/ data_hasReadme tool <> Some true) ->
   grade r = grade_f)
  /\ ((grade r = grade_a \/ grade r = grade_b) ->
      isValidated tool = Some true /\ data_hasTools tool = Some true
      /\ data_hasDeployment tool = Some true
      /\ data_hasReadme tool = Some true)
  /\ ((isValidated tool = Some true /\ data_hasTools tool = Some true
       /\ data_hasDeployment tool = Some true
       /\ data_hasReadme tool = Some true) ->
      grade r = grade_a \/ grade r = grade_b).
Proof.
  intros r. destruct (grade_by_flags tool) as (Hf & Ha & Hb). fold r in Hf, Ha, Hb.
  rewrite not_allRequired_given in Hf. rewrite allRequired_given in Ha, Hb.
  unfold allRequiredGiven in *. split; [|split].
  - intros H. apply Hf. tauto.
  - intros [H|H]; [apply Ha in H|apply Hb in H]; tauto.
  - intros H. destruct (Z.le_gt_cases 80 (totalScore r)) as [H80|H80].
    + left. apply Ha. tauto.
    + right. apply Hb. split; [tauto|lia].
Qed.

(** The decision read on the scores the result carries: the required
    gate is open exactly when every required weight was scored, and the
    thresholds compare [100 * totalScore] with [80 * maxScore] and
    [60 * maxScore]. *)
Lemma grade_by_scores (items : list (string * ScoreItem))
    (weights : gmap string Z) :
  let r := calculateScore items weights in
  grade r =
    if (maxRequiredScore r <=? 0)%Z
       || (requiredScore r <? maxRequiredScore r)%Z then grade_f
    else if (0 <? maxScore r)%Z && (80 * maxScore r <=? 100 * totalScore r)%Z
    then grade_a
    else if (0 <? maxScore r)%Z && (60 * maxScore r <=? 100 * totalScore r)%Z
    then grade_b
    else grade_f.
Proof.
  intros r. unfold r, calculateScore.
  cbn [grade maxRequiredScore requiredScore maxScore totalScore].
  set (t := tally items weights).
  destruct (gradeOf_cases (rawPercentage t) (rawRequiredPercentage t))
    as (Hf & Ha & Hb & Hf').
  unfold rawPercentage, rawRequiredPercentage in *.
  destruct (Z.leb_spec (t_maxRequiredScore t) 0) as [Hm|Hm]; cbn [orb].
  { apply Hf. rewrite percent_nonpos_max by exact Hm. reflexivity. }
  destruct (Z.ltb_spec (t_requiredScore t) (t_maxRequiredScore t)) as [Hr|Hr].
  { apply Hf. apply percent_lt_100; assumption. }
  assert (Hge : ~ (percent (t_requiredScore t) (t_maxRequiredScore t) < 100)%Q).
  { intros H. apply (proj1 (percent_lt_100 _ _ Hm)) in H. lia. }
  destruct (Z.ltb_spec 0 (t_maxScore t)) as [Hp|Hp]; cbn [andb].
  - destruct (Z.leb_spec (80 * t_maxScore t) (100 * t_totalScore t)) as [H80|H80].
    { apply Ha; [exact Hge|]. apply (percent_ge _ _ 80); assumption. }
    assert (Hlt80 : (percent (t_totalScore t) (t_maxScore t) < 80)%Q).
    { apply Qnot_le_lt. intros H. apply (percent_ge _ _ 80) in H; lia. }
    destruct (Z.leb_spec (60 * t_maxScore t) (100 * t_totalScore t)) as [H60|H60].
    { apply Hb; [exact Hge| |exact Hlt80]. apply (percent_ge _ _ 60); assumption. }
    apply Hf'; [exact Hge|].
    apply Qnot_le_lt. intros H. apply (percent_ge _ _ 60) in H; lia.
  - apply Hf'; [exact Hge|]. rewrite percent_nonpos_max by exact Hp. reflexivity.
Qed.

(** C3: for every combination of the nine flags, the [totalScore] of
    [calculateToolScore] is the sum of the fixed weights (validated 20,
    hasTools 15, hasDeployment 15, hasDeployMoreThanManual 12,
    hasReadme 10, hasLicense 8, hasPrompts 8, hasResources 8,
    claimed 4) of the flags the argument gives as true, and [maxScore]
    is 100 whichever flags are set. *)
Theorem totalScore_is_weight_sum (tool : ToolData) :
  let r := calculateToolScore tool in
  totalScore r
  = ((if given (isValidated tool) then 20 else 0)
     + (if given (data_hasTools tool) then 15 else 0)
     + (if given (data_hasDeployment tool) then 15 else 0)
     + (if given (data_hasDeployMoreThanManual tool) then 12 else 0)
     + (if given (data_hasReadme tool) then 10 else 0)
     + (if given (data_hasLicense tool) then 8 else 0)
     + (if given (data_hasPrompts tool) then 8 else 0)
     + (if given (data_hasResources tool) then 8 else 0)
     + (if given (isClaimed tool) then 4 else 0))%Z
  /\ maxScore r = 100%Z.
Proof.
  intros r. unfold r. rewrite calculateToolScore_closed, flags_given.
  cbn [totalScore maxScore]. split; reflexivity.
Qed.


(** On the nine flags with the fixed weights, binary64 arithmetic gives
    the grade and the rounded percentages of the exact arithmetic. *)
Lemma doubles_agree (tool : ToolData) :
  ScoreDoubles.agreesWith
    (tally (createScoreItems (calculateScoreFlags tool)) DEFAULT_WEIGHTS)
    (calculateToolScore tool) = true.
Proof.
  unfold calculateToolScore.
  destruct (calculateScoreFlags tool) as [c m d l p re s t v].
  destruct c, m, d, l, p, re, s, t, v; vm_compute; reflexivity.
Qed.

(** With weights other than the fixed ones the returned percentage
    does not decide the grade: 796 of 1000 points are graded [b] and
    returned as 80 percent; binary64 arithmetic gives the same grade
    and the same roundings there. *)
Example grade_b_shown_as_80 :
  calculateScore Samples.twoItems Samples.twoWeights
  = mkScoreResult grade_b 796 1000 80 100 796 796
  /\ ScoreDoubles.agreesWith
       (tally Samples.twoItems Samples.twoWeights)
       (calculateScore Samples.twoItems Samples.twoWeights) = true.
Proof. split; vm_compute; reflexivity. Qed.



(** The boundary cases of the specification. *)
Example required_only_is_b :
  calculateToolScore (Samples.flags true true true false true false false false false)
  = mkScoreResult grade_b 60 100 60 100 60 60.
Proof. vm_compute. reflexivity. Qed.

Example required_and_license_is_b :
  calculateToolScore (Samples.flags true true true false true true false false false)
  = mkScoreResult grade_b 60 100 68 100 60 68.
Proof. vm_compute. reflexivity. Qed.

Example eighty_is_a :
  calculateToolScore (Samples.flags true true true true true true false false false)
  = mkScoreResult grade_a 60 100 80 100 60 80.
Proof. vm_compute. reflexivity. Qed.

Example all_true_is_a :
  calculateToolScore (Samples.flags true true true true true true true true true)
  = mkScoreResult grade_a 60 100 100 100 60 100.
Proof. vm_compute. reflexivity. Qed.

Example all_false_is_f :
  calculateToolScore (Samples.flags false false false false false false false false false)
  = mkScoreResult grade_f 60 100 0 0 0 0.
Proof. vm_compute. reflexivity. Qed.

(** Ninety points without the readme: the required gate decides. *)
Example ninety_without_readme_is_f :
  calculateToolScore (Samples.flags true true true true false true true true true)
  = mkScoreResult grade_f 60 100 90 83 50 90.
Proof. vm_compute. reflexivity. Qed.

(** An empty argument is scored as all false. *)
Example nothing_given_is_f :
  calculateToolScore
    (mkToolData None None None None None None None None None)
  = mkScoreResult grade_f 60 100 0 0 0 0.
Proof. vm_compute. reflexivity. Qed.

Lemma weightSum_setFlag (flag : Flag) (tool : ToolData) :
  (weightSum (calculateScoreFlags (setFlag flag (Some false) tool))
   <= weightSum (calculateScoreFlags (setFlag flag (Some true) tool)))%Z.
Proof.
  destruct tool as [va to de dm re li pr rs cl].
  destruct flag; cbn [setFlag]; unfold calculateScoreFlags, weightSum;
    cbn [isValidated data_hasTools data_hasDeployment
         data_hasDeployMoreThanManual data_hasReadme data_hasLicense
         data_hasPrompts data_hasResources isClaimed Boolean
         hasValidated hasTools hasDeployment hasDeployMoreThanManual
         hasReadme hasLicense hasPrompts hasResources hasClaimed w];
    lia.
Qed.

(** C5: for every combination of the nine flags and every single
    flag, turning that flag from false to true with the other eight
    held fixed never decreases the [totalScore] nor the [percentage]
    of [calculateToolScore]. *)
Theorem score_monotone_in_each_flag (flag : Flag) (tool : ToolData) :
  let lo := calculateToolScore (setFlag flag (Some false) tool) in
  let hi := calculateToolScore (setFlag flag (Some true) tool) in
  (totalScore lo <= totalScore hi)%Z /\ (percentage lo <= percentage hi)%Z.
Proof.
  intros lo hi. unfold lo, hi. rewrite !calculateToolScore_closed.
  cbn [totalScore percentage].
  split; apply weightSum_setFlag.
Qed.

Lemma Boolean_orFalse (x : option bool) : Boolean (orFalse x) = Boolean x.
Proof. destruct x; reflexivity. Qed.

(** C6: [calculateToolScore] is total on partial inputs: whichever of
    the nine fields are missing, it returns a result, and that result
    is the one of the input with the missing fields set to false. *)
Theorem missing_flags_count_as_false (tool : ToolData) :
  exists r : ScoreResult,
    calculateToolScore tool = r
    /\ calculateToolScore (withMissingAsFalse tool) = r.
Proof.
  exists (calculateToolScore tool). split; [reflexivity|].
  unfold calculateToolScore. f_equal. f_equal.
  destruct tool as [va to de dm re li pr rs cl].
  unfold withMissingAsFalse, calculateScoreFlags.
  cbn [isValidated data_hasTools data_hasDeployment
       data_hasDeployMoreThanManual data_hasReadme data_hasLicense
       data_hasPrompts data_hasResources isClaimed].
  rewrite !Boolean_orFalse. reflexivity.
Qed.

End ScoreFacts.

(** ** Sorting *)

Section SortFacts.
Context {A : Type} (before : A -> A -> bool).

Let R (x y : A) : Prop := before x y = true.

Lemma insertBy_Permutation (x : A) (l : list A) :
  insertBy before x l ≡ₚ x :: l.
Proof.
  induction l as [|y l IH]; cbn; [reflexivity|].
  destruct (before x y); [reflexivity|].
  rewrite IH. apply perm_swap.
Qed.

Lemma sortBy_Permutation (l : list A) : sortBy before l ≡ₚ l.
Proof.
  induction l as [|x l IH]; cbn; [reflexivity|].
  rewrite insertBy_Permutation, IH. reflexivity.
Qed.

Lemma sortBy_length (l : list A) : length (sortBy before l) = length l.
Proof. apply Permutation_length, sortBy_Permutation. Qed.

Lemma elem_of_sortBy (x : A) (l : list A) : x ∈ sortBy before l <-> x ∈ l.
Proof. rewrite sortBy_Permutation. reflexivity. Qed.

Hypothesis before_total : forall x y, before x y = true \/ before y x = true.
Hypothesis before_trans :
  forall x y z, before x y = true -> before y z = true -> before x z = true.

Lemma insertBy_StronglySorted (x : A) (l : list A) :
  StronglySorted R l -> StronglySorted R (insertBy before x l).
Proof.
  induction 1 as [|y l Hl IH Hy]; cbn.
  - repeat constructor.
  - destruct (before x y) eqn:Hxy.
    + constructor; [constructor; assumption|].
      constructor; [exact Hxy|].
      eapply Forall_impl; [exact Hy|].
      intros z Hz. exact (before_trans _ _ _ Hxy Hz).
    + constructor; [exact IH|].
      rewrite insertBy_Permutation. constructor; [|exact Hy].
      destruct (before_total x y) as [H|H]; [congruence|exact H].
Qed.

Lemma sortBy_StronglySorted (l : list A) :
  StronglySorted R (sortBy before l).
Proof.
  induction l as [|x l IH]; cbn; [constructor|].
  apply insertBy_StronglySorted, IH.
Qed.

(** The first [n] of the sorted list are a best [n]: they are sorted,
    together with the rest they are the whole list, and each of them
    may stand in front of everything left out. *)
Lemma take_sortBy_top (n : nat) (l : list A) :
  let rows := take n (sortBy before l) in
  let rest := drop n (sortBy before l) in
  StronglySorted R rows
  /\ l ≡ₚ rows ++ rest
  /\ (forall x y, x ∈ rows -> y ∈ rest -> R x y)
  /\ length rows = min n (length l).
Proof.
  intros rows rest.
  pose proof (sortBy_StronglySorted l) as Hs.
  rewrite <- (take_drop n (sortBy before l)) in Hs. fold rows rest in Hs.
  repeat split.
  - exact (StronglySorted_app_1_l _ _ _ Hs).
  - unfold rows, rest. rewrite take_drop. symmetry. apply sortBy_Permutation.
  - intros x y Hx Hy. exact (StronglySorted_app_1_elem_of _ _ _ _ _ Hs Hx Hy).
  - unfold rows. rewrite length_take, sortBy_length. reflexivity.
Qed.

End SortFacts.

(** ** Keys *)

(** In a list whose keys are pairwise distinct, a key names one
    element. *)
Lemma NoDup_fmap_key {A K : Type} (f : A -> K) (l : list A) (x y : A) :
  NoDup (f <$> l) -> x ∈ l -> y ∈ l -> f x = f y -> x = y.
Proof.
  induction l as [|a l IH]; intros Hnd Hx Hy Hf.
  - inversion Hx.
  - rewrite fmap_cons in Hnd. apply NoDup_cons in Hnd as [Ha Hnd].
    apply elem_of_cons in Hx as [->|Hx];
      apply elem_of_cons in Hy as [->|Hy].
    + reflexivity.
    + exfalso. apply Ha. rewrite Hf. apply list_elem_of_fmap. eauto.
    + exfalso. apply Ha. rewrite <- Hf. apply list_elem_of_fmap. eauto.
    + exact (IH Hnd Hx Hy Hf).
Qed.

(** ** Creating and updating tools *)

Module ToolsFacts.
Import CalculateScore ScoreSpec ToolsRoute.

Lemma selectById_updateById rows id set existing :
  (forall t, Schema.id (set t) = Schema.id t) ->
  selectById rows id = Some existing ->
  selectById (updateById rows id set) id = Some (set existing).
Proof.
  intros Hid. unfold selectById, updateById.
  induction rows as [|t rows IH]; [discriminate|].
  rewrite fmap_cons, !filter_cons.
  destruct (decide (Schema.id t = id)) as [E|E].
  - rewrite decide_True by (rewrite Hid; exact E).
    cbn. intros [= ->]. reflexivity.
  - rewrite decide_False by exact E. exact IH.
Qed.

Lemma selectById_id rows id row :
  selectById rows id = Some row -> Schema.id row = id /\ row ∈ rows.
Proof.
  unfold selectById. intros H.
  assert (Hin : row ∈ filter (fun t => Schema.id t = id) rows).
  { destruct (filter _ rows); [discriminate|].
    injection H as ->. apply list_elem_of_here. }
  apply list_elem_of_filter in Hin. exact Hin.
Qed.

Lemma needsScoreRecalc_false (u : UpdateToolInput) :
  needsScoreRecalc u = false -> forall flag, payloadFlag flag u = None.
Proof.
  unfold needsScoreRecalc. cbn [existsb]. intros H flag.
  repeat (apply orb_false_elim in H; destruct H as [? H]).
  destruct flag; cbn [payloadFlag];
    match goal with |- ?x = None => destruct x; [discriminate|reflexivity] end.
Qed.

(** Reading the columns of a row that is written out in full. *)
Ltac row_fields :=
  cbn [Schema.id Schema.name Schema.description Schema.category
       Schema.version Schema.scoreData Schema.totalScore Schema.maxScore
       Schema.percentage Schema.grade Schema.isValidated Schema.isClaimed
       Schema.hasTools Schema.hasReadme Schema.hasLicense
       Schema.hasDeployment Schema.hasDeployMoreThanManual
       Schema.hasPrompts Schema.hasResources Schema.downloadCount
       Schema.usageCount Schema.createdAt Schema.updatedAt].

(** The score, kept folded while the rows around it are compared. *)
Ltac fold_score :=
  repeat match goal with
         | |- context [calculateToolScore ?x] =>
             let r := fresh "r" in
             set (r := calculateToolScore x) in *; clearbody r
         end.

(** The flags of the row PATCH writes are the merged flags. *)
Lemma flagsOfRow_setRow updateData scoreUpdate now existing :
  flagsOfRow (setRow updateData scoreUpdate now existing)
  = mergedData (merge updateData existing).
Proof.
  unfold flagsOfRow, setRow, mergedData, merge. row_fields.
  cbn [m_isValidated m_hasTools m_hasDeployment m_hasDeployMoreThanManual
       m_hasReadme m_hasLicense m_hasPrompts m_hasResources m_isClaimed].
  reflexivity.
Qed.

(** With a scoring field in the payload, the row PATCH writes holds
    the score of its own flags. *)
Lemma setRow_recalc_consistent updateData existing now :
  needsScoreRecalc updateData = true ->
  scoreConsistent
    (setRow updateData (scoreUpdateOf updateData existing) now existing).
Proof.
  intros Hneeds. unfold scoreConsistent.
  rewrite flagsOfRow_setRow. unfold scoreUpdateOf. rewrite Hneeds.
  fold_score. repeat split; reflexivity.
Qed.

Lemma nameNotTaken_check rows id updateData :
  nameNotTaken rows id updateData <->
  match u_name updateData with
  | Some n => nameTakenByOther rows id n
  | None => false
  end = false.
Proof.
  unfold nameNotTaken, nameTakenByOther.
  destruct (u_name updateData) as [n|].
  - rewrite bool_decide_eq_false, Exists_exists. split.
    + intros H (t & Ht & Hid & Hn). apply Hid. exact (H n t eq_refl Ht Hn).
    + intros H n' t [= <-] Ht Hn.
      destruct (decide (Schema.id t = id)) as [E|E]; [exact E|].
      exfalso. apply H. exists t. auto.
  - split; [reflexivity|]. intros _ n t Hn. discriminate Hn.
Qed.

(** What PATCH answers, case by case. *)
Lemma PATCH_cases rows id updateData now :
  (selectById rows id = None
   /\ PATCH rows id updateData now = (Failure 404 "Tool not found", rows))
  \/ (exists existing,
        selectById rows id = Some existing
        /\ ~ nameNotTaken rows id updateData
        /\ PATCH rows id updateData now
           = (Failure 500 "Internal server error", rows))
  \/ (exists existing,
        selectById rows id = Some existing
        /\ nameNotTaken rows id updateData
        /\ PATCH rows id updateData now
           = (Success 200
                (Some (setRow updateData (scoreUpdateOf updateData existing)
                              now existing)),
              updateById rows id
                (setRow updateData (scoreUpdateOf updateData existing) now))).
Proof.
  unfold PATCH.
  destruct (selectById rows id) as [existing|] eqn:Hsel; [|left; auto].
  right. cbn zeta.
  destruct (match u_name updateData with
            | Some n => nameTakenByOther rows id n
            | None => false
            end) eqn:Hcheck.
  - left. exists existing. split; [reflexivity|]. split; [|reflexivity].
    rewrite nameNotTaken_check, Hcheck. discriminate.
  - right. exists existing. split; [reflexivity|].
    split; [apply nameNotTaken_check; exact Hcheck|].
    rewrite (selectById_updateById _ _ _ existing); [reflexivity| |exact Hsel].
    reflexivity.
Qed.





(** A PATCH that takes the name of another tool is answered 500 and
    writes nothing, whatever flags it carries. *)
Lemma patch_name_taken_writes_nothing rows id updateData now existing :
  selectById rows id = Some existing ->
  ~ nameNotTaken rows id updateData ->
  PATCH rows id updateData now = (Failure 500 "Internal server error", rows).
Proof.
  intros Hsel Hnot.
  destruct (PATCH_cases rows id updateData now)
    as [[Hnone _]|[(e & _ & _ & E)|(e & _ & Hok & _)]];
    [congruence|exact E|contradiction].
Qed.

(** Without a scoring field in the payload PATCH leaves the flags and
    the derived columns of the row as they are. *)
Lemma setRow_no_recalc updateData existing now :
  needsScoreRecalc updateData = false ->
  let updated :=
    setRow updateData (scoreUpdateOf updateData existing) now existing in
  flagsOfRow updated = flagsOfRow existing
  /\ Schema.totalScore updated = Schema.totalScore existing
  /\ Schema.percentage updated = Schema.percentage existing
  /\ Schema.grade updated = Schema.grade existing.
Proof.
  intros Hneeds updated. unfold updated, scoreUpdateOf. rewrite Hneeds.
  pose proof (needsScoreRecalc_false updateData Hneeds) as Hnone.
  pose proof (Hnone Validated) as H1. pose proof (Hnone HasTools) as H2.
  pose proof (Hnone HasDeployment) as H3.
  pose proof (Hnone HasDeployMoreThanManual) as H4.
  pose proof (Hnone HasReadme) as H5. pose proof (Hnone HasLicense) as H6.
  pose proof (Hnone HasPrompts) as H7. pose proof (Hnone HasResources) as H8.
  pose proof (Hnone Claimed) as H9. cbn [payloadFlag] in *.
  unfold flagsOfRow, setRow. row_fields.
  rewrite H1, H2, H3, H4, H5, H6, H7, H8, H9.
  repeat split; reflexivity.
Qed.

(** Every PATCH keeps the rows of a table with unique keys
    consistent. *)
Lemma patch_preserves_consistency rows id updateData now :
  NoDup (Schema.id <$> rows) ->
  Forall scoreConsistent rows ->
  Forall scoreConsistent (snd (PATCH rows id updateData now)).
Proof.
  intros Hnd Hall.
  destruct (PATCH_cases rows id updateData now)
    as [[_ HP]|[(existing & _ & _ & HP)|(existing & Hsel & _ & HP)]];
    rewrite HP; cbn [snd]; [exact Hall|exact Hall|]. clear HP.
  destruct (selectById_id _ _ _ Hsel) as [Hid Hin].
  unfold updateById. apply Forall_forall. intros row' Hrow'.
  apply list_elem_of_fmap in Hrow'. destruct Hrow' as (row & -> & Hrow).
  destruct (decide (Schema.id row = id)) as [E|E].
  - assert (row = existing) as ->.
    { apply (NoDup_fmap_key Schema.id rows); try assumption. congruence. }
    destruct (needsScoreRecalc updateData) eqn:Hneeds.
    + apply setRow_recalc_consistent. exact Hneeds.
    + destruct (setRow_no_recalc updateData existing now Hneeds)
        as (Hf & Ht & Hp & Hg).
      pose proof (proj1 (Forall_forall _ _) Hall existing Hin) as Hc.
      unfold scoreConsistent in *. rewrite Hf, Ht, Hp, Hg. exact Hc.
  - exact (proj1 (Forall_forall _ _) Hall row Hrow).
Qed.



(** The name check of POST lets the request through. *)
Definition nameFree (rows : list Schema.Tool) (toolData : CreateToolInput)
    : Prop :=
  head (filter (fun t => Schema.name t = c_name toolData) rows) = None.

(** The row POST inserts holds the score of its flags. *)
Lemma insertValues_consistent toolData newId now :
  scoreConsistent (insertValues toolData newId now).
Proof.
  unfold scoreConsistent, flagsOfRow, insertValues. row_fields.
  fold_score. repeat split; reflexivity.
Qed.

Lemma post_establishes_consistency rows toolData newId now row rows' :
  POST rows toolData newId now = (Success 201 row, rows') ->
  scoreConsistent row /\ rows' = rows ++ [row].
Proof.
  unfold POST.
  destruct (head (filter _ rows)); [discriminate|].
  cbn zeta. intros H.
  assert (Hrow : insertValues toolData newId now = row) by congruence.
  assert (Hrows : rows ++ [insertValues toolData newId now] = rows')
    by congruence.
  rewrite <- Hrows, <- Hrow. split; [|reflexivity].
  apply insertValues_consistent.
Qed.



End ToolsFacts.

(** ** The trending ranker *)

Module TrendingFacts.
Import TrendingRoute TrendingSpec.

Lemma num_or_0 (v : Z) : num_or (Some v) 0 = v.
Proof. cbn. destruct (Z.eqb_spec v 0); congruence. Qed.

(** *** Numbers and strings *)

Lemma js_or_number (v : Z) : js_or (Some (JsNumber v)) (JsNumber 0) = JsNumber v.
Proof. cbn. destruct (Z.eqb_spec v 0); congruence. Qed.

Lemma pretty_N_go_nonempty (x : N) (s : string) :
  s <> "" -> pretty_N_go x s <> "".
Proof.
  revert s. induction (N.lt_wf_0 x) as [x _ IH]; intros s Hs.
  destruct (N.eq_dec x 0%N) as [->|Hx].
  - rewrite pretty_N_go_0. exact Hs.
  - rewrite pretty_N_go_step by lia.
    apply IH; [apply N.div_lt; lia|discriminate].
Qed.

(** The decimal text of an integer is never empty. *)
Lemma pretty_Z_nonempty (n : Z) : pretty n <> "".
Proof.
  assert (Hpos : forall p : positive, pretty p <> "").
  { intros p. unfold pretty, pretty_positive, pretty, pretty_N.
    rewrite decide_False by discriminate.
    rewrite pretty_N_go_step by reflexivity.
    apply pretty_N_go_nonempty. discriminate. }
  destruct n as [|p|p]; unfold pretty, pretty_Z.
  - discriminate.
  - apply Hpos.
  - discriminate.
Qed.

Lemma js_or_text (n : Z) :
  js_or (Some (JsString (pretty n))) (JsNumber 0) = JsString (pretty n).
Proof.
  pose proof (pretty_Z_nonempty n) as Hn. cbn.
  destruct (pretty n); [congruence|reflexivity].
Qed.

(** *** The orders of the two queries *)

Lemma byUsageDesc_total x y :
  byUsageDesc x y = true \/ byUsageDesc y x = true.
Proof. unfold byUsageDesc. rewrite !Z.leb_le. lia. Qed.

Lemma byUsageDesc_trans x y z :
  byUsageDesc x y = true -> byUsageDesc y z = true -> byUsageDesc x z = true.
Proof. unfold byUsageDesc. rewrite !Z.leb_le. lia. Qed.

Lemma byScoreThenDownloadsDesc_spec x y :
  byScoreThenDownloadsDesc x y = true <-> rankedByScore x y.
Proof.
  unfold byScoreThenDownloadsDesc, rankedByScore.
  rewrite orb_true_iff, andb_true_iff, Z.ltb_lt, Z.eqb_eq, Z.leb_le.
  reflexivity.
Qed.

Lemma byScoreThenDownloadsDesc_total x y :
  byScoreThenDownloadsDesc x y = true \/ byScoreThenDownloadsDesc y x = true.
Proof. rewrite !byScoreThenDownloadsDesc_spec. unfold rankedByScore. lia. Qed.

Lemma byScoreThenDownloadsDesc_trans x y z :
  byScoreThenDownloadsDesc x y = true ->
  byScoreThenDownloadsDesc y z = true ->
  byScoreThenDownloadsDesc x z = true.
Proof. rewrite !byScoreThenDownloadsDesc_spec. unfold rankedByScore. lia. Qed.

(** *** The category condition *)

Lemma filter_True {A : Type} (P : A -> Prop) {Pdec : forall x, Decision (P x)}
    (l : list A) :
  (forall x, P x) -> filter P l = l.
Proof.
  intros Hall. induction l as [|x l IH]; [reflexivity|].
  rewrite filter_cons, decide_True by apply Hall. rewrite IH. reflexivity.
Qed.

(** The condition the handler applies is the category condition of
    the specification. *)
Lemma whereCategory_filter cat rows :
  whereCategory cat rows = filter (categoryMatches cat) rows.
Proof.
  unfold whereCategory. destruct cat as [[|a c]|]; cbn [truthy_string].
  - symmetry. apply filter_True. intros t. left. reflexivity.
  - apply list_filter_iff. intros t. cbn [categoryMatches].
    split; [auto|]. intros [H|H]; [discriminate H|exact H].
  - symmetry. apply filter_True. intros t. exact I.
Qed.

(** *** The window *)

Lemma lookbackStart_threshold (now : Z) (p : Period) :
  lookbackStart now p = threshold now p.
Proof. unfold lookbackStart, threshold. destruct p; cbn [periodDays]; lia. Qed.

(** The window the handler queries is the lookback window of the
    specification. *)
Lemma inWindow_lookback logs now p :
  inWindow logs (threshold now p) = filter (inLookback now p) logs.
Proof.
  unfold inWindow. apply list_filter_iff. intros e.
  unfold inLookback. rewrite lookbackStart_threshold. reflexivity.
Qed.

Lemma usageOf_windowUsage db now q k :
  usageOf db now (period q) k = windowUsage db now q k.
Proof.
  unfold usageOf, windowUsage, countFor.
  rewrite inWindow_lookback, list_filter_filter. reflexivity.
Qed.

Lemma inWindow_nil logs now p :
  Forall (fun e => ~ inLookback now p e) logs ->
  inWindow logs (threshold now p) = [].
Proof.
  intros Hall. rewrite inWindow_lookback.
  induction Hall as [|e logs He _ IH]; [reflexivity|].
  rewrite filter_cons, decide_False by exact He. exact IH.
Qed.

Lemma inWindow_not_nil logs now p :
  Exists (inLookback now p) logs -> inWindow logs (threshold now p) <> [].
Proof.
  intros Hex. rewrite inWindow_lookback.
  apply Exists_exists in Hex as (e & He & Hin).
  assert (Hf : e ∈ filter (inLookback now p) logs)
    by (apply list_elem_of_filter; auto).
  intros E. rewrite E in Hf. inversion Hf.
Qed.

(** *** Grouping the usage log *)

Lemma groupByToolId_keys logs :
  group_toolId <$> groupByToolId logs = remove_dups (Schema.log_toolId <$> logs).
Proof.
  unfold groupByToolId. rewrite <- list_fmap_compose.
  apply list_fmap_id.
Qed.

Lemma elem_of_groupByToolId logs g :
  g ∈ groupByToolId logs ->
  group_count g = countFor logs (group_toolId g)
  /\ group_toolId g ∈ (Schema.log_toolId <$> logs).
Proof.
  unfold groupByToolId. intros H.
  apply list_elem_of_fmap in H as (k & -> & Hk).
  rewrite elem_of_remove_dups in Hk. split; [reflexivity|exact Hk].
Qed.

Lemma countFor_pos logs k :
  k ∈ (Schema.log_toolId <$> logs) -> (0 < countFor logs k)%Z.
Proof.
  intros H. apply list_elem_of_fmap in H as (e & -> & He).
  unfold countFor.
  assert (Hin : e ∈ filter (fun e' => Schema.log_toolId e' = Schema.log_toolId e) logs).
  { apply list_elem_of_filter. split; [reflexivity|exact He]. }
  destruct (filter _ logs); [inversion Hin|]. cbn [length]. lia.
Qed.

Lemma countFor_zero logs k :
  k ∉ (Schema.log_toolId <$> logs) -> countFor logs k = 0%Z.
Proof.
  intros H. unfold countFor.
  replace (filter (fun e => Schema.log_toolId e = k) logs) with (@nil Schema.ToolUsageLog);
    [reflexivity|].
  symmetry. apply elem_of_nil_inv. intros e He.
  apply list_elem_of_filter in He as [<- He].
  apply H. apply list_elem_of_fmap. eauto.
Qed.

(** *** The usage-ranked keys *)

Lemma trendingData_fetched db now q :
  trendingData db now q = delivered <$> fetchedGroups db now q.
Proof. reflexivity. Qed.

Lemma trendingData_keys db now q :
  toolId <$> trendingData db now q = group_toolId <$> fetchedGroups db now q.
Proof.
  rewrite trendingData_fetched, <- list_fmap_compose.
  apply list_fmap_ext. intros _ g _. reflexivity.
Qed.

Lemma fetchedGroups_elem db now q g :
  g ∈ fetchedGroups db now q ->
  group_count g = windowUsage db now q (group_toolId g)
  /\ (0 < windowUsage db now q (group_toolId g))%Z.
Proof.
  unfold fetchedGroups, windowUsage. intros H.
  apply subseteq_take in H. apply elem_of_sortBy in H.
  apply elem_of_groupByToolId in H as [Hc Hk].
  split; [exact Hc|]. apply countFor_pos. exact Hk.
Qed.

Lemma trendingData_elem db now q r :
  r ∈ trendingData db now q ->
  usageCount r = pretty (windowUsage db now q (toolId r))
  /\ (0 < windowUsage db now q (toolId r))%Z.
Proof.
  rewrite trendingData_fetched. intros H.
  apply list_elem_of_fmap in H as (g & -> & Hg).
  destruct (fetchedGroups_elem _ _ _ _ Hg) as [Hc Hpos].
  cbn [delivered usageCount toolId]. rewrite Hc. auto.
Qed.

Lemma trendingData_key_used db now q k :
  k ∈ (toolId <$> trendingData db now q) -> (0 < windowUsage db now q k)%Z.
Proof.
  intros Hk. apply list_elem_of_fmap in Hk as (r & -> & Hr).
  apply (trendingData_elem _ _ _ _ Hr).
Qed.

Lemma trendingData_NoDup db now q :
  NoDup (toolId <$> trendingData db now q).
Proof.
  rewrite trendingData_keys. unfold fetchedGroups. rewrite fmap_take.
  eapply sublist_NoDup; [|apply sublist_take].
  rewrite (sortBy_Permutation byUsageDesc).
  rewrite groupByToolId_keys. apply NoDup_remove_dups.
Qed.

Lemma trendingData_length db now q :
  length (trendingData db now q) <= 2 * limit q.
Proof.
  rewrite trendingData_fetched, length_fmap. unfold fetchedGroups.
  rewrite length_take. lia.
Qed.

(** The keys that are fetched are the most used ones: a used key that
    is left out is used no more than any key that is kept, and then
    the full [2 * limit] keys were kept. *)
Lemma trendingData_top db now q k :
  (0 < windowUsage db now q k)%Z ->
  k ∈ (toolId <$> trendingData db now q)
  \/ (length (trendingData db now q) = 2 * limit q
      /\ forall k', k' ∈ (toolId <$> trendingData db now q) ->
                    (windowUsage db now q k <= windowUsage db now q k')%Z).
Proof.
  intros Hpos. rewrite trendingData_keys, trendingData_fetched, length_fmap.
  assert (Hcount : forall g, g ∈ fetchedGroups db now q ->
             group_count g = windowUsage db now q (group_toolId g)).
  { intros g Hg. apply (fetchedGroups_elem _ _ _ _ Hg). }
  unfold fetchedGroups, windowUsage in *.
  set (logs := inWindow (Schema.toolUsageLogs db) (threshold now (period q))) in *.
  set (groups := groupByToolId logs) in *.
  destruct (take_sortBy_top byUsageDesc byUsageDesc_total byUsageDesc_trans
              (limit q * 2) groups) as (_ & Hperm & Htop & Hlen).
  assert (Hk : {| group_toolId := k; group_count := countFor logs k |} ∈ groups).
  { unfold groups, groupByToolId. apply list_elem_of_fmap.
    exists k. split; [reflexivity|]. apply elem_of_remove_dups.
    destruct (decide (k ∈ (Schema.log_toolId <$> logs))) as [Hin|Hout];
      [exact Hin|].
    rewrite (countFor_zero _ _ Hout) in Hpos. lia. }
  rewrite Hperm in Hk. apply elem_of_app in Hk as [Hk|Hk].
  - left. apply list_elem_of_fmap. eexists. split; [|exact Hk]. reflexivity.
  - right. split.
    + rewrite Hlen.
      assert (limit q * 2 < length groups); [|lia].
      destruct (decide (limit q * 2 < length groups)) as [?|Hge]; [assumption|].
      rewrite drop_ge in Hk by (rewrite sortBy_length; lia). inversion Hk.
    + intros k' Hk'. apply list_elem_of_fmap in Hk' as (g & -> & Hg).
      specialize (Htop g _ Hg Hk).
      unfold byUsageDesc in Htop. cbn [group_count] in Htop.
      apply Z.leb_le in Htop. rewrite <- (Hcount g Hg). exact Htop.
Qed.

Lemma trendingData_nonempty db now q :
  1 <= limit q ->
  inWindow (Schema.toolUsageLogs db) (threshold now (period q)) <> [] ->
  trendingData db now q <> [].
Proof.
  intros Hlim Hlogs Hnil. apply (f_equal length) in Hnil.
  rewrite trendingData_fetched, length_fmap in Hnil. unfold fetchedGroups in Hnil.
  rewrite length_take, sortBy_length in Hnil. cbn [length] in Hnil.
  assert (Hg : length (groupByToolId
                         (inWindow (Schema.toolUsageLogs db)
                                   (threshold now (period q)))) = 0) by lia.
  apply nil_length_inv in Hg.
  destruct (inWindow _ _) as [|e logs] eqn:E; [congruence|].
  assert (Hin : Schema.log_toolId e ∈ (group_toolId <$> groupByToolId (e :: logs))).
  { rewrite groupByToolId_keys. apply elem_of_remove_dups.
    rewrite fmap_cons. apply list_elem_of_here. }
  rewrite Hg in Hin. inversion Hin.
Qed.

Lemma trendingData_empty db now q :
  inWindow (Schema.toolUsageLogs db) (threshold now (period q)) = [] ->
  trendingData db now q = [].
Proof. unfold trendingData. intros ->. cbn. rewrite take_nil. reflexivity. Qed.

(** *** The usage map *)

Lemma usageMapOf_other (l : list UsageRow) (m : gmap string string) (k : string) :
  k ∉ (toolId <$> l) ->
  foldl (fun m r => <[toolId r := usageCount r]> m) m l !! k = m !! k.
Proof.
  revert m. induction l as [|a l IH]; intros m Hk; [reflexivity|].
  rewrite fmap_cons, not_elem_of_cons in Hk. destruct Hk as [Hne Hk].
  cbn [foldl]. rewrite IH by exact Hk.
  apply lookup_insert_ne. congruence.
Qed.

Lemma usageMapOf_lookup (l : list UsageRow) (r : UsageRow) :
  NoDup (toolId <$> l) -> r ∈ l ->
  usageMapOf l !! toolId r = Some (usageCount r).
Proof.
  unfold usageMapOf. generalize (∅ : gmap string string).
  induction l as [|a l IH]; intros m Hnd Hr; [inversion Hr|].
  rewrite fmap_cons in Hnd. apply NoDup_cons in Hnd as [Ha Hnd].
  cbn [foldl]. apply elem_of_cons in Hr as [->|Hr].
  - rewrite usageMapOf_other by exact Ha. apply lookup_insert_eq.
  - apply IH; assumption.
Qed.

Lemma usageMapOf_trendingData db now q (k : string) :
  k ∈ (toolId <$> trendingData db now q) ->
  usageMapOf (trendingData db now q) !! k
  = Some (pretty (windowUsage db now q k)).
Proof.
  intros Hk. apply list_elem_of_fmap in Hk as (r & -> & Hr).
  rewrite usageMapOf_lookup by (apply trendingData_NoDup || exact Hr).
  f_equal. apply trendingData_elem. exact Hr.
Qed.

(** *** The rows of the usage path *)

Lemma StronglySorted_impl {A : Type} (R1 R2 : A -> A -> Prop) (l : list A) :
  (forall x y, R1 x y -> R2 x y) ->
  StronglySorted R1 l -> StronglySorted R2 l.
Proof.
  intros Himpl. induction 1 as [|x l Hl IH Hx]; constructor.
  - exact IH.
  - eapply Forall_impl; [exact Hx|]. intros y. apply Himpl.
Qed.

Lemma tool_withUsage (um : gmap string string) (l : list Schema.Tool) :
  tool <$> (withUsage um <$> l) = l.
Proof.
  rewrite <- list_fmap_compose. apply list_fmap_id.
Qed.

Lemma usagePath_tools db now q :
  whereCategory (category q)
    (filter (fun t => Schema.id t ∈ (toolId <$> trendingData db now q))
            (Schema.tools db))
  = candidates db now q.
Proof.
  rewrite whereCategory_filter. unfold candidates.
  apply list_filter_filter.
Qed.

Lemma candidates_NoDup db now q :
  NoDup (Schema.id <$> Schema.tools db) ->
  NoDup (Schema.id <$> candidates db now q).
Proof.
  intros Hnd. eapply sublist_NoDup; [exact Hnd|].
  apply fmap_sublist. unfold candidates. apply sublist_filter.
Qed.

(** What the usage path computes from the keys it fetched: the rows
    are [limit] of the candidates, and each row carries the decimal
    text of the usage count of its tool, alone as [recentUsage] and
    followed by the text of the stored total score as
    [trendingScore]. *)
Lemma trendingTools_rows db now q :
  let rows := trendingTools db q (trendingData db now q) in
  exists rest : list TrendingTool,
    (tool <$> rows) ++ (tool <$> rest) ≡ₚ candidates db now q
    /\ (forall r, r ∈ rows ++ rest ->
          tool r ∈ candidates db now q
          /\ recentUsage r = JsString (pretty (windowUsage db now q (toolKey r)))
          /\ trendingScore r
             = JsString (pretty (windowUsage db now q (toolKey r))
                         +:+ pretty (Schema.totalScore (tool r))))
    /\ length rows = min (limit q) (length (candidates db now q)).
Proof.
  intros rows. unfold rows, trendingTools. rewrite usagePath_tools.
  set (um := usageMapOf (trendingData db now q)).
  set (L := withUsage um <$> candidates db now q).
  set (sorted := sortBy (byComparator cmpTrending) L).
  assert (Hperm : take (limit q) sorted ++ drop (limit q) sorted ≡ₚ L).
  { rewrite take_drop. apply sortBy_Permutation. }
  exists (drop (limit q) sorted).
  split; [|split].
  - rewrite <- fmap_app, Hperm. unfold L. rewrite tool_withUsage.
    reflexivity.
  - intros r Hr. rewrite Hperm in Hr. unfold L in Hr.
    apply list_elem_of_fmap in Hr as (t & -> & Ht).
    split; [exact Ht|].
    unfold candidates in Ht. apply list_elem_of_filter in Ht as [[_ Hk] _].
    unfold withUsage, toolKey. cbn [tool trendingScore recentUsage].
    unfold um. rewrite (usageMapOf_trendingData _ _ _ _ Hk).
    cbn [fmap option_fmap option_map]. rewrite js_or_text, js_or_number.
    split; reflexivity.
  - rewrite length_take. unfold sorted. rewrite sortBy_length. unfold L.
    rewrite length_fmap. reflexivity.
Qed.

(** *** The two paths of the handler *)

(** C7: when no usage event lies inside the lookback window (the last
    day, seven days or thirty days before the query), the ranker
    answers with success, never with an error; the rows are the first
    [limit] of the tools that match the category (all tools when none
    is given), in the order of stored [totalScore] descending, then
    [downloadCount] descending: they are sorted, the tools left out
    rank no higher than any row, and there are [min limit n] rows for
    [n] matching tools.  Each row has [recentUsage = 0] and
    [trendingScore] equal to the stored [totalScore]. *)
Theorem trending_fallback (db : Schema.Db) (now : Z) (q : TrendingQuery) :
  Forall (fun e => ~ inLookback now (period q) e) (Schema.toolUsageLogs db) ->
  let matching := filter (categoryMatches (category q)) (Schema.tools db) in
  exists (rows : list TrendingTool) (rest : list Schema.Tool),
    GET db now q = Success 200 rows
    /\ (forall r, r ∈ rows ->
          recentUsage r = JsNumber 0
          /\ trendingScore r = JsNumber (Schema.totalScore (tool r)))
    /\ StronglySorted rankedByScore (tool <$> rows)
    /\ matching ≡ₚ (tool <$> rows) ++ rest
    /\ (forall x y, x ∈ (tool <$> rows) -> y ∈ rest -> rankedByScore x y)
    /\ length rows = min (limit q) (length matching).
Proof.
  intros Hquiet matching.
  set (mk := fun t => {| tool := t;
                         trendingScore :=
                           js_or (Some (JsNumber (Schema.totalScore t)))
                                 (JsNumber 0);
                         recentUsage := JsNumber 0 |}).
  assert (Htool : forall l : list Schema.Tool, tool <$> (mk <$> l) = l).
  { intros l. rewrite <- list_fmap_compose. apply list_fmap_id. }
  destruct (take_sortBy_top byScoreThenDownloadsDesc
              byScoreThenDownloadsDesc_total byScoreThenDownloadsDesc_trans
              (limit q) matching) as (Hsorted & Hperm & Htop & Hlen).
  exists (mk <$> fallbackTools db q),
         (drop (limit q) (sortBy byScoreThenDownloadsDesc matching)).
  unfold GET. rewrite (trendingData_empty _ _ _ (inWindow_nil _ _ _ Hquiet)).
  fold mk. rewrite Htool. unfold fallbackTools. rewrite whereCategory_filter.
  fold matching.
  split; [reflexivity|]. split; [|split; [|split; [|split]]].
  - intros r Hr. apply list_elem_of_fmap in Hr as (t & -> & _).
    unfold mk. cbn [recentUsage trendingScore tool].
    rewrite js_or_number. split; reflexivity.
  - eapply StronglySorted_impl; [|exact Hsorted].
    intros x y. apply byScoreThenDownloadsDesc_spec.
  - exact Hperm.
  - intros x y Hx Hy. apply byScoreThenDownloadsDesc_spec.
    exact (Htop x y Hx Hy).
  - rewrite length_fmap. exact Hlen.
Qed.

(** C9, as the code has it: with a category given, the ranker fetches
    at most [2 * limit] keys, the most used ones of the window, before
    it applies the category filter, and returns tools of the category
    among these keys only: [limit] of them, or all when there are
    fewer, none twice.  With [limit = 1] the answer is empty exactly
    when no fetched key belongs to a tool of the category.  Which of
    the tools of the category come first is left open here. *)
Theorem category_filter_within_fetched_keys (db : Schema.Db) (now : Z)
    (q : TrendingQuery) (c : string) :
  category q = Some c -> c <> "" ->
  1 <= limit q ->
  Exists (inLookback now (period q)) (Schema.toolUsageLogs db) ->
  exists (keys : list string) (rows : list TrendingTool),
    GET db now q = Success 200 rows
    /\ NoDup keys
    /\ length keys <= 2 * limit q
    /\ (forall k, k ∈ keys -> (0 < usageOf db now (period q) k)%Z)
    /\ (forall k, (0 < usageOf db now (period q) k)%Z ->
          k ∈ keys
          \/ (length keys = 2 * limit q
              /\ forall k', k' ∈ keys ->
                   (usageOf db now (period q) k
                    <= usageOf db now (period q) k')%Z))
    /\ (forall r, r ∈ rows ->
          tool r ∈ Schema.tools db
          /\ Schema.category (tool r) = c /\ toolKey r ∈ keys)
    /\ length rows
       = min (limit q)
             (length (filter (fun t => Schema.category t = c
                                       /\ Schema.id t ∈ keys)
                             (Schema.tools db)))
    /\ (NoDup (Schema.id <$> Schema.tools db) -> NoDup (toolKey <$> rows))
    /\ (limit q = 1 ->
        (rows = [] <->
         forall t, t ∈ Schema.tools db -> Schema.id t ∈ keys ->
                   Schema.category t <> c)).
Proof.
  intros Hcat Hc Hlim Hused.
  destruct (trendingTools_rows db now q) as (rest & Hperm & Helem & Hlen).
  set (rows := trendingTools db q (trendingData db now q)) in *.
  set (keys := toolId <$> trendingData db now q).
  assert (Hmatch : forall t, categoryMatches (category q) t
                             <-> Schema.category t = c).
  { intros t. rewrite Hcat. cbn [categoryMatches]. tauto. }
  assert (Hcands : candidates db now q
                   = filter (fun t => Schema.category t = c /\ Schema.id t ∈ keys)
                            (Schema.tools db)).
  { unfold candidates. apply list_filter_iff. intros t. fold keys.
    rewrite Hmatch. reflexivity. }
  exists keys, rows. split.
  { unfold GET.
    pose proof (trendingData_nonempty db now q Hlim
                  (inWindow_not_nil _ _ _ Hused)) as Hne.
    fold rows. destruct (trendingData db now q); [congruence|reflexivity]. }
  split; [apply trendingData_NoDup|].
  split; [unfold keys; rewrite length_fmap; apply trendingData_length|].
  split.
  { intros k Hk. rewrite usageOf_windowUsage.
    apply trendingData_key_used. exact Hk. }
  split.
  { intros k Hk. rewrite usageOf_windowUsage in Hk.
    destruct (trendingData_top db now q k Hk) as [Hin|[Hfull Htop]];
      [left; exact Hin|right].
    split; [unfold keys; rewrite length_fmap; exact Hfull|].
    intros k' Hk'. rewrite !usageOf_windowUsage. apply Htop. exact Hk'. }
  split.
  { intros r Hr.
    destruct (Helem r) as (Hcand & _); [apply elem_of_app; left; exact Hr|].
    rewrite Hcands in Hcand. apply list_elem_of_filter in Hcand.
    unfold toolKey. tauto. }
  split; [rewrite Hlen, Hcands; reflexivity|].
  split.
  { intros Hnd. pose proof (candidates_NoDup db now q Hnd) as Hcn.
    rewrite <- Hperm, fmap_app in Hcn. apply NoDup_app in Hcn as [Hcn _].
    unfold toolKey. rewrite (list_fmap_compose tool Schema.id). exact Hcn. }
  intros Hone. rewrite Hone, Hcands in Hlen. split.
  - intros Hnil t Ht Hk Hct. rewrite Hnil in Hlen. cbn [length] in Hlen.
    assert (Hin : t ∈ filter (fun t => Schema.category t = c /\ Schema.id t ∈ keys)
                             (Schema.tools db))
      by (apply list_elem_of_filter; auto).
    destruct (filter _ (Schema.tools db)); [inversion Hin|].
    cbn [length] in Hlen. lia.
  - intros Hnone. apply nil_length_inv. rewrite Hlen.
    replace (filter (fun t => Schema.category t = c /\ Schema.id t ∈ keys)
                    (Schema.tools db)) with (@nil Schema.Tool); [reflexivity|].
    symmetry. apply elem_of_nil_inv. intros t Ht.
    apply list_elem_of_filter in Ht as [[Hct Hk] Ht].
    exact (Hnone t Ht Hk Hct).
Qed.

(** *** The handler on the sample tables *)

(** C8 on the table with usage counts 5 and 1 and stored scores 10 and
    50: the specification adds them, to 15 and 51, and ranks the second
    tool first; the handler joins the text of the count and the score,
    to 510 and 150, and ranks the first tool first. *)
Example usage_and_score_are_joined :
  summary (GET Samples.blendDb 2000 Samples.topTwoOfDay)
  = [("A", JsString "510", JsString "5"); ("B", JsString "150", JsString "1")]
  /\ blend Samples.blendDb 2000 Samples.topTwoOfDay
       <$> Schema.tools Samples.blendDb
     = [15%Z; 51%Z].
Proof. split; vm_compute; reflexivity. Qed.

Example fallback_ranking :
  summary (GET Samples.quietDb Samples.dayMs Samples.topTwoOfDay)
  = [("C", JsNumber 90, JsNumber 0); ("B", JsNumber 20, JsNumber 0)].
Proof. vm_compute. reflexivity. Qed.

Example crowded_out :
  GET Samples.crowdedDb 2000 (Samples.bestOf "defi") = Success 200 [].
Proof. vm_compute. reflexivity. Qed.

Example best_of_nft :
  summary (GET Samples.crowdedDb 2000 (Samples.bestOf "nft"))
  = [("A", JsString "510", JsString "5")].
Proof. vm_compute. reflexivity. Qed.

(** C7 on a table whose only usage event is older than a day. *)
Lemma trending_fallback_witness :
  exists rows : list TrendingTool,
    GET Samples.quietDb Samples.dayMs Samples.topTwoOfDay = Success 200 rows
    /\ length rows = 2
    /\ forall r, r ∈ rows ->
         recentUsage r = JsNumber 0
         /\ trendingScore r = JsNumber (Schema.totalScore (tool r)).
Proof.
  destruct (trending_fallback Samples.quietDb Samples.dayMs
              Samples.topTwoOfDay)
    as (rows & rest & Hget & Hrow & _ & _ & _ & Hlen).
  - constructor; [|constructor]. intros H. vm_compute in H.
    apply H. reflexivity.
  - exists rows. split; [exact Hget|]. split; [exact Hlen|exact Hrow].
Defined.

Lemma crowdedDb_keys : NoDup (Schema.id <$> Schema.tools Samples.crowdedDb).
Proof. compute_done. Defined.

(** C9 as the specification states it fails: on the sample table the
    two most used keys are of category nft, so a query for the best
    tool of category defi comes back empty although a tool of that
    category was used in the window. *)
Lemma limit_one_category_crowded_out : ~ limitOneReturnsBestOfCategory.
Proof.
  intros Hclaim.
  destruct (Hclaim Samples.crowdedDb 2000%Z (Samples.bestOf "defi")
              (Samples.sampleTool "C" "defi" 90 0)) as (r & Hget & _).
  - exact crowdedDb_keys.
  - reflexivity.
  - reflexivity.
  - discriminate.
  - cbn. set_solver.
  - vm_compute. reflexivity.
  - intros t' Hin Hcat _. cbn in Hin.
    repeat (apply elem_of_cons in Hin as [->|Hin]);
      try discriminate Hcat; [right; reflexivity|inversion Hin].
  - rewrite crowded_out in Hget. discriminate Hget.
Qed.

(** C9 as the code has it, on the sample table: of category nft one of
    the two fetched keys comes back. *)
Lemma category_filter_witness :
  exists r : TrendingTool,
    GET Samples.crowdedDb 2000 (Samples.bestOf "nft") = Success 200 [r]
    /\ Schema.category (tool r) = "nft".
Proof.
  destruct (category_filter_within_fetched_keys Samples.crowdedDb 2000
              (Samples.bestOf "nft") "nft")
    as (keys & rows & Hget & _ & _ & _ & _ & Hrows & Hlen & _ & _).
  - reflexivity.
  - discriminate.
  - cbn. lia.
  - apply Exists_cons_hd. vm_compute. discriminate.
  - destruct rows as [|r [|r' rows]].
    + exfalso. pose proof best_of_nft as E. rewrite Hget in E.
      discriminate E.
    + exists r. split; [exact Hget|].
      apply (Hrows r). apply list_elem_of_here.
    + exfalso. pose proof best_of_nft as E. rewrite Hget in E.
      discriminate E.
Defined.

End TrendingFacts.

(** ** More on the trust score *)

Module ScoreMoreFacts.
Import CalculateScore ScoreSpec ScoreMoreSpec ScoreFacts.

(** X2: when no item is marked required, [calculateScore] grades [f]
    whatever is checked and whatever the weights are; in particular an
    empty set of items is graded [f]. *)
Theorem no_required_item_grades_f (items : list (string * ScoreItem))
    (weights : gmap string Z) :
  noneRequired items ->
  grade (calculateScore items weights) = grade_f.
Proof.
  intros Hnone. pose proof (grade_by_scores items weights) as Hg.
  cbv zeta in Hg. rewrite Hg. clear Hg.
  replace (maxRequiredScore (calculateScore items weights)) with 0%Z;
    [reflexivity|].
  unfold calculateScore. cbn [maxRequiredScore]. rewrite tally_sums.
  cbn [t_maxRequiredScore].
  induction Hnone as [|[k it] rest Hit _ IH]; [reflexivity|].
  cbn [sumWeights]. unfold isRequired at 1. cbn [snd] in Hit.
  rewrite Hit, <- IH. reflexivity.
Qed.

Lemma no_required_item_witness :
  grade (calculateScore
           [("license", item true None); ("prompts", item true (Some false))]
           DEFAULT_WEIGHTS) = grade_f.
Proof.
  apply no_required_item_grades_f. repeat constructor.
Defined.

(** X4: with the fixed weights the grade of [calculateToolScore] is
    [f] exactly when one of the four required flags is not given as
    true: the four required weights alone reach 60 percent, so the
    branch for less than 60 percent is never taken.  With all four
    required flags the grade is [a] from a [totalScore] of 80 on and
    [b] below. *)
Theorem tool_grade_characterisation (tool : ToolData) :
  let r := calculateToolScore tool in
  (grade r = grade_f <-> ~ allRequiredGiven tool)
  /\ (grade r = grade_a <-> allRequiredGiven tool /\ (80 <= totalScore r)%Z)
  /\ (grade r = grade_b <-> allRequiredGiven tool /\ (totalScore r < 80)%Z).
Proof.
  intros r. destruct (grade_by_flags tool) as (Hf & Ha & Hb).
  fold r in Hf, Ha, Hb.
  rewrite not_allRequired_given in Hf. rewrite allRequired_given in Ha, Hb.
  auto.
Qed.

(** X5: the [totalScore] of [calculateToolScore] lies between 0 and
    100 and the [percentage] is the same number; the
    [requiredPercentage] is 100 exactly when all four required flags
    are given as true. *)
Theorem tool_percentage_is_totalScore (tool : ToolData) :
  let r := calculateToolScore tool in
  (0 <= totalScore r <= 100)%Z
  /\ percentage r = totalScore r
  /\ (requiredPercentage r = 100%Z <-> allRequiredGiven tool).
Proof.
  intros r. rewrite <- allRequired_given.
  unfold r. rewrite calculateToolScore_closed.
  cbn [totalScore percentage requiredPercentage].
  split; [|split; [reflexivity|]].
  - unfold weightSum, w.
    destruct (calculateScoreFlags tool) as [c m d l p re s t v].
    cbn. destruct c, m, d, l, p, re, s, t, v; lia.
  - unfold requiredWeightSum, allRequired, w.
    destruct (calculateScoreFlags tool) as [c m d l p re s t v].
    cbn. destruct re, t, v, d; vm_compute; split; congruence.
Qed.

Lemma breakdownEntry_weight (entry : string * ScoreItem) :
  ScoreDisplay.item_weight (ScoreDisplay.breakdownEntry entry)
  = weightOf DEFAULT_WEIGHTS (fst entry).
Proof. destruct entry as [k it]. reflexivity. Qed.

Lemma breakdownWeight_sumWeights (sel : ScoreItem -> bool)
    (sel' : ScoreDisplay.ScoreListItem -> bool) (items : list (string * ScoreItem)) :
  (forall e, sel' (ScoreDisplay.breakdownEntry e) = sel (snd e)) ->
  breakdownWeight sel' (ScoreDisplay.breakdownEntry <$> items)
  = sumWeights sel DEFAULT_WEIGHTS items.
Proof.
  intros Hsel. induction items as [|[k it] rest IH]; [reflexivity|].
  rewrite fmap_cons. cbn [breakdownWeight foldr sumWeights].
  fold (breakdownWeight sel' (ScoreDisplay.breakdownEntry <$> rest)).
  rewrite IH, (Hsel (k, it)). reflexivity.
Qed.

(** X6: the breakdown [createScoreBreakdown] shows adds up to the score
    [calculateToolScore] returns: it lists the nine keys of
    [createScoreItems] in their order, the weights of its checked
    entries sum to [totalScore], the weights of all entries to
    [maxScore] and those of the required entries to [maxRequiredScore];
    no entry falls back to its key as title or to an empty
    description. *)
Theorem breakdown_adds_up_to_score (tool : ToolData) :
  let fl := calculateScoreFlags tool in
  let rows := ScoreDisplay.createScoreBreakdown fl in
  let r := calculateToolScore tool in
  ScoreDisplay.key <$> rows = fst <$> createScoreItems fl
  /\ breakdownWeight ScoreDisplay.item_check rows = totalScore r
  /\ breakdownWeight (fun _ => true) rows = maxScore r
  /\ breakdownWeight (fun e => Boolean (ScoreDisplay.item_required e)) rows
     = maxRequiredScore r
  /\ Forall (fun e => ScoreDisplay.title e <> ScoreDisplay.key e
                      /\ ScoreDisplay.desc e <> "") rows.
Proof.
  intros fl rows r. unfold rows, r, ScoreDisplay.createScoreBreakdown,
    calculateToolScore, calculateScore. fold fl.
  cbn [totalScore maxScore maxRequiredScore]. rewrite tally_sums.
  cbn [t_totalScore t_maxScore t_maxRequiredScore].
  split; [|split; [|split; [|split]]].
  - rewrite <- list_fmap_compose. apply list_fmap_ext.
    intros _ [k it] _. reflexivity.
  - apply breakdownWeight_sumWeights. intros [k it]. reflexivity.
  - apply breakdownWeight_sumWeights. intros [k it]. reflexivity.
  - apply breakdownWeight_sumWeights. intros [k it]. reflexivity.
  - unfold createScoreItems. rewrite !fmap_cons.
    repeat (constructor; [split; vm_compute; discriminate|]). constructor.
Qed.

(** X7: a grade [calculateScore] returns is never displayed with the
    fallback label or colour, and two different grades are displayed
    with different labels and different colours; a string that is not
    one of the three grades gets the fallbacks. *)
Theorem grade_display (g1 g2 : Grade) (other : string) :
  ScoreDisplay.getGradeLabel (ScoreDisplay.gradeName g1) <> "Unknown"
  /\ ScoreDisplay.getGradeColor (ScoreDisplay.gradeName g1) <> "#8c8c8c"
  /\ (ScoreDisplay.getGradeLabel (ScoreDisplay.gradeName g1)
      = ScoreDisplay.getGradeLabel (ScoreDisplay.gradeName g2) -> g1 = g2)
  /\ (ScoreDisplay.getGradeColor (ScoreDisplay.gradeName g1)
      = ScoreDisplay.getGradeColor (ScoreDisplay.gradeName g2) -> g1 = g2)
  /\ ((forall g, other <> ScoreDisplay.gradeName g) ->
      ScoreDisplay.getGradeLabel other = "Unknown"
      /\ ScoreDisplay.getGradeColor other = "#8c8c8c").
Proof.
  split; [destruct g1; vm_compute; discriminate|].
  split; [destruct g1; vm_compute; discriminate|].
  split; [destruct g1, g2; vm_compute; congruence|].
  split; [destruct g1, g2; vm_compute; congruence|].
  intros Hother.
  pose proof (Hother grade_a) as Ha. pose proof (Hother grade_b) as Hb.
  pose proof (Hother grade_f) as Hf. cbn [ScoreDisplay.gradeName] in *.
  unfold ScoreDisplay.getGradeLabel, ScoreDisplay.getGradeColor.
  rewrite !decide_False by assumption. split; reflexivity.
Qed.

End ScoreMoreFacts.

(** ** The handlers on the whole database *)

Module RegistryFacts.
Import Registry RegistrySpec ToolsRoute.

Lemma head_filter_None {A : Type} (P : A -> Prop)
    {Pdec : forall x, Decision (P x)} (l : list A) :
  head (filter P l) = None <-> forall x, x ∈ l -> ~ P x.
Proof.
  split.
  - intros Hnone x Hx HP.
    assert (Hin : x ∈ filter P l) by (apply list_elem_of_filter; auto).
    destruct (filter P l); [inversion Hin|discriminate].
  - intros Hall. destruct (filter P l) as [|y k] eqn:E; [reflexivity|].
    assert (Hy : y ∈ filter P l) by (rewrite E; apply list_elem_of_here).
    apply list_elem_of_filter in Hy as [HP Hy]. destruct (Hall y Hy HP).
Qed.

Lemma head_filter_Some {A : Type} (P : A -> Prop)
    {Pdec : forall x, Decision (P x)} (l : list A) (x : A) :
  head (filter P l) = Some x -> P x /\ x ∈ l.
Proof.
  intros Hsome.
  assert (Hx : x ∈ filter P l).
  { destruct (filter P l); [discriminate|]. injection Hsome as ->.
    apply list_elem_of_here. }
  apply list_elem_of_filter in Hx. exact Hx.
Qed.

(** *** What POST and PATCH on the tools table return *)

Lemma POST_cases rows toolData newId now :
  (ToolsFacts.nameFree rows toolData
   /\ POST rows toolData newId now
      = (Success 201 (insertValues toolData newId now),
         rows ++ [insertValues toolData newId now]))
  \/ (~ ToolsFacts.nameFree rows toolData
      /\ POST rows toolData newId now = (Failure 409 "Tool already exists", rows)).
Proof.
  unfold ToolsFacts.nameFree, POST.
  destruct (head (filter _ rows)); [right|left]; split; congruence.
Qed.

Lemma updateById_ids rows id set :
  (forall t, Schema.id (set t) = Schema.id t) ->
  Schema.id <$> updateById rows id set = Schema.id <$> rows.
Proof.
  intros Hid. unfold updateById. rewrite <- list_fmap_compose.
  apply list_fmap_ext. intros _ t _. cbn.
  destruct (decide (Schema.id t = id)); [apply Hid|reflexivity].
Qed.

Lemma nameTakenByOther_false rows id n :
  nameTakenByOther rows id n = false ->
  forall t, t ∈ rows -> Schema.id t <> id -> Schema.name t <> n.
Proof.
  unfold nameTakenByOther. intros H t Ht Hid Hname.
  apply bool_decide_eq_false in H. apply H.
  apply Exists_exists. exists t. auto.
Qed.

(** The names stay distinct when one row takes a name no other row
    has. *)
Lemma updateById_names rows id set :
  NoDup (Schema.id <$> rows) ->
  NoDup (Schema.name <$> rows) ->
  (forall t, t ∈ rows -> Schema.id t = id ->
     forall t', t' ∈ rows -> Schema.id t' <> id ->
       Schema.name t' <> Schema.name (set t)) ->
  NoDup (Schema.name <$> updateById rows id set).
Proof.
  unfold updateById. induction rows as [|t rows IH]; intros Hids Hnames Hset.
  - constructor.
  - rewrite !fmap_cons in *.
    apply NoDup_cons in Hids as [Hid Hids].
    apply NoDup_cons in Hnames as [Hname Hnames].
    constructor.
    + rewrite <- list_fmap_compose. intros Hin.
      apply list_elem_of_fmap in Hin as (t' & E & Ht'). cbn in E.
      destruct (decide (Schema.id t = id)) as [Et|Et];
        destruct (decide (Schema.id t' = id)) as [Et'|Et'].
      * apply Hid. apply list_elem_of_fmap. exists t'. split; [congruence|exact Ht'].
      * apply (Hset t (list_elem_of_here _ _) Et t'
                 (list_elem_of_further _ _ _ Ht') Et'). congruence.
      * apply (Hset t' (list_elem_of_further _ _ _ Ht') Et' t
                 (list_elem_of_here _ _) Et). congruence.
      * apply Hname. apply list_elem_of_fmap. exists t'. split; [exact E|exact Ht'].
    + apply IH; try assumption.
      intros x Hx Ex x' Hx' Ex'.
      apply (Hset x (list_elem_of_further _ _ _ Hx) Ex x'
               (list_elem_of_further _ _ _ Hx') Ex').
Qed.

Lemma updateToolCount_id cats s f :
  cat_id <$> updateToolCount cats s f = cat_id <$> cats.
Proof.
  unfold updateToolCount. rewrite <- list_fmap_compose.
  apply list_fmap_ext. intros _ c _. cbn. destruct (decide _); reflexivity.
Qed.

Lemma updateToolCount_slug cats s f :
  cat_slug <$> updateToolCount cats s f = cat_slug <$> cats.
Proof.
  unfold updateToolCount. rewrite <- list_fmap_compose.
  apply list_fmap_ext. intros _ c _. cbn. destruct (decide _); reflexivity.
Qed.

Lemma updateToolCount_name cats s f :
  cat_name <$> updateToolCount cats s f = cat_name <$> cats.
Proof.
  unfold updateToolCount. rewrite <- list_fmap_compose.
  apply list_fmap_ext. intros _ c _. cbn. destruct (decide _); reflexivity.
Qed.

(** *** The answers of the handlers, case by case *)

Lemma createTool_cases st toolData newId now :
  (ToolsFacts.nameFree (tools st) toolData
   /\ createTool st toolData newId now
      = (Success 201 (insertValues toolData newId now),
         {| db := {| Schema.tools :=
                       tools st ++ [insertValues toolData newId now];
                     Schema.toolUsageLogs := logs st |};
            categories :=
              updateToolCount (categories st) (c_category toolData) increment |}))
  \/ (~ ToolsFacts.nameFree (tools st) toolData
      /\ createTool st toolData newId now
         = (Failure 409 "Tool already exists", st)).
Proof.
  unfold createTool.
  destruct (POST_cases (tools st) toolData newId now) as [[Hfree E]|[Hnot E]];
    rewrite E; [left|right]; split; auto.
Qed.

Lemma nameNotTaken_false rows id updateData n :
  ScoreSpec.nameNotTaken rows id updateData ->
  u_name updateData = Some n ->
  nameTakenByOther rows id n = false.
Proof.
  intros H Hn. apply ToolsFacts.nameNotTaken_check in H.
  rewrite Hn in H. exact H.
Qed.

Lemma patchTool_cases st id updateData now :
  (selectById (tools st) id = None
   /\ patchTool st id updateData now = (Failure 404 "Tool not found", st))
  \/ (exists existing n,
        selectById (tools st) id = Some existing
        /\ u_name updateData = Some n
        /\ nameTakenByOther (tools st) id n = true
        /\ patchTool st id updateData now
           = (Failure 500 "Internal server error", st))
  \/ (exists existing,
        selectById (tools st) id = Some existing
        /\ (forall n, u_name updateData = Some n ->
              nameTakenByOther (tools st) id n = false)
        /\ patchTool st id updateData now
           = (Success 200
                (Some (setRow updateData (scoreUpdateOf updateData existing)
                              now existing)),
              {| db := {| Schema.tools :=
                            updateById (tools st) id
                              (setRow updateData
                                 (scoreUpdateOf updateData existing) now);
                          Schema.toolUsageLogs := logs st |};
                 categories := categories st |})).
Proof.
  unfold patchTool.
  destruct (ToolsFacts.PATCH_cases (tools st) id updateData now)
    as [[Hsel E]|[(existing & Hsel & Hnot & E)|(existing & Hsel & Hok & E)]];
    rewrite E.
  - left. auto.
  - right. left. exists existing.
    destruct (u_name updateData) as [n|] eqn:Hn.
    + exists n. split; [exact Hsel|]. split; [reflexivity|]. split; [|reflexivity].
      destruct (nameTakenByOther (tools st) id n) eqn:Ht; [reflexivity|].
      exfalso. apply Hnot. apply ToolsFacts.nameNotTaken_check.
      rewrite Hn. exact Ht.
    + exfalso. apply Hnot. apply ToolsFacts.nameNotTaken_check.
      rewrite Hn. reflexivity.
  - right. right. exists existing. split; [exact Hsel|].
    split; [|reflexivity].
    intros n Hn. exact (nameNotTaken_false _ _ _ _ Hok Hn).
Qed.

Lemma createCategory_cases st categoryData newId now :
  let newCategory :=
    {| cat_id := newId;
       cat_name := cc_name categoryData;
       cat_slug := cc_slug categoryData;
       cat_description := cc_description categoryData;
       cat_icon := cc_icon categoryData;
       toolCount := Some 0%Z;
       cat_createdAt := now |} in
  (cc_slug categoryData ∈ (cat_slug <$> categories st)
   /\ createCategory st categoryData newId now
      = (Failure 409 "Category already exists", st))
  \/ ((cc_slug categoryData ∉ (cat_slug <$> categories st))
      /\ cc_name categoryData ∈ (cat_name <$> categories st)
      /\ createCategory st categoryData newId now
         = (Failure 500 "Internal server error", st))
  \/ ((cc_slug categoryData ∉ (cat_slug <$> categories st))
      /\ (cc_name categoryData ∉ (cat_name <$> categories st))
      /\ createCategory st categoryData newId now
         = (Success 201 newCategory,
            {| db := db st; categories := categories st ++ [newCategory] |})).
Proof.
  intros newCategory. unfold createCategory.
  destruct (head (filter _ (categories st))) as [c|] eqn:Hhead.
  - left. split; [|reflexivity].
    apply head_filter_Some in Hhead as [<- Hc].
    apply list_elem_of_fmap. eauto.
  - right.
    assert (Hslug : cc_slug categoryData ∉ (cat_slug <$> categories st)).
    { intros Hin. apply list_elem_of_fmap in Hin as (c & E & Hc).
      rewrite head_filter_None in Hhead. apply (Hhead c Hc). congruence. }
    destruct (bool_decide (cc_name categoryData ∈ (cat_name <$> categories st)))
      eqn:Hname.
    + left. apply bool_decide_eq_true in Hname. auto.
    + right. apply bool_decide_eq_false in Hname. auto.
Qed.

(** *** Invariants *)

Lemma NoDup_snoc {A : Type} (l : list A) (x : A) :
  NoDup l -> x ∉ l -> NoDup (l ++ [x]).
Proof.
  intros Hl Hx. apply NoDup_app. split; [exact Hl|]. split.
  - intros y Hy Hin. apply list_elem_of_singleton in Hin. congruence.
  - apply NoDup_singleton.
Qed.

Lemma NoDup_fmap_filter {A K : Type} (f : A -> K) (P : A -> Prop)
    {Pdec : forall x, Decision (P x)} (l : list A) :
  NoDup (f <$> l) -> NoDup (f <$> filter P l).
Proof.
  intros Hnd. eapply sublist_NoDup; [exact Hnd|].
  apply fmap_sublist, sublist_filter.
Qed.

(** One request keeps the keys unique and the usage events attached to
    tools. *)
Lemma handle_keeps_keys_and_references (st : State) (now : Z) (req : Request) :
  keysUnique st -> logsReferToTools st -> fresh st req ->
  keysUnique (snd (handle st now req))
  /\ logsReferToTools (snd (handle st now req)).
Proof.
  intros (Hids & Hnames & Hcids & Hslugs & Hcnames) Hlogs Hfresh.
  unfold keysUnique, logsReferToTools in *.
  destruct req as [toolData newId|id|id updateData|id|categoryData newId];
    cbn [handle fresh] in *.
  - destruct (createTool_cases st toolData newId now) as [[Hfree E]|[_ E]];
      rewrite E; cbn [snd]; [|auto 6].
    unfold tools, logs. cbn [db categories Schema.tools Schema.toolUsageLogs].
    fold (tools st) (logs st).
    rewrite updateToolCount_id, updateToolCount_slug, updateToolCount_name.
    rewrite !fmap_app. cbn [fmap list_fmap].
    split; [split; [|split; [|auto]]|].
    + apply NoDup_snoc; assumption.
    + apply NoDup_snoc; [assumption|].
      unfold ToolsFacts.nameFree in Hfree. rewrite head_filter_None in Hfree.
      intros Hin. apply list_elem_of_fmap in Hin as (t & Et & Ht).
      apply (Hfree t Ht). unfold insertValues in Et. cbn in Et. congruence.
    + eapply Forall_impl; [exact Hlogs|]. intros e He.
      apply elem_of_app. left. exact He.
  - unfold viewTool.
    destruct (selectById (tools st) id) as [tool|] eqn:Hsel; cbn [snd]; [|auto 6].
    unfold tools, logs. cbn [db categories Schema.tools Schema.toolUsageLogs].
    fold (tools st) (logs st).
    split; [auto 6|]. apply Forall_app. split; [exact Hlogs|].
    constructor; [|constructor]. cbn [Schema.log_toolId].
    apply ToolsFacts.selectById_id in Hsel as [<- Hin].
    apply list_elem_of_fmap. eauto.
  - destruct (patchTool_cases st id updateData now)
      as [[_ E]|[(existing & n & _ & _ & _ & E)|(existing & Hsel & Hname & E)]];
      rewrite E; cbn [snd]; [auto 6|auto 6|].
    unfold tools, logs. cbn [db categories Schema.tools Schema.toolUsageLogs].
    fold (tools st) (logs st).
    rewrite updateById_ids by reflexivity.
    split; [split; [assumption|split; [|auto]]|assumption].
    apply updateById_names; try assumption.
    intros t Ht Et t' Ht' Et'. cbn [setRow Schema.name].
    destruct (u_name updateData) as [n|] eqn:Hn; cbn [nullish].
    + apply (nameTakenByOther_false _ _ _ (Hname n eq_refl) t' Ht' Et').
    + intros Heq. apply Et'. rewrite <- Et. f_equal.
      apply (NoDup_fmap_key Schema.name (tools st)); assumption.
  - unfold deleteTool.
    destruct (selectById (tools st) id) as [existing|] eqn:Hsel; cbn [snd];
      [|auto 6].
    unfold tools, logs. cbn [db categories Schema.tools Schema.toolUsageLogs].
    fold (tools st) (logs st).
    rewrite updateToolCount_id, updateToolCount_slug, updateToolCount_name.
    split; [split; [|split; [|auto]]|].
    + apply NoDup_fmap_filter. exact Hids.
    + apply NoDup_fmap_filter. exact Hnames.
    + apply Forall_forall. intros e He.
      apply list_elem_of_filter in He as [Hne He].
      pose proof (proj1 (Forall_forall _ _) Hlogs e He) as Hin.
      apply list_elem_of_fmap in Hin as (t & Et & Ht).
      apply list_elem_of_fmap. exists t. split; [exact Et|].
      apply list_elem_of_filter. split; [congruence|exact Ht].
  - destruct (createCategory_cases st categoryData newId now)
      as [[_ E]|[(_ & _ & E)|(Hslug & Hname & E)]];
      rewrite E; cbn [snd]; [auto 6|auto 6|].
    unfold tools, logs. cbn [db categories]. fold (tools st) (logs st).
    rewrite !fmap_app. cbn [fmap list_fmap cat_id cat_slug cat_name].
    split; [|assumption].
    split; [assumption|]. split; [assumption|].
    split; [apply NoDup_snoc; assumption|].
    split; apply NoDup_snoc; assumption.
Qed.

(** One request keeps the stored scores equal to the score of the
    flags. *)
Lemma handle_keeps_scores_consistent (st : State) (now : Z) (req : Request) :
  NoDup (Schema.id <$> tools st) ->
  scoresConsistent st ->
  scoresConsistent (snd (handle st now req)).
Proof.
  intros Hids Hscores. unfold scoresConsistent in *.
  destruct req as [toolData newId|id|id updateData|id|categoryData newId];
    cbn [handle].
  - destruct (createTool_cases st toolData newId now) as [[_ E]|[_ E]];
      rewrite E; cbn [snd]; [|assumption].
    unfold tools. cbn [db Schema.tools]. fold (tools st).
    apply Forall_app. split; [assumption|].
    constructor; [apply ToolsFacts.insertValues_consistent|constructor].
  - unfold viewTool. destruct (selectById (tools st) id); assumption.
  - destruct (patchTool_cases st id updateData now)
      as [[_ E]|[(existing & n & _ & _ & _ & E)|(existing & Hsel & Hname & E)]];
      rewrite E; cbn [snd]; [assumption|assumption|].
    unfold tools. cbn [db Schema.tools]. fold (tools st).
    pose proof (ToolsFacts.patch_preserves_consistency (tools st) id updateData
                  now Hids Hscores) as Hp.
    destruct (ToolsFacts.PATCH_cases (tools st) id updateData now)
      as [[Hnone _]|[(e & _ & Hnot & _)|(e & He & _ & HP)]].
    + congruence.
    + exfalso. apply Hnot. apply ToolsFacts.nameNotTaken_check.
      destruct (u_name updateData) as [n|]; [apply Hname|]; reflexivity.
    + rewrite HP in Hp. cbn [snd] in Hp.
      replace existing with e by congruence. exact Hp.
  - unfold deleteTool.
    destruct (selectById (tools st) id) as [existing|]; [|assumption].
    cbn [snd]. unfold tools. cbn [db Schema.tools]. fold (tools st).
    apply Forall_forall. intros t Ht. apply list_elem_of_filter in Ht as [_ Ht].
    exact (proj1 (Forall_forall _ _) Hscores t Ht).
  - destruct (createCategory_cases st categoryData newId now)
      as [[_ E]|[(_ & _ & E)|(_ & _ & E)]]; rewrite E; assumption.
Qed.

Lemma updateToolCount_nonneg cats s f :
  (forall c, (exists n, c = Some n /\ (0 <= n)%Z) ->
             exists n, f c = Some n /\ (0 <= n)%Z) ->
  Forall (fun c => exists n, toolCount c = Some n /\ (0 <= n)%Z) cats ->
  Forall (fun c => exists n, toolCount c = Some n /\ (0 <= n)%Z)
         (updateToolCount cats s f).
Proof.
  intros Hf Hall. unfold updateToolCount. apply Forall_fmap.
  eapply Forall_impl; [exact Hall|]. intros c Hc. cbn.
  destruct (decide (cat_slug c = s)); [|exact Hc].
  cbn [toolCount]. apply Hf. exact Hc.
Qed.

(** One request keeps the counters non-negative numbers. *)
Lemma handle_keeps_counts_non_negative (st : State) (now : Z) (req : Request) :
  countsNonNegative st -> countsNonNegative (snd (handle st now req)).
Proof.
  intros Hcounts. unfold countsNonNegative in *.
  destruct req as [toolData newId|id|id updateData|id|categoryData newId];
    cbn [handle].
  - destruct (createTool_cases st toolData newId now) as [[_ E]|[_ E]];
      rewrite E; cbn [snd categories]; [|assumption].
    apply updateToolCount_nonneg; [|assumption].
    intros c (n & -> & Hn). exists (n + 1)%Z. split; [reflexivity|lia].
  - unfold viewTool. destruct (selectById (tools st) id); assumption.
  - destruct (patchTool_cases st id updateData now)
      as [[_ E]|[(existing & n & _ & _ & _ & E)|(existing & _ & _ & E)]];
      rewrite E; assumption.
  - unfold deleteTool.
    destruct (selectById (tools st) id) as [existing|]; [|assumption].
    cbn [snd categories].
    apply updateToolCount_nonneg; [|assumption].
    intros c (n & -> & Hn). exists (Z.max (n - 1) 0). split; [reflexivity|lia].
  - destruct (createCategory_cases st categoryData newId now)
      as [[_ E]|[(_ & _ & E)|(_ & _ & E)]]; rewrite E; cbn [snd categories];
      try assumption.
    apply Forall_app. split; [assumption|].
    constructor; [|constructor]. exists 0%Z. split; [reflexivity|lia].
Qed.

Lemma invariant_empty : invariant empty.
Proof. repeat split; constructor. Qed.

Lemma run_keeps_keys_aux (reqs : list (Z * Request)) (st : State) :
  keysUnique st -> logsReferToTools st -> freshRun st reqs ->
  keysUnique (run st reqs) /\ logsReferToTools (run st reqs)
  /\ (scoresConsistent st -> scoresConsistent (run st reqs)).
Proof.
  revert st. induction reqs as [|[now req] rest IH]; intros st Hkeys Hlogs Hfresh.
  - auto.
  - cbn [run]. destruct Hfresh as [Hreq Hrest].
    destruct (handle_keeps_keys_and_references st now req Hkeys Hlogs Hreq)
      as [Hkeys' Hlogs'].
    destruct (IH _ Hkeys' Hlogs' Hrest) as (Hk & Hl & Hs).
    split; [exact Hk|]. split; [exact Hl|].
    intros Hscores. apply Hs.
    apply handle_keeps_scores_consistent; [apply Hkeys|exact Hscores].
Qed.

Lemma session_fresh : freshRun empty Samples.session.
Proof.
  vm_compute. repeat split; try exact I; intros Hin;
    repeat (apply elem_of_cons in Hin as [Hin|Hin]; [discriminate Hin|]);
    inversion Hin.
Defined.

Lemma keysUnique_empty : keysUnique empty.
Proof. repeat split; constructor. Defined.

Lemma logsReferToTools_empty : logsReferToTools empty.
Proof. constructor. Defined.

(** X8: whatever sequence of creations, views, updates and deletions
    is served, the keys the schema declares unique stay unique (tool
    ids and names, category ids, slugs and names) and every usage event
    stays attached to a tool of the table, provided the database draws
    unused keys for new rows. *)
Theorem run_keeps_keys_and_references (reqs : list (Z * Request)) (st : State) :
  keysUnique st -> logsReferToTools st -> freshRun st reqs ->
  keysUnique (run st reqs) /\ logsReferToTools (run st reqs).
Proof.
  intros Hkeys Hlogs Hfresh.
  destruct (run_keeps_keys_aux reqs st Hkeys Hlogs Hfresh) as (Hk & Hl & _).
  auto.
Qed.

Lemma run_keeps_keys_witness :
  keysUnique (run empty Samples.session)
  /\ logsReferToTools (run empty Samples.session).
Proof.
  apply run_keeps_keys_and_references.
  - exact keysUnique_empty.
  - exact logsReferToTools_empty.
  - exact session_fresh.
Defined.

(** X9: whatever sequence of requests is served, every tool keeps the
    stored [totalScore], [percentage] and [grade] equal to the score
    [calculateToolScore] gives for its stored flags: creation, update,
    view and deletion all preserve it. *)
Theorem run_keeps_scores_consistent (reqs : list (Z * Request)) (st : State) :
  keysUnique st -> logsReferToTools st -> freshRun st reqs ->
  scoresConsistent st -> scoresConsistent (run st reqs).
Proof.
  intros Hkeys Hlogs Hfresh.
  destruct (run_keeps_keys_aux reqs st Hkeys Hlogs Hfresh) as (_ & _ & Hs).
  exact Hs.
Qed.

Lemma run_keeps_scores_witness : scoresConsistent (run empty Samples.session).
Proof.
  apply run_keeps_scores_consistent.
  - exact keysUnique_empty.
  - exact logsReferToTools_empty.
  - exact session_fresh.
  - constructor.
Defined.

(** X10: once every category counter is a non-negative number, it
    stays one whatever requests are served: creation adds one, deletion
    takes one away but stops at zero, a new category starts at zero. *)
Theorem run_keeps_counts_non_negative (reqs : list (Z * Request)) (st : State) :
  countsNonNegative st -> countsNonNegative (run st reqs).
Proof.
  revert st. induction reqs as [|[now req] rest IH]; intros st Hcounts.
  - exact Hcounts.
  - cbn [run]. apply IH. apply handle_keeps_counts_non_negative. exact Hcounts.
Qed.

Lemma run_keeps_counts_witness : countsNonNegative (run empty Samples.session).
Proof. apply run_keeps_counts_non_negative. constructor. Defined.

(** *** Refusals *)

Lemma selectById_None rows id :
  selectById rows id = None <-> id ∉ (Schema.id <$> rows).
Proof.
  unfold selectById. rewrite head_filter_None. split.
  - intros H Hin. apply list_elem_of_fmap in Hin as (t & E & Ht).
    apply (H t Ht). congruence.
  - intros H t Ht E. apply H. apply list_elem_of_fmap. eauto.
Qed.

Lemma handle_missing_tool (st : State) (now : Z) (id : string)
    (updateData : UpdateToolInput) :
  id ∉ (Schema.id <$> tools st) ->
  handle st now (ViewTool id) = (Refused 404 "Tool not found", st)
  /\ handle st now (PatchTool id updateData)
     = (Refused 404 "Tool not found", st)
  /\ handle st now (DeleteTool id) = (Refused 404 "Tool not found", st).
Proof.
  intros Hid. apply selectById_None in Hid.
  cbn [handle]. unfold viewTool, deleteTool. rewrite Hid.
  split; [reflexivity|]. split; [|reflexivity].
  destruct (patchTool_cases st id updateData now)
    as [[_ E]|[(e & n & He & _)|(e & He & _)]];
    [rewrite E; reflexivity|congruence|congruence].
Qed.

Lemma shop_keys : keysWellFormed Samples.shop.
Proof. repeat constructor. Defined.

Lemma keyB_not_in_shop : Samples.keyB ∉ (Schema.id <$> tools Samples.shop).
Proof.
  intros Hin. vm_compute in Hin.
  repeat (apply elem_of_cons in Hin as [Hin|Hin]; [discriminate Hin|]).
  inversion Hin.
Defined.

(** X12: a well-formed tool id that is not in the table is answered 404
    by view, update and deletion alike, and nothing is written: no
    usage event is logged for it and no counter moves; an id that is in
    the table is viewed and deleted with 200. *)
Theorem missing_tool_is_404 (st : State) (now : Z) (id : string)
    (updateData : UpdateToolInput) :
  canonicalUuid id = true ->
  keysWellFormed st ->
  (id ∉ (Schema.id <$> tools st) ->
   handle st now (ViewTool id) = (Refused 404 "Tool not found", st)
   /\ handle st now (PatchTool id updateData)
      = (Refused 404 "Tool not found", st)
   /\ handle st now (DeleteTool id) = (Refused 404 "Tool not found", st))
  /\ (id ∈ (Schema.id <$> tools st) ->
      fst (handle st now (ViewTool id)) = Done 200
      /\ fst (handle st now (DeleteTool id)) = Done 200).
Proof.
  intros _ _. split.
  - apply handle_missing_tool.
  - intros Hid. cbn [handle]. unfold viewTool, deleteTool.
    destruct (selectById (tools st) id) eqn:E; [auto|].
    apply selectById_None in E. contradiction.
Qed.

Lemma missing_tool_witness :
  handle Samples.shop 5 (ViewTool Samples.keyB)
  = (Refused 404 "Tool not found", Samples.shop)
  /\ fst (handle Samples.shop 5 (DeleteTool Samples.keyA)) = Done 200.
Proof.
  destruct (missing_tool_is_404 Samples.shop 5 Samples.keyB Samples.readmeUpdate
              eq_refl shop_keys) as [Hmissing _].
  destruct (missing_tool_is_404 Samples.shop 5 Samples.keyA Samples.readmeUpdate
              eq_refl shop_keys) as [_ Hfound].
  split.
  - apply Hmissing. exact keyB_not_in_shop.
  - apply Hfound. vm_compute. apply list_elem_of_here.
Defined.

Lemma selectById_snoc rows id t :
  id ∉ (Schema.id <$> rows) -> Schema.id t = id ->
  selectById (rows ++ [t]) id = Some t.
Proof.
  intros Hid Et. unfold selectById. rewrite filter_app.
  apply selectById_None in Hid. unfold selectById in Hid.
  destruct (filter (fun t0 => Schema.id t0 = id) rows); [|discriminate].
  rewrite filter_cons, decide_True by exact Et. reflexivity.
Qed.



(** X14: a name or slug cannot be taken twice: after a tool is
    created, a second creation under the same name is refused with 409
    whatever else it says; after a category is created, a second one
    with the same slug is refused with 409 and one with a new slug but
    the same name with 500. *)
Theorem taken_names_are_refused (st : State) (now later : Z) :
  (forall toolData newId other otherId,
     ToolsFacts.nameFree (tools st) toolData ->
     c_name other = c_name toolData ->
     fst (createTool (snd (createTool st toolData newId now)) other otherId later)
     = Failure 409 "Tool already exists")
  /\ (forall categoryData newId other otherId,
        fst (handle st now (CreateCategory categoryData newId)) = Done 201 ->
        let st' := snd (handle st now (CreateCategory categoryData newId)) in
        (cc_slug other = cc_slug categoryData ->
         fst (createCategory st' other otherId later)
         = Failure 409 "Category already exists")
        /\ (cc_slug other ∉ (cat_slug <$> categories st') ->
            cc_name other = cc_name categoryData ->
            fst (createCategory st' other otherId later)
            = Failure 500 "Internal server error")).
Proof.
  split.
  - intros toolData newId other otherId Hfree Hname.
    destruct (createTool_cases st toolData newId now) as [[_ E]|[Hnot _]];
      [|contradiction].
    rewrite E. cbn [snd].
    match goal with
    | |- fst (createTool ?s _ _ _) = _ =>
        destruct (createTool_cases s other otherId later) as [[Hfree' _]|[_ E']]
    end; [|rewrite E'; reflexivity].
    exfalso. unfold ToolsFacts.nameFree, tools in Hfree'.
    cbn [db Schema.tools] in Hfree'. rewrite head_filter_None in Hfree'.
    apply (Hfree' (insertValues toolData newId now)).
    + apply elem_of_app. right. apply list_elem_of_here.
    + unfold insertValues. cbn [Schema.name]. congruence.
  - intros categoryData newId other otherId Hdone st'. unfold st'.
    cbn [handle] in *.
    destruct (createCategory_cases st categoryData newId now)
      as [[_ E]|[(_ & _ & E)|(_ & _ & E)]];
      rewrite E in *; cbn [fst snd answerOf] in *; try discriminate Hdone.
    match goal with
    | |- context [createCategory ?s other otherId later] =>
        destruct (createCategory_cases s other otherId later)
          as [[Hs E']|[(Hs & Hn & E')|(Hs & Hn & E')]]
    end; rewrite E'; cbn [fst categories] in *; split; intros; try reflexivity;
      exfalso.
    + contradiction.
    + apply Hs. rewrite fmap_app. apply elem_of_app. right.
      cbn. apply list_elem_of_singleton. assumption.
    + apply Hs. rewrite fmap_app. apply elem_of_app. right.
      cbn. apply list_elem_of_singleton. assumption.
    + apply Hn. rewrite fmap_app. apply elem_of_app. right.
      cbn. apply list_elem_of_singleton. assumption.
Qed.

(** *** Creation, update and deletion together *)

Lemma filter_all {A : Type} (P : A -> Prop) {Pdec : forall x, Decision (P x)}
    (l : list A) :
  Forall P l -> filter P l = l.
Proof.
  induction 1 as [|x l Hx _ IH]; [reflexivity|].
  rewrite filter_cons, decide_True by exact Hx. rewrite IH. reflexivity.
Qed.

Lemma filter_other_ids (rows : list Schema.Tool) (id : string) :
  id ∉ (Schema.id <$> rows) ->
  filter (fun t => Schema.id t <> id) rows = rows.
Proof.
  intros Hid. apply filter_all. apply Forall_forall. intros t Ht E.
  apply Hid. apply list_elem_of_fmap. eauto.
Qed.

Lemma updateToolCount_twice cats s f g :
  updateToolCount (updateToolCount cats s f) s g
  = updateToolCount cats s (g ∘ f).
Proof.
  unfold updateToolCount. rewrite <- list_fmap_compose.
  apply list_fmap_ext. intros _ c _. cbn.
  destruct (decide (cat_slug c = s)) as [E|E]; cbn [cat_slug].
  - rewrite decide_True by exact E. reflexivity.
  - rewrite decide_False by exact E. reflexivity.
Qed.

Lemma updateToolCount_same cats s f :
  Forall (fun c => f (toolCount c) = toolCount c) cats ->
  updateToolCount cats s f = cats.
Proof.
  intros Hall. unfold updateToolCount.
  induction Hall as [|c cats Hc _ IH]; [reflexivity|].
  rewrite fmap_cons, IH. f_equal.
  destruct (decide (cat_slug c = s)); [|reflexivity].
  rewrite Hc. destruct c; reflexivity.
Qed.

(** X15: creating a tool and deleting it again leaves the database as
    it was: the table of tools, the usage log and, when the counters
    are non-negative numbers, the counters of the categories. *)
Theorem create_then_delete_restores (st : State) (toolData : CreateToolInput)
    (newId : string) (now : Z) :
  ToolsFacts.nameFree (tools st) toolData ->
  newId ∉ (Schema.id <$> tools st) ->
  logsReferToTools st ->
  countsNonNegative st ->
  snd (deleteTool (snd (createTool st toolData newId now)) newId) = st.
Proof.
  intros Hfree Hid Hlogs Hcounts.
  destruct (createTool_cases st toolData newId now) as [[_ E]|[Hnot _]];
    [|contradiction].
  rewrite E. cbn [snd]. unfold deleteTool, tools, logs.
  cbn [db Schema.tools Schema.toolUsageLogs categories].
  fold (tools st) (logs st).
  rewrite (selectById_snoc _ _ (insertValues toolData newId now) Hid eq_refl).
  cbn [snd]. rewrite filter_app, (filter_other_ids _ _ Hid).
  rewrite filter_cons, decide_False by (intros H; apply H; reflexivity).
  rewrite filter_nil, app_nil_r.
  rewrite filter_all.
  2:{ eapply Forall_impl; [exact Hlogs|]. intros e He E'.
      apply Hid. rewrite <- E'. exact He. }
  unfold insertValues. cbn [Schema.category].
  rewrite updateToolCount_twice, updateToolCount_same.
  - destruct st as [[rows events] cats]. reflexivity.
  - eapply Forall_impl; [exact Hcounts|].
    intros c (n & -> & Hn). cbn. f_equal. lia.
Qed.

Lemma shop_logs : logsReferToTools Samples.shop.
Proof. constructor; [apply list_elem_of_here|constructor]. Defined.

(** On a registry that holds a tool, a view and counters at 3 and 2. *)
Lemma create_then_delete_witness :
  snd (deleteTool
         (snd (createTool Samples.shop Samples.swapRequest Samples.keyB 3))
         Samples.keyB)
  = Samples.shop.
Proof.
  apply create_then_delete_restores.
  - reflexivity.
  - exact keyB_not_in_shop.
  - exact shop_logs.
  - constructor; [exists 3%Z; split; [reflexivity|discriminate]|].
    constructor; [exists 2%Z; split; [reflexivity|discriminate]|].
    constructor.
Defined.

Lemma updateById_category rows id updateData su now t cat :
  u_category updateData = Some cat ->
  selectById rows id = Some t ->
  Schema.category <$> selectById (updateById rows id (setRow updateData su now)) id
  = Some cat.
Proof.
  intros Hcat Hsel.
  rewrite (ToolsFacts.selectById_updateById _ _ _ t); [|reflexivity|exact Hsel].
  cbn. rewrite Hcat. reflexivity.
Qed.

Lemma filter_updateById rows id set :
  (forall t, Schema.id (set t) = Schema.id t) ->
  filter (fun t => Schema.id t <> id) (updateById rows id set)
  = filter (fun t => Schema.id t <> id) rows.
Proof.
  intros Hid. unfold updateById. induction rows as [|t rows IH]; [reflexivity|].
  rewrite fmap_cons, !filter_cons, IH.
  destruct (decide (Schema.id t = id)) as [E|E].
  - rewrite decide_False by (rewrite Hid; tauto).
    rewrite decide_False by tauto. reflexivity.
  - rewrite decide_True by exact E. reflexivity.
Qed.

(** X16: the counters drift when a tool changes its category: a tool
    created in one category, moved to another by an update that keeps
    its name and then deleted leaves the tables of tools and of usage events as they
    were, but the counter of the first category one higher, and the
    counter of the second one lower (not below zero) although the tool
    was never counted there. *)
Theorem category_change_drifts_counters (st : State) (toolData : CreateToolInput)
    (newId moved : string) (updateData : UpdateToolInput) (t1 t2 : Z) :
  u_name updateData = None ->
  u_category updateData = Some moved ->
  ToolsFacts.nameFree (tools st) toolData ->
  newId ∉ (Schema.id <$> tools st) ->
  logsReferToTools st ->
  let st1 := snd (createTool st toolData newId t1) in
  let st2 := snd (patchTool st1 newId (updateData) t2) in
  let st3 := snd (deleteTool st2 newId) in
  tools st3 = tools st
  /\ logs st3 = logs st
  /\ categories st3
     = updateToolCount
         (updateToolCount (categories st) (c_category toolData) increment)
         moved decrementNotBelowZero.
Proof.
  intros Hname Hmoved Hfree Hid Hlogs st1 st2 st3.
  destruct (createTool_cases st toolData newId t1) as [[_ E1]|[Hnot _]];
    [|contradiction].
  set (created := insertValues toolData newId t1) in *.
  assert (Hst1 : st1 = {| db := {| Schema.tools := tools st ++ [created];
                                   Schema.toolUsageLogs := logs st |};
                          categories :=
                            updateToolCount (categories st)
                              (c_category toolData) increment |}).
  { unfold st1. rewrite E1. reflexivity. }
  assert (Hsel1 : selectById (tools st1) newId = Some created).
  { rewrite Hst1. unfold tools at 1. cbn [db Schema.tools].
    apply selectById_snoc; [exact Hid|reflexivity]. }
  destruct (patchTool_cases st1 newId (updateData) t2)
    as [[Hnone _]|[(x & n & _ & Hn & _)|(existing & Hsel & _ & E2)]].
  { congruence. }
  { congruence. }
  assert (existing = created) as -> by congruence.
  set (f := setRow (updateData)
              (scoreUpdateOf (updateData) created) t2) in *.
  assert (Hst2 : st2 = {| db := {| Schema.tools := updateById (tools st1) newId f;
                                   Schema.toolUsageLogs := logs st1 |};
                          categories := categories st1 |}).
  { unfold st2. rewrite E2. reflexivity. }
  assert (Hsel2 : selectById (tools st2) newId = Some (f created)).
  { rewrite Hst2. unfold tools at 1. cbn [db Schema.tools].
    apply ToolsFacts.selectById_updateById; [reflexivity|exact Hsel1]. }
  unfold st3, deleteTool. rewrite Hsel2. cbn [snd].
  unfold tools at 1, logs at 1. cbn [db Schema.tools Schema.toolUsageLogs categories].
  rewrite Hst2. unfold tools at 1, logs at 1.
  cbn [db Schema.tools Schema.toolUsageLogs categories].
  rewrite filter_updateById by reflexivity.
  rewrite Hst1. unfold tools at 1, logs at 1.
  cbn [db Schema.tools Schema.toolUsageLogs categories].
  rewrite filter_app, (filter_other_ids _ _ Hid).
  rewrite filter_cons, decide_False by (intros H; apply H; reflexivity).
  rewrite filter_nil, app_nil_r.
  split; [reflexivity|]. split.
  2:{ unfold f. cbn [setRow Schema.category]. rewrite Hmoved. reflexivity. }
  apply filter_all. eapply Forall_impl; [exact Hlogs|]. intros e He E'.
  apply Hid. rewrite <- E'. exact He.
Qed.

(** On the sample session the tool is gone at the end, the counter of
    the category it was created in still says one, and its view went
    with it. *)
Example session_drift :
  let final := run empty Samples.session in
  tools final = [] /\ logs final = []
  /\ (fun c => (cat_slug c, toolCount c)) <$> categories final
     = [("defi", Some 1%Z); ("nft", Some 0%Z)].
Proof. vm_compute. repeat split; reflexivity. Qed.

(** On a registry whose counters say 3 for defi and 2 for nft: a tool
    created in defi, moved to nft and deleted leaves 4 and 1. *)
Lemma category_change_witness :
  (fun c => (cat_slug c, toolCount c))
    <$> categories
          (snd (deleteTool
                  (snd (patchTool
                          (snd (createTool Samples.shop Samples.swapRequest
                                           Samples.keyB 3))
                          Samples.keyB (Samples.moveTo "nft") 5))
                  Samples.keyB))
  = [("defi", Some 4%Z); ("nft", Some 1%Z)].
Proof.
  destruct (category_change_drifts_counters Samples.shop Samples.swapRequest
              Samples.keyB "nft" (Samples.moveTo "nft") 3 5)
    as (_ & _ & Hcats).
  - reflexivity.
  - reflexivity.
  - reflexivity.
  - exact keyB_not_in_shop.
  - exact shop_logs.
  - rewrite Hcats. reflexivity.
Defined.

(** *** Updates *)

Lemma nullish_idem {A : Type} (x : option A) (y : A) :
  nullish x (nullish x y) = nullish x y.
Proof. destruct x; reflexivity. Qed.

Lemma merge_setRow updateData su now t :
  merge updateData (setRow updateData su now t) = merge updateData t.
Proof.
  unfold merge, setRow. ToolsFacts.row_fields.
  rewrite !nullish_idem. reflexivity.
Qed.

Lemma scoreUpdateOf_setRow updateData su now t :
  scoreUpdateOf updateData (setRow updateData su now t)
  = scoreUpdateOf updateData t.
Proof. unfold scoreUpdateOf. rewrite merge_setRow. reflexivity. Qed.

Lemma setRow_twice updateData su now t :
  setRow updateData su now (setRow updateData su now t)
  = setRow updateData su now t.
Proof.
  unfold setRow. ToolsFacts.row_fields. rewrite !nullish_idem.
  destruct su; reflexivity.
Qed.

Lemma updateById_twice rows id set :
  (forall t, Schema.id (set t) = Schema.id t) ->
  (forall t, set (set t) = set t) ->
  updateById (updateById rows id set) id set = updateById rows id set.
Proof.
  intros Hid Hset. unfold updateById. rewrite <- list_fmap_compose.
  apply list_fmap_ext. intros _ t _. cbn.
  destruct (decide (Schema.id t = id)) as [E|E].
  - rewrite decide_True by (rewrite Hid; exact E). apply Hset.
  - rewrite decide_False by exact E. reflexivity.
Qed.

Lemma nameTakenByOther_updateById rows id n set :
  (forall t, Schema.id (set t) = Schema.id t) ->
  nameTakenByOther (updateById rows id set) id n = nameTakenByOther rows id n.
Proof.
  intros Hid. unfold nameTakenByOther. apply bool_decide_ext.
  unfold updateById. rewrite !Exists_exists. split.
  - intros (t' & Hin & Hne & Hname).
    apply list_elem_of_fmap in Hin as (t & -> & Ht).
    destruct (decide (Schema.id t = id)) as [E|E].
    + rewrite Hid in Hne. contradiction.
    + exists t. auto.
  - intros (t & Ht & Hne & Hname). exists t. split; [|auto].
    apply list_elem_of_fmap. exists t. split; [|exact Ht].
    rewrite decide_False by exact Hne. reflexivity.
Qed.

(** X17: an update is idempotent: served a second time with the same
    payload at the same time it gives the same answer and leaves the
    database as the first one left it; the score is not counted twice
    and no flag flips back. *)
Theorem patch_twice_is_once (st : State) (id : string)
    (updateData : UpdateToolInput) (now : Z) :
  patchTool (snd (patchTool st id updateData now)) id updateData now
  = patchTool st id updateData now.
Proof.
  destruct (patchTool_cases st id updateData now)
    as [[_ E]|[(existing & n & _ & _ & _ & E)|(existing & Hsel & Hname & E)]];
    rewrite E; cbn [snd]; try exact E.
  assert (Hsel' : selectById
                    (updateById (tools st) id
                       (setRow updateData (scoreUpdateOf updateData existing) now))
                    id
                  = Some (setRow updateData (scoreUpdateOf updateData existing)
                                 now existing)).
  { apply ToolsFacts.selectById_updateById; [reflexivity|exact Hsel]. }
  match goal with
  | |- patchTool ?s _ _ _ = _ =>
      destruct (patchTool_cases s id updateData now)
        as [[Hnone _]|[(x & n & _ & Hn & Htaken & _)|(x & Hx & _ & E')]]
  end.
  - unfold tools in Hnone. cbn [db Schema.tools] in Hnone.
    fold (tools st) in Hnone. congruence.
  - unfold tools in Htaken. cbn [db Schema.tools] in Htaken.
    fold (tools st) in Htaken.
    rewrite nameTakenByOther_updateById in Htaken by reflexivity.
    rewrite (Hname n Hn) in Htaken. discriminate Htaken.
  - rewrite E'. unfold tools in Hx. cbn [db Schema.tools] in Hx.
    fold (tools st) in Hx.
    assert (x = setRow updateData (scoreUpdateOf updateData existing) now existing)
      as -> by congruence.
    rewrite scoreUpdateOf_setRow, setRow_twice.
    unfold tools at 1, logs at 1.
    cbn [db Schema.tools Schema.toolUsageLogs categories].
    fold (tools st) (logs st).
    rewrite updateById_twice; [reflexivity|reflexivity|].
    intros t. apply setRow_twice.
Qed.

Lemma elem_of_updateById rows id set t' :
  t' ∈ updateById rows id set ->
  exists t, t ∈ rows
    /\ ((Schema.id t = id /\ t' = set t) \/ (Schema.id t <> id /\ t' = t)).
Proof.
  unfold updateById. intros H. apply list_elem_of_fmap in H as (t & -> & Ht).
  exists t. split; [exact Ht|].
  destruct (decide (Schema.id t = id)); auto.
Qed.

(** X18: an update touches one tool and nothing else: the usage log and
    the categories stay as they are (the counters too, even when the
    payload changes the category); the table holds the same keys and,
    for every key but the one of the request, the same rows; a row with
    the key of the request keeps its creation time and its download and
    usage counts. *)
Theorem patch_touches_one_tool (st : State) (id : string)
    (updateData : UpdateToolInput) (now : Z) :
  let st' := snd (patchTool st id updateData now) in
  logs st' = logs st
  /\ categories st' = categories st
  /\ Schema.id <$> tools st' ≡ₚ Schema.id <$> tools st
  /\ filter (fun t => Schema.id t <> id) (tools st')
     ≡ₚ filter (fun t => Schema.id t <> id) (tools st)
  /\ (forall t', t' ∈ tools st' -> Schema.id t' = id ->
        exists t, t ∈ tools st /\ Schema.id t = id
          /\ Schema.createdAt t' = Schema.createdAt t
          /\ Schema.downloadCount t' = Schema.downloadCount t
          /\ Schema.usageCount t' = Schema.usageCount t).
Proof.
  intros st'. unfold st'.
  destruct (patchTool_cases st id updateData now)
    as [[_ E]|[(existing & n & _ & _ & _ & E)|(existing & _ & _ & E)]];
    rewrite E; cbn [snd].
  1,2: repeat split; try reflexivity; intros t' Ht' Hid; exists t'; auto.
  split; [reflexivity|]. split; [reflexivity|].
  assert (Htools : forall rows events cats,
            tools {| db := {| Schema.tools := rows;
                              Schema.toolUsageLogs := events |};
                     categories := cats |} = rows) by reflexivity.
  rewrite !Htools.
  split; [rewrite updateById_ids by reflexivity; reflexivity|].
  split; [rewrite filter_updateById by reflexivity; reflexivity|].
  intros t' Ht' Hid.
  apply elem_of_updateById in Ht' as (t & Ht & [[Et ->]|[Et ->]]).
  - exists t. repeat split; try assumption; reflexivity.
  - contradiction.
Qed.

(** *** Deletion *)

(** X19: a deleted tool is gone with its usage events: the deletion
    of an id of the table is answered 200; afterwards no row has the id
    and no usage event refers to it, the other tools and the events of
    the other tools are all still there, and viewing or deleting the id
    again is refused with 404 and writes nothing. *)
Theorem deleted_tool_is_gone (st : State) (id : string) (now : Z) :
  id ∈ (Schema.id <$> tools st) ->
  let st' := snd (deleteTool st id) in
  fst (deleteTool st id) = Success 200 id
  /\ (id ∉ (Schema.id <$> tools st'))
  /\ Forall (fun e => Schema.log_toolId e <> id) (logs st')
  /\ (forall t, t ∈ tools st -> Schema.id t <> id -> t ∈ tools st')
  /\ (forall e, e ∈ logs st -> Schema.log_toolId e <> id -> e ∈ logs st')
  /\ handle st' now (ViewTool id) = (Refused 404 "Tool not found", st')
  /\ handle st' now (DeleteTool id) = (Refused 404 "Tool not found", st').
Proof.
  intros Hin st'.
  assert (Hst' : st' = {| db := {| Schema.tools :=
                                     filter (fun t => Schema.id t <> id) (tools st);
                                   Schema.toolUsageLogs :=
                                     filter (fun e => Schema.log_toolId e <> id)
                                            (logs st) |};
                          categories := categories st' |}
                 /\ fst (deleteTool st id) = Success 200 id).
  { unfold st', deleteTool.
    destruct (selectById (tools st) id) as [existing|] eqn:Hsel;
      [split; reflexivity|].
    apply selectById_None in Hsel. contradiction. }
  destruct Hst' as [Hst' Hfst].
  assert (Hgone : id ∉ (Schema.id <$> tools st')).
  { rewrite Hst'. unfold tools at 1. cbn [db Schema.tools]. intros Hin'.
    apply list_elem_of_fmap in Hin' as (t & Et & Ht).
    apply list_elem_of_filter in Ht as [Hne _]. congruence. }
  split; [exact Hfst|]. split; [exact Hgone|].
  split; [|split; [|split]].
  - rewrite Hst'. unfold logs at 1. cbn [db Schema.toolUsageLogs].
    apply Forall_forall. intros e He. apply list_elem_of_filter in He. tauto.
  - intros t Ht Hne. rewrite Hst'. unfold tools at 1. cbn [db Schema.tools].
    apply list_elem_of_filter. auto.
  - intros e He Hne. rewrite Hst'. unfold logs at 1. cbn [db Schema.toolUsageLogs].
    apply list_elem_of_filter. auto.
  - destruct (handle_missing_tool st' now id Samples.readmeUpdate Hgone)
      as (Hv & _ & Hd). auto.
Qed.

Lemma deleted_tool_witness :
  let st := snd (createTool empty Samples.swapRequest "t1" 3) in
  "t1" ∉ (Schema.id <$> tools (snd (deleteTool st "t1"))).
Proof.
  apply (deleted_tool_is_gone
           (snd (createTool empty Samples.swapRequest "t1" 3)) "t1" 9).
  vm_compute. apply list_elem_of_here.
Defined.

End RegistryFacts.

(** ** The ranker and the handlers *)

Module TrendingMoreFacts.
Import TrendingRoute TrendingSpec TrendingFacts Registry RegistrySpec.

(** Every row of an answer is a row of the table. *)
Lemma GET_rows_from_table (db : Schema.Db) (now : Z) (q : TrendingQuery)
    (rows : list TrendingTool) (status : nat) :
  GET db now q = Success status rows ->
  forall r, r ∈ rows -> tool r ∈ Schema.tools db.
Proof.
  unfold GET. destruct (trendingData db now q) as [|u data] eqn:Hdata.
  - intros [= _ <-] r Hr.
    apply list_elem_of_fmap in Hr as (t & -> & Ht). cbn [tool].
    unfold fallbackTools in Ht. apply subseteq_take in Ht.
    apply elem_of_sortBy in Ht. rewrite whereCategory_filter in Ht.
    apply list_elem_of_filter in Ht. tauto.
  - intros [= _ <-] r Hr. rewrite <- Hdata in Hr.
    destruct (trendingTools_rows db now q) as (rest & _ & Helem & _).
    destruct (Helem r) as (Hcand & _); [apply elem_of_app; left; exact Hr|].
    unfold candidates in Hcand. apply list_elem_of_filter in Hcand. tauto.
Qed.

(** A key that is not in the table stays out of it as long as no tool
    is created under it. *)
Lemma handle_keeps_absent (st : State) (now : Z) (req : Request) (id : string) :
  id ∉ (Schema.id <$> tools st) ->
  match req with
  | CreateTool _ newId => newId <> id
  | _ => True
  end ->
  id ∉ (Schema.id <$> tools (snd (handle st now req))).
Proof.
  intros Hid Hreq.
  destruct req as [toolData newId|id'|id' updateData|id'|categoryData newId];
    cbn [handle].
  - destruct (RegistryFacts.createTool_cases st toolData newId now)
      as [[_ E]|[_ E]]; rewrite E; cbn [snd]; [|exact Hid].
    unfold tools at 1. cbn [db Schema.tools]. rewrite fmap_app.
    intros Hin. apply elem_of_app in Hin as [Hin|Hin]; [contradiction|].
    apply list_elem_of_singleton in Hin. cbn in Hin. congruence.
  - unfold viewTool.
    destruct (ToolsRoute.selectById (tools st) id') as [existing|]; exact Hid.
  - destruct (RegistryFacts.patchTool_cases st id' updateData now)
      as [[_ E]|[(e & n & _ & _ & _ & E)|(e & _ & _ & E)]];
      rewrite E; cbn [snd]; [exact Hid|exact Hid|].
    unfold tools at 1. cbn [db Schema.tools].
    rewrite RegistryFacts.updateById_ids by reflexivity. exact Hid.
  - unfold deleteTool.
    destruct (ToolsRoute.selectById (tools st) id') as [existing|];
      cbn [snd]; [|exact Hid].
    unfold tools at 1. cbn [db Schema.tools]. intros Hin.
    apply list_elem_of_fmap in Hin as (t & Et & Ht).
    apply list_elem_of_filter in Ht as [_ Ht]. apply Hid.
    apply list_elem_of_fmap. eauto.
  - destruct (RegistryFacts.createCategory_cases st categoryData newId now)
      as [[_ E]|[(_ & _ & E)|(_ & _ & E)]]; rewrite E; exact Hid.
Qed.

Lemma run_keeps_absent (reqs : list (Z * Request)) (st : State) (id : string) :
  id ∉ (Schema.id <$> tools st) ->
  neverCreates id reqs ->
  id ∉ (Schema.id <$> tools (run st reqs)).
Proof.
  revert st. induction reqs as [|[now req] rest IH]; intros st Hid Hreqs.
  - exact Hid.
  - cbn [run]. apply Forall_cons in Hreqs as [Hreq Hrest].
    apply IH; [|exact Hrest]. apply handle_keeps_absent; assumption.
Qed.

(** X20: a deleted tool does not show up in a trending answer again,
    whatever requests are served after the deletion, as long as no
    tool is created under its key (the database draws a new key for
    every tool), and whatever the period, the limit and the category of
    the query, on the usage path and on the fallback path. *)
Theorem deleted_tool_never_trends (st : State) (id : string)
    (reqs : list (Z * Request)) (now : Z) (q : TrendingQuery)
    (rows : list TrendingTool) (status : nat) :
  id ∈ (Schema.id <$> tools st) ->
  neverCreates id reqs ->
  GET (db (run (snd (deleteTool st id)) reqs)) now q = Success status rows ->
  id ∉ (toolKey <$> rows).
Proof.
  intros Hin Hreqs Hget Hrow.
  apply list_elem_of_fmap in Hrow as (r & Er & Hr).
  pose proof (GET_rows_from_table _ _ _ _ _ Hget r Hr) as Ht.
  assert (Hgone : id ∉ (Schema.id <$> tools (snd (deleteTool st id)))).
  { unfold deleteTool.
    destruct (ToolsRoute.selectById (tools st) id) as [existing|] eqn:Hsel.
    - cbn [snd]. unfold tools at 1. cbn [db Schema.tools]. intros Hin'.
      apply list_elem_of_fmap in Hin' as (t & Et & Ht').
      apply list_elem_of_filter in Ht' as [Hne _]. congruence.
    - apply RegistryFacts.selectById_None in Hsel. contradiction. }
  apply (run_keeps_absent reqs _ id Hgone Hreqs).
  apply list_elem_of_fmap. exists (tool r). split; [exact Er|exact Ht].
Qed.

(** Two tools that were both viewed; the first is deleted, the second
    is viewed again, and the ranker is asked. *)
Lemma deleted_tool_never_trends_witness :
  let st := snd (viewTool
                   (snd (createTool Samples.shop Samples.swapRequest
                                    Samples.keyB 3))
                   Samples.keyB 4) in
  exists rows,
    GET (db (run (snd (deleteTool st Samples.keyA))
                 [(5%Z, ViewTool Samples.keyB)])) 6 Samples.topTwoOfDay
    = Success 200 rows
    /\ rows <> []
    /\ Samples.keyA ∉ (toolKey <$> rows).
Proof.
  intros st. eexists. split; [vm_compute; reflexivity|].
  split; [discriminate|].
  apply (deleted_tool_never_trends st Samples.keyA
           [(5%Z, ViewTool Samples.keyB)] 6 Samples.topTwoOfDay _ 200).
  - vm_compute. apply list_elem_of_here.
  - constructor; [exact I|constructor].
  - vm_compute. reflexivity.
Defined.

(** X29: with a usage event inside the lookback window, a limit of
    at least one and unique keys, the ranker answers with at most
    [limit] rows and no tool twice; every row is a tool of the table
    that matches the category and was used in the window; its
    [recentUsage] is its usage count in decimal digits, as a string,
    and its [trendingScore] is that string followed by the decimal
    digits of the stored [totalScore]. *)
Theorem usage_path_rows (db : Schema.Db) (now : Z) (q : TrendingQuery) :
  1 <= limit q ->
  Exists (inLookback now (period q)) (Schema.toolUsageLogs db) ->
  NoDup (Schema.id <$> Schema.tools db) ->
  exists rows : list TrendingTool,
    GET db now q = Success 200 rows
    /\ length rows <= limit q
    /\ NoDup (toolKey <$> rows)
    /\ forall r, r ∈ rows ->
         tool r ∈ Schema.tools db
         /\ categoryMatches (category q) (tool r)
         /\ (0 < usageOf db now (period q) (toolKey r))%Z
         /\ recentUsage r
            = JsString (pretty (usageOf db now (period q) (toolKey r)))
         /\ trendingScore r
            = JsString (pretty (usageOf db now (period q) (toolKey r))
                        +:+ pretty (Schema.totalScore (tool r))).
Proof.
  intros Hlim Hused Hnd.
  destruct (trendingTools_rows db now q) as (rest & Hperm & Helem & Hlen).
  exists (trendingTools db q (trendingData db now q)). split.
  { unfold GET.
    pose proof (trendingData_nonempty db now q Hlim
                  (inWindow_not_nil _ _ _ Hused)) as Hne.
    destruct (trendingData db now q); [congruence|reflexivity]. }
  split; [rewrite Hlen; lia|]. split.
  { pose proof (candidates_NoDup db now q Hnd) as Hc.
    rewrite <- Hperm, fmap_app in Hc. apply NoDup_app in Hc as [Hc _].
    unfold toolKey. rewrite (list_fmap_compose tool Schema.id). exact Hc. }
  intros r Hr.
  destruct (Helem r) as (Hcand & Husage & Hscore);
    [apply elem_of_app; left; exact Hr|].
  unfold candidates in Hcand.
  apply list_elem_of_filter in Hcand as [[Hcat Hk] Hin].
  rewrite usageOf_windowUsage.
  split; [exact Hin|]. split; [exact Hcat|].
  split; [apply (trendingData_key_used _ _ _ _ Hk)|].
  split; [exact Husage|exact Hscore].
Qed.

(** On the table with five, four and one views. *)
Lemma usage_path_witness :
  exists rows : list TrendingTool,
    GET Samples.crowdedDb 2000 Samples.topTwoOfDay = Success 200 rows
    /\ length rows <= 2
    /\ NoDup (toolKey <$> rows)
    /\ summary (Success 200 rows)
       = [("A", JsString "510", JsString "5"); ("B", JsString "420", JsString "4")].
Proof.
  destruct (usage_path_rows Samples.crowdedDb 2000 Samples.topTwoOfDay)
    as (rows & Hget & Hlen & Hnd & _).
  - cbn. lia.
  - apply Exists_cons_hd. vm_compute. discriminate.
  - exact crowdedDb_keys.
  - exists rows. split; [exact Hget|]. split; [exact Hlen|].
    split; [exact Hnd|]. rewrite <- Hget. vm_compute. reflexivity.
Defined.

Lemma threshold_le_now (now : Z) (p : Period) : (threshold now p <= now)%Z.
Proof. unfold threshold. destruct p; cbn [periodDays]; lia. Qed.

Lemma countFor_app logs1 logs2 k :
  countFor (logs1 ++ logs2) k = (countFor logs1 k + countFor logs2 k)%Z.
Proof.
  unfold countFor. rewrite filter_app, length_app. lia.
Qed.

Lemma inWindow_app logs1 logs2 th :
  inWindow (logs1 ++ logs2) th = inWindow logs1 th ++ inWindow logs2 th.
Proof. unfold inWindow. apply filter_app. Qed.

(** X21: a view counts for the ranking at once: after a tool of the
    table is viewed, its usage count in every window that ends at the
    time of the view is one higher and the counts of the other tools
    are unchanged; a trending query served at that time does not take
    the fallback path: every row it returns has been used in the
    window, and carries its usage count in decimal digits as
    [recentUsage]. *)
Theorem view_counts_for_trending (st : State) (id : string) (now : Z)
    (q : TrendingQuery) :
  id ∈ (Schema.id <$> tools st) ->
  1 <= limit q ->
  let st' := snd (viewTool st id now) in
  windowUsage (db st') now q id = (windowUsage (db st) now q id + 1)%Z
  /\ (forall k, k <> id ->
        windowUsage (db st') now q k = windowUsage (db st) now q k)
  /\ exists rows, GET (db st') now q = Success 200 rows
       /\ forall r, r ∈ rows ->
            recentUsage r
            = JsString (pretty (windowUsage (db st') now q (toolKey r)))
            /\ (0 < windowUsage (db st') now q (toolKey r))%Z.
Proof.
  intros Hin Hlim st'.
  assert (Hst' : Schema.toolUsageLogs (db st')
                 = logs st ++ [ {| Schema.log_toolId := id;
                                   Schema.log_action := "view";
                                   Schema.log_createdAt := now |} ]
                 /\ Schema.tools (db st') = tools st).
  { unfold st', viewTool.
    destruct (ToolsRoute.selectById (tools st) id) eqn:Hsel;
      [split; reflexivity|].
    apply RegistryFacts.selectById_None in Hsel. contradiction. }
  destruct Hst' as [Hlogs Htools].
  assert (Hwin : inWindow (Schema.toolUsageLogs (db st')) (threshold now (period q))
                 = inWindow (logs st) (threshold now (period q))
                   ++ [ {| Schema.log_toolId := id;
                           Schema.log_action := "view";
                           Schema.log_createdAt := now |} ]).
  { rewrite Hlogs, inWindow_app. f_equal. unfold inWindow.
    rewrite filter_cons, decide_True; [reflexivity|].
    cbn [Schema.log_createdAt]. apply threshold_le_now. }
  split; [|split].
  - unfold windowUsage. rewrite Hwin, countFor_app. f_equal.
    unfold countFor. rewrite filter_cons, decide_True by reflexivity.
    reflexivity.
  - intros k Hk. unfold windowUsage. rewrite Hwin, countFor_app.
    unfold logs. replace (countFor [_] k) with 0%Z; [lia|].
    unfold countFor. rewrite filter_cons, decide_False; [reflexivity|].
    cbn [Schema.log_toolId]. congruence.
  - exists (trendingTools (db st') q (trendingData (db st') now q)). split.
    + unfold GET.
      assert (Hne : trendingData (db st') now q <> []).
      { apply trendingData_nonempty; [exact Hlim|].
        rewrite Hwin. intros E. apply app_eq_nil in E as [_ E]. discriminate E. }
      destruct (trendingData (db st') now q); [congruence|reflexivity].
    + intros r Hr.
      destruct (trendingTools_rows (db st') now q) as (rest & _ & Helem & _).
      destruct (Helem r) as (Hcand & Husage & _);
        [apply elem_of_app; left; exact Hr|].
      split; [exact Husage|].
      unfold candidates in Hcand.
      apply list_elem_of_filter in Hcand as [[_ Hk] _].
      apply (trendingData_key_used _ _ _ _ Hk).
Qed.

Lemma view_counts_witness :
  let st := snd (createTool empty Samples.swapRequest "t1" 3) in
  windowUsage (db (snd (viewTool st "t1" 4))) 4 Samples.topTwoOfDay "t1" = 1%Z.
Proof.
  apply (view_counts_for_trending
           (snd (createTool empty Samples.swapRequest "t1" 3)) "t1" 4
           Samples.topTwoOfDay).
  - vm_compute. apply list_elem_of_here.
  - cbn. lia.
Defined.

Lemma countFor_inWindow_mono logs th1 th2 k :
  (th2 <= th1)%Z ->
  (countFor (inWindow logs th1) k <= countFor (inWindow logs th2) k)%Z.
Proof.
  intros Hth. unfold countFor, inWindow.
  induction logs as [|e logs IH]; [reflexivity|].
  rewrite !(filter_cons _ e logs).
  destruct (decide (th1 <= Schema.log_createdAt e)%Z) as [H1|H1].
  - rewrite decide_True by lia. rewrite !filter_cons.
    destruct (decide (Schema.log_toolId e = k)); cbn [length]; lia.
  - destruct (decide (th2 <= Schema.log_createdAt e)%Z); [|exact IH].
    rewrite filter_cons.
    destruct (decide (Schema.log_toolId e = k)); cbn [length]; lia.
Qed.

(** X22: a longer period never counts less: for every tool, the usage
    in the window of a day is at most the usage in the window of a week,
    which is at most the usage in the window of a month, at the same
    time. *)
Theorem longer_period_counts_more (db : Schema.Db) (now : Z) (k : string)
    (li : nat) (cat : option string) :
  (windowUsage db now (mkTrendingQuery day li cat) k
   <= windowUsage db now (mkTrendingQuery week li cat) k)%Z
  /\ (windowUsage db now (mkTrendingQuery week li cat) k
      <= windowUsage db now (mkTrendingQuery month li cat) k)%Z.
Proof.
  unfold windowUsage. cbn [period].
  split; apply countFor_inWindow_mono; unfold threshold; cbn [periodDays]; lia.
Qed.

End TrendingMoreFacts.

(** ** Pages of a listing *)

Module ListingFacts.
Import Listing.

Lemma Math_ceil_bounds (t l : Z) :
  (0 < l)%Z ->
  let q := Math_ceil (inject_Z t / inject_Z l) in
  ((q - 1) * l < t <= q * l)%Z.
Proof.
  intros Hl q. destruct l as [|p|p]; try lia.
  pose proof (Qle_ceiling (inject_Z t / inject_Z (Z.pos p))) as Hle.
  pose proof (Qceiling_lt (inject_Z t / inject_Z (Z.pos p))) as Hlt.
  fold (Math_ceil (inject_Z t / inject_Z (Z.pos p))) in Hle, Hlt. fold q in Hle, Hlt.
  unfold Qle, Qlt, Qdiv, Qmult, Qinv, inject_Z in Hle, Hlt.
  cbn [Qnum Qden Pos.mul] in Hle, Hlt.
  rewrite ?Z.mul_1_r, ?Pos.mul_1_r in Hle, Hlt. lia.
Qed.

(** The number of pages as a natural number. *)
Lemma totalPages_bounds {A : Type} (matching : list A) (p l : nat) :
  1 <= l ->
  exists n : nat,
    totalPages (paginate matching p l) = Z.of_nat n
    /\ (n - 1) * l <= length matching <= n * l
    /\ (n = 0 <-> matching = [])
    /\ (0 < n -> (n - 1) * l < length matching).
Proof.
  intros Hl. unfold paginate. cbn [totalPages].
  assert (Et : num_or (Some (Z.of_nat (length matching))) 0
               = Z.of_nat (length matching)).
  { cbn. destruct (Z.eqb_spec (Z.of_nat (length matching)) 0); lia. }
  rewrite Et.
  pose proof (Math_ceil_bounds (Z.of_nat (length matching)) (Z.of_nat l)) as Hb.
  cbv zeta in Hb.
  set (q := Math_ceil (inject_Z (Z.of_nat (length matching)) / inject_Z (Z.of_nat l))) in *.
  assert (Hq : ((q - 1) * Z.of_nat l < Z.of_nat (length matching) <= q * Z.of_nat l)%Z)
    by (apply Hb; lia).
  assert (Hq0 : (0 <= q)%Z) by nia.
  exists (Z.to_nat q). split; [lia|].
  assert (Hn : Z.of_nat (Z.to_nat q) = q) by lia.
  split; [split; nia|]. split.
  - split.
    + intros E. apply nil_length_inv. nia.
    + intros ->. cbn [length] in Hq. nia.
  - intros Hpos. nia.
Qed.

Lemma pages_prefix {A : Type} (matching : list A) (l n : nat) :
  concat ((fun p => items (paginate matching p l)) <$> seq 1 n)
  = take (n * l) matching.
Proof.
  induction n as [|n IH]; [reflexivity|].
  rewrite seq_S, fmap_app, concat_app, IH. cbn [fmap list_fmap concat].
  rewrite app_nil_r. unfold paginate. cbn [items].
  replace (1 + n - 1) with n by lia.
  rewrite take_take_drop. f_equal. lia.
Qed.

(** X23: the pages of a listing tile the result: read one after the
    other, the pages 1 to [totalPages] give every matching row exactly
    once, in order; no page holds more than [limit] rows. *)
Theorem pages_tile_the_result {A : Type} (matching : list A) (l : nat) :
  1 <= l ->
  concat ((fun p => items (paginate matching p l))
            <$> seq 1 (Z.to_nat (totalPages (paginate matching 1 l))))
  = matching
  /\ forall p, length (items (paginate matching p l)) <= l.
Proof.
  intros Hl. split.
  - destruct (totalPages_bounds matching 1 l Hl) as (n & -> & Hn & _).
    rewrite Nat2Z.id, pages_prefix. apply take_ge. lia.
  - intros p. unfold paginate. cbn [items]. rewrite length_take. lia.
Qed.

Lemma pages_tile_witness :
  concat ((fun p => items (paginate [1; 2; 3; 4; 5] p 2))
            <$> seq 1 (Z.to_nat (totalPages (paginate [1; 2; 3; 4; 5] 1 2))))
  = [1; 2; 3; 4; 5].
Proof. apply (pages_tile_the_result [1; 2; 3; 4; 5] 2). lia. Defined.

(** X24: [totalPages] is the number of the last page that holds a row:
    it is 0 exactly when nothing matches; a page from 1 to [totalPages]
    is never empty and every page before the last is full; a page
    beyond [totalPages] is empty. *)
Theorem total_pages_is_last_page {A : Type} (matching : list A) (p l : nat) :
  1 <= l -> 1 <= p ->
  let r := paginate matching p l in
  (totalPages r = 0%Z <-> matching = [])
  /\ total r = Z.of_nat (length matching)
  /\ (items r = [] <-> (totalPages r < Z.of_nat p)%Z)
  /\ ((Z.of_nat p < totalPages r)%Z -> length (items r) = l).
Proof.
  intros Hl Hp r.
  destruct (totalPages_bounds matching p l Hl) as (n & En & Hn & Hzero & Hpos).
  fold r in En. rewrite En.
  split; [rewrite <- Hzero; lia|].
  split.
  { unfold r, paginate. cbn [total num_or].
    destruct (Z.eqb_spec (Z.of_nat (length matching)) 0); lia. }
  unfold r, paginate. cbn [items]. split; [split|].
  - intros E. apply take_nil_inv in E as [E|E]; [lia|].
    apply drop_nil_inv in E.
    destruct (decide (n = 0)) as [->|Hn0]; [lia|].
    assert ((n - 1) * l < (p - 1) * l) by lia. nia.
  - intros Hlt. rewrite drop_ge; [apply take_nil|].
    assert (n * l <= (p - 1) * l) by nia. lia.
  - intros Hlt. rewrite length_take, length_drop.
    assert (p * l <= (n - 1) * l) by nia.
    assert ((p - 1) * l + l = p * l) by nia. lia.
Qed.

Lemma total_pages_witness :
  totalPages (paginate [1; 2; 3; 4; 5] 4 2) = 3%Z
  /\ items (paginate [1; 2; 3; 4; 5] 4 2) = [].
Proof.
  destruct (total_pages_is_last_page [1; 2; 3; 4; 5] 4 2) as (_ & _ & Hempty & _);
    [lia|lia|].
  assert (E : totalPages (paginate [1; 2; 3; 4; 5] 4 2) = 3%Z)
    by (vm_compute; reflexivity).
  split; [exact E|]. apply Hempty. rewrite E. lia.
Defined.

End ListingFacts.

(** ** Health, discovery and the list of categories *)

Module MoreRouteFacts.
Import Registry.

Lemma length_filter_split (logs : list Schema.ToolUsageLog) (th : Z) :
  length (filter (fun e => (th <= Schema.log_createdAt e)%Z) logs)
  = length (filter (fun e => (th < Schema.log_createdAt e)%Z) logs)
    + length (filter (fun e => Schema.log_createdAt e = th) logs).
Proof.
  induction logs as [|e logs IH]; [reflexivity|].
  rewrite !filter_cons.
  destruct (decide (th <= Schema.log_createdAt e)%Z);
    destruct (decide (th < Schema.log_createdAt e)%Z);
    destruct (decide (Schema.log_createdAt e = th)); cbn [length]; lia.
Qed.

(** X25: the recent activity of the health check and the usage the
    ranker counts for the period of a day, at the same time, differ by
    the usage events that are exactly 24 hours old: the health check
    compares their time with [>], the ranker with [>=].  So the recent
    activity is never more than what the ranker counts. *)
Theorem health_recent_activity (st : State) (now : Z) :
  let h := Health.stats st now in
  let counted :=
    Z.of_nat (length (TrendingRoute.inWindow (logs st)
                        (TrendingRoute.threshold now TrendingRoute.day))) in
  counted
  = (Health.recentActivity h
     + Z.of_nat (length (filter (fun e => Schema.log_createdAt e
                                          = (now - 24 * 60 * 60 * 1000)%Z)
                                (logs st))))%Z
  /\ (0 <= Health.recentActivity h <= counted)%Z.
Proof.
  intros h counted.
  assert (E : counted
              = (Health.recentActivity h
                 + Z.of_nat (length (filter (fun e => Schema.log_createdAt e
                                               = (now - 24 * 60 * 60 * 1000)%Z)
                                            (logs st))))%Z).
  { unfold counted, h, Health.stats. cbn [Health.recentActivity].
    rewrite TrendingFacts.num_or_0. unfold Health.countWhere.
    unfold TrendingRoute.inWindow, TrendingRoute.threshold.
    cbn [TrendingRoute.periodDays]. rewrite Z.mul_1_l.
    rewrite length_filter_split. lia. }
  split; [exact E|].
  assert (0 <= Health.recentActivity h)%Z; [|lia].
  unfold h, Health.stats. cbn [Health.recentActivity].
  rewrite TrendingFacts.num_or_0. unfold Health.countWhere. lia.
Qed.

(** X26: the list of categories shows every category once, ordered by
    tool count descending with the categories without a count first. *)
Theorem categories_listed_by_count (st : State) :
  exists listed,
    listCategories st = Success 200 listed
    /\ listed ≡ₚ categories st
    /\ StronglySorted
         (fun x y => match toolCount x, toolCount y with
                     | None, _ => True
                     | Some _, None => False
                     | Some a, Some b => (b <= a)%Z
                     end) listed.
Proof.
  exists (sortBy byToolCountDesc (categories st)).
  split; [reflexivity|]. split; [apply sortBy_Permutation|].
  eapply TrendingFacts.StronglySorted_impl;
    [|apply (sortBy_StronglySorted byToolCountDesc)].
  - intros x y. unfold byToolCountDesc.
    destruct (toolCount x), (toolCount y); try tauto; try discriminate.
    apply Z.leb_le.
  - intros x y. unfold byToolCountDesc.
    destruct (toolCount x), (toolCount y); auto. rewrite !Z.leb_le. lia.
  - intros x y z. unfold byToolCountDesc.
    destruct (toolCount x), (toolCount y), (toolCount z); auto;
      try discriminate. rewrite !Z.leb_le. lia.
Qed.

(** *** The discovery queue *)

Lemma discovery_POST_cases queue submissionData newId now :
  let newItem :=
    {| Discovery.id := newId;
       Discovery.name := Discovery.s_name submissionData;
       Discovery.description := Discovery.s_description submissionData;
       Discovery.sourceUrl := Discovery.s_sourceUrl submissionData;
       Discovery.sourceType := Discovery.s_sourceType submissionData;
       Discovery.securityScore := Discovery.s_securityScore submissionData;
       Discovery.qualityScore := Discovery.s_qualityScore submissionData;
       Discovery.status := Some "pending";
       Discovery.createdAt := now |} in
  (Discovery.s_sourceUrl submissionData ∈ (Discovery.sourceUrl <$> queue)
   /\ Discovery.POST queue submissionData newId now
      = (Failure 409 "Already in queue", queue))
  \/ ((Discovery.s_sourceUrl submissionData ∉ (Discovery.sourceUrl <$> queue))
      /\ Discovery.POST queue submissionData newId now
         = (Success 201 newItem, queue ++ [newItem])).
Proof.
  intros newItem. unfold Discovery.POST.
  destruct (head (filter _ queue)) as [d|] eqn:Hhead.
  - left. split; [|reflexivity].
    apply RegistryFacts.head_filter_Some in Hhead as [<- Hd].
    apply list_elem_of_fmap. eauto.
  - right. split; [|reflexivity].
    intros Hin. apply list_elem_of_fmap in Hin as (d & E & Hd).
    rewrite RegistryFacts.head_filter_None in Hhead. apply (Hhead d Hd). congruence.
Qed.

(** X27: the discovery queue never holds a source URL twice: a
    submission keeps the source URLs of the queue distinct, a URL that
    is queued already is refused with 409 and the queue is left as it
    is, and a new URL is queued with status [pending]. *)
Theorem discovery_keeps_urls_distinct (queue : list Discovery.DiscoveryQueueItem)
    (submissionData : Discovery.SubmitDiscoveryInput) (newId : string) (now : Z) :
  NoDup (Discovery.sourceUrl <$> queue) ->
  let answer := fst (Discovery.POST queue submissionData newId now) in
  let queue' := snd (Discovery.POST queue submissionData newId now) in
  NoDup (Discovery.sourceUrl <$> queue')
  /\ (Discovery.s_sourceUrl submissionData ∈ (Discovery.sourceUrl <$> queue) ->
      answer = Failure 409 "Already in queue" /\ queue' = queue)
  /\ ((Discovery.s_sourceUrl submissionData ∉ (Discovery.sourceUrl <$> queue)) ->
      exists item, answer = Success 201 item /\ queue' = queue ++ [item]
        /\ Discovery.status item = Some "pending"
        /\ Discovery.sourceUrl item = Discovery.s_sourceUrl submissionData).
Proof.
  intros Hnd answer queue'. unfold answer, queue'.
  destruct (discovery_POST_cases queue submissionData newId now)
    as [[Hin E]|[Hout E]]; rewrite E; cbn [fst snd].
  - split; [exact Hnd|]. split; [auto|]. intros Hout. contradiction.
  - split; [|split].
    + rewrite fmap_app. apply RegistryFacts.NoDup_snoc; assumption.
    + intros Hin. contradiction.
    + intros _. eexists. repeat split; reflexivity.
Qed.

(** On a queue that holds one item: another URL is queued behind it,
    its own URL is refused. *)
Lemma discovery_urls_witness :
  NoDup (Discovery.sourceUrl
           <$> snd (Discovery.POST [Samples.queued]
                      (Samples.submission "https://example.org/other") "d2" 9))
  /\ Discovery.POST [Samples.queued]
       (Samples.submission "https://example.org/tool") "d3" 9
     = (Failure 409 "Already in queue", [Samples.queued]).
Proof.
  assert (Hqueue : NoDup (Discovery.sourceUrl <$> [Samples.queued])).
  { apply NoDup_singleton. }
  destruct (discovery_keeps_urls_distinct [Samples.queued]
              (Samples.submission "https://example.org/other") "d2" 9 Hqueue)
    as (Hnd & _ & _).
  destruct (discovery_keeps_urls_distinct [Samples.queued]
              (Samples.submission "https://example.org/tool") "d3" 9 Hqueue)
    as (_ & Htaken & _).
  split; [exact Hnd|].
  destruct Htaken as [Hanswer Hsame]; [apply list_elem_of_here|].
  rewrite (surjective_pairing (Discovery.POST _ _ _ _)).
  rewrite Hanswer, Hsame. reflexivity.
Defined.

(** X28: the list of the discovery queue holds the 50 newest items of
    the status asked for ([pending] when the parameter is missing or
    empty), or all of them when there are fewer: each is an item of the
    queue with that status, they come newest first, and an item of that
    status that is left out is no newer than any item listed. *)
Theorem discovery_list_is_bounded (queue : list Discovery.DiscoveryQueueItem)
    (statusParam : option string) :
  let wanted := match statusParam with
                | Some s => if decide (s = "") then "pending" else s
                | None => "pending"
                end in
  exists listed,
    Discovery.GET queue statusParam = Success 200 listed
    /\ length listed <= 50
    /\ Forall (fun d => Discovery.status d = Some wanted /\ d ∈ queue) listed
    /\ StronglySorted
         (fun x y => (Discovery.createdAt y <= Discovery.createdAt x)%Z) listed
    /\ length listed
       = min 50 (length (filter (fun d => Discovery.status d = Some wanted) queue))
    /\ (forall d, d ∈ queue -> Discovery.status d = Some wanted ->
          d ∈ listed
          \/ forall x, x ∈ listed ->
                       (Discovery.createdAt d <= Discovery.createdAt x)%Z).
Proof.
  intros wanted.
  assert (Hwanted : match truthy_string statusParam with
                    | Some s => s
                    | None => "pending"
                    end = wanted).
  { unfold wanted. destruct statusParam as [[|a s]|]; reflexivity. }
  destruct (take_sortBy_top Discovery.newestFirst) with
    (n := 50) (l := filter (fun d => Discovery.status d = Some wanted) queue)
    as (Hsorted & Hperm & Htop & Hlen).
  { intros x y. unfold Discovery.newestFirst. rewrite !Z.leb_le. lia. }
  { intros x y z. unfold Discovery.newestFirst. rewrite !Z.leb_le. lia. }
  eexists. split; [unfold Discovery.GET; rewrite Hwanted; reflexivity|].
  split; [rewrite Hlen; lia|]. split; [|split; [|split; [exact Hlen|]]].
  - apply Forall_forall. intros d Hd. apply subseteq_take in Hd.
    apply elem_of_sortBy in Hd. apply list_elem_of_filter in Hd. exact Hd.
  - eapply TrendingFacts.StronglySorted_impl; [|exact Hsorted].
    intros x y. unfold Discovery.newestFirst. apply Z.leb_le.
  - intros d Hd Hstatus.
    assert (Hin : d ∈ filter (fun d => Discovery.status d = Some wanted) queue)
      by (apply list_elem_of_filter; auto).
    rewrite Hperm in Hin. apply elem_of_app in Hin as [Hin|Hin];
      [left; exact Hin|right].
    intros x Hx. specialize (Htop x d Hx Hin).
    unfold Discovery.newestFirst in Htop. apply Z.leb_le in Htop. exact Htop.
Qed.

End MoreRouteFacts.
